(** * A shallow embedding of the MySQL adapter (lib/mysql.js)

    The adapter is JavaScript.  Its values are modelled by a small universe
    of JavaScript values living in a store: primitives are immediate, arrays,
    plain objects and [Date]s are store objects reached through references,
    so that a write through one reference is seen through every alias.

    Conventions of the model:
    - numbers are the integers (plus [NaN]); fractional and infinite numbers
      are outside the model, and so is the exponent notation that JavaScript
      uses to print integers of magnitude 10^21 and more;
    - strings are byte strings; the adapter only inspects ASCII characters
      (dot, comma, white space, letter case of ASCII letters);
    - a plain object is the list of its own enumerable properties in
      [Object.keys] order, with [Object.prototype] as its prototype; stored
      values are never functions, so an own property that shadows a built-in
      method is not callable;
    - objects that the adapter uses as dictionaries (the properties and the
      indexes of a model, its own [ai]) are plain objects too: a lookup
      under a name that is no own property finds the member of
      [Object.prototype] of that name, if there is one;
    - [Object.keys] is that of ECMAScript 5, which rejects primitives;
    - what the adapter uses without defining it (the string escaper of
      lib/protocol/SqlString.js, [Date.parse], the conversion of objects to
      strings, [tableEscaped] of jugglingdb) is a field of the record
      [runtime]; the pool and the connection of the driver are a record
      [driver]. *)

From Stdlib Require Import ZArith String Ascii List Lia DecimalString.
From stdpp Require Import base gmap strings list.

Open Scope Z_scope.

(** ** JavaScript values and the store *)

Module JS.

Abbreviation loc := nat.

Inductive value : Type :=
| VUndef
| VNull
| VBool (b : bool)
| VNum (n : Z)
| VNaN
| VStr (s : string)
| VRef (l : loc).

Arguments VRef l%_nat.

Inductive obj : Type :=
| OArray (elems : list value)
| OPlain (fields : list (string * value))
| ODate (t : option Z).

Abbreviation heap := (gmap loc obj).

Inductive error : Type :=
| TypeError (msg : string)
| Error (msg : string)
| Dangling (l : loc).

Inductive result (A : Type) : Type :=
| Ok (a : A)
| Throw (e : error)
| OutOfFuel.

Arguments Ok {A} a.
Arguments Throw {A} e.
Arguments OutOfFuel {A}.

#[global] Instance result_ret : MRet result := fun A a => Ok a.

#[global] Instance result_bind : MBind result := fun A B k m =>
  match m with
  | Ok a => k a
  | Throw e => Throw e
  | OutOfFuel => OutOfFuel
  end.

#[global] Instance value_eq_dec : EqDecision value.
Proof. solve_decision. Defined.

#[global] Instance obj_eq_dec : EqDecision obj.
Proof. solve_decision. Defined.

(** Association lists: the own properties of a plain object. *)
Fixpoint assoc {A} (k : string) (fs : list (string * A)) : option A :=
  match fs with
  | [] => None
  | (k', v) :: fs' => if String.eqb k k' then Some v else assoc k fs'
  end.

Definition hasKey {A} (k : string) (fs : list (string * A)) : bool :=
  match assoc k fs with Some _ => true | None => false end.

(** The names of the members that a plain object inherits from
    [Object.prototype]: functions and the accessor [__proto__], all of
    them truthy. *)
Definition objectPrototype : list string :=
  ["constructor"; "toString"; "toLocaleString"; "valueOf"; "hasOwnProperty";
   "isPrototypeOf"; "propertyIsEnumerable"; "__defineGetter__";
   "__defineSetter__"; "__lookupGetter__"; "__lookupSetter__"; "__proto__"].

Definition inherited (k : string) : bool :=
  bool_decide (k ∈ objectPrototype).

(** [!!v], the truthiness of a value. *)
Definition truthy (v : value) : bool :=
  match v with
  | VUndef | VNull | VNaN => false
  | VBool b => b
  | VNum n => negb (n =? 0)
  | VStr s => negb (String.eqb s EmptyString)
  | VRef _ => true
  end.

(** [typeof v]. *)
Definition typeof (v : value) : string :=
  match v with
  | VUndef => "undefined"
  | VNull | VRef _ => "object"
  | VBool _ => "boolean"
  | VNum _ | VNaN => "number"
  | VStr _ => "string"
  end.

(** Decimal rendering of an integer, as [ToString] does for numbers. *)
Definition numToString (n : Z) : string :=
  NilZero.string_of_int (Z.to_int n).

(** A number that may be [NaN], rendered. *)
Definition numStr (n : option Z) : string :=
  match n with
  | Some z => numToString z
  | None => "NaN"
  end.

Definition ofNumber (n : option Z) : value :=
  match n with
  | Some z => VNum z
  | None => VNaN
  end.

(** The decimal index denoted by a property key, if it is one. *)
Definition keyOfIndex (i : nat) : string := numToString (Z.of_nat i).

Fixpoint charAt (s : string) (i : nat) : value :=
  match s, i with
  | EmptyString, _ => VUndef
  | String c _, O => VStr (String c EmptyString)
  | String _ s', S i' => charAt s' i'
  end.

(** [v.length] for a value that is neither [null] nor [undefined]:
    strings and arrays have a length of their own, a plain object has one
    if it has an own property of that name. *)
Definition getLength (h : heap) (v : value) : result value :=
  match v with
  | VUndef | VNull => Throw (TypeError "Cannot read property 'length'")
  | VStr s => Ok (VNum (Z.of_nat (String.length s)))
  | VBool _ | VNum _ | VNaN => Ok VUndef
  | VRef l =>
      match h !! l with
      | Some (OArray xs) => Ok (VNum (Z.of_nat (List.length xs)))
      | Some (OPlain fs) => Ok (default VUndef (assoc "length" fs))
      | Some (ODate _) => Ok VUndef
      | None => Throw (Dangling l)
      end
  end.

(** [v[i]] for a numeric index [i]. *)
Definition getIndex (h : heap) (v : value) (i : nat) : result value :=
  match v with
  | VUndef | VNull => Throw (TypeError "Cannot read property of null or undefined")
  | VStr s => Ok (charAt s i)
  | VBool _ | VNum _ | VNaN => Ok VUndef
  | VRef l =>
      match h !! l with
      | Some (OArray xs) => Ok (default VUndef (xs !! i))
      | Some (OPlain fs) => Ok (default VUndef (assoc (keyOfIndex i) fs))
      | Some (ODate _) => Ok VUndef
      | None => Throw (Dangling l)
      end
  end.

(** The elements of an array as properties keyed by their indices. *)
Definition indexed (xs : list value) : list (string * value) :=
  imap (fun i x => (keyOfIndex i, x)) xs.

(** [v[k]] for a key [k] that names no built-in member and is not [length]:
    the own properties of plain objects and the elements of arrays. *)
Definition getField (h : heap) (v : value) (k : string) : result value :=
  match v with
  | VUndef | VNull => Throw (TypeError "Cannot read property of null or undefined")
  | VBool _ | VNum _ | VNaN | VStr _ => Ok VUndef
  | VRef l =>
      match h !! l with
      | Some (OPlain fs) => Ok (default VUndef (assoc k fs))
      | Some (OArray xs) => Ok (default VUndef (assoc k (indexed xs)))
      | Some (ODate _) => Ok VUndef
      | None => Throw (Dangling l)
      end
  end.

(** [Object.keys(v)] (ECMAScript 5: a primitive is rejected). *)
Definition objectKeys (h : heap) (v : value) : result (list string) :=
  match v with
  | VRef l =>
      match h !! l with
      | Some (OPlain fs) => Ok (map fst fs)
      | Some (OArray xs) => Ok (map fst (indexed xs))
      | Some (ODate _) => Ok []
      | None => Throw (Dangling l)
      end
  | _ => Throw (TypeError "Object.keys called on non-object")
  end.

(** [v.constructor.name === 'Object'] for a value that is neither [null]
    nor [undefined].  The constructor of a primitive, an array or a date is
    the built-in [Number], [String], [Boolean], [Array] or [Date]; a plain
    object inherits [Object] unless an own property [constructor] shadows
    it, in which case the [name] of the stored value is read. *)
Definition constructorIsObject (h : heap) (v : value) : result bool :=
  match v with
  | VUndef | VNull => Throw (TypeError "Cannot read property 'constructor'")
  | VBool _ | VNum _ | VNaN | VStr _ => Ok false
  | VRef l =>
      match h !! l with
      | Some (OArray _) | Some (ODate _) => Ok false
      | Some (OPlain fs) =>
          match assoc "constructor" fs with
          | None => Ok true
          | Some VUndef | Some VNull => Throw (TypeError "Cannot read property 'name'")
          | Some c =>
              n ← getField h c "name";
              Ok (bool_decide (n = VStr "Object"))
          end
      | None => Throw (Dangling l)
      end
  end.

(** [Object.keys(v)] of a value that passed the test above. *)
Definition ownKeys (h : heap) (v : value) : list string :=
  match v with
  | VRef l =>
      match h !! l with
      | Some (OPlain fs) => map fst fs
      | _ => []
      end
  | _ => []
  end.

(** [v.propertyIsEnumerable('length')]. *)
Definition lengthIsEnumerable (h : heap) (v : value) : result bool :=
  match v with
  | VUndef | VNull => Throw (TypeError "Cannot read property 'propertyIsEnumerable'")
  | VBool _ | VNum _ | VNaN | VStr _ => Ok false
  | VRef l =>
      match h !! l with
      | Some (OArray _) | Some (ODate _) => Ok false
      | Some (OPlain fs) =>
          if hasKey "propertyIsEnumerable" fs
          then Throw (TypeError "propertyIsEnumerable is not a function")
          else Ok (hasKey "length" fs)
      | None => Throw (Dangling l)
      end
  end.

(** Whether [v.toUTCString] is truthy, for a truthy [v]. *)
Definition hasToUTCString (h : heap) (v : value) : result bool :=
  match v with
  | VRef l =>
      match h !! l with
      | Some (ODate _) => Ok true
      | Some (OArray _) => Ok false
      | Some (OPlain fs) => Ok (truthy (default VUndef (assoc "toUTCString" fs)))
      | None => Throw (Dangling l)
      end
  | VUndef | VNull => Throw (TypeError "Cannot read property 'toUTCString'")
  | _ => Ok false
  end.

(** ** The built-in [Date], in UTC

    A [Date] holds a time value: milliseconds since the epoch, or [NaN] for
    an invalid date.  The UTC getters follow the day and year arithmetic of
    the ECMAScript specification (proleptic Gregorian calendar). *)

Definition msPerDay : Z := 86400000.

Definition Day (t : Z) : Z := t / msPerDay.

(** Year, month (1 to 12) and day of the month of a day number. *)
Definition civilFromDays (day : Z) : Z * Z * Z :=
  let z := day + 719468 in
  let era := z / 146097 in
  let doe := z - era * 146097 in
  let yoe := (doe - doe / 1460 + doe / 36524 - doe / 146096) / 365 in
  let doy := doe - (365 * yoe + yoe / 4 - yoe / 100) in
  let mp := (5 * doy + 2) / 153 in
  let d := doy - (153 * mp + 2) / 5 + 1 in
  let m := if mp <? 10 then mp + 3 else mp - 9 in
  let y := yoe + era * 400 + (if m <=? 2 then 1 else 0) in
  (y, m, d).

Definition getUTCFullYear (t : option Z) : option Z :=
  t ≫= fun t => Some (fst (fst (civilFromDays (Day t)))).

Definition getUTCMonth (t : option Z) : option Z :=
  t ≫= fun t => Some (snd (fst (civilFromDays (Day t))) - 1).

Definition getUTCDate (t : option Z) : option Z :=
  t ≫= fun t => Some (snd (civilFromDays (Day t))).

Definition getUTCHours (t : option Z) : option Z :=
  t ≫= fun t => Some ((t / 3600000) mod 24).

Definition getUTCMinutes (t : option Z) : option Z :=
  t ≫= fun t => Some ((t / 60000) mod 60).

Definition getUTCSeconds (t : option Z) : option Z :=
  t ≫= fun t => Some ((t / 1000) mod 60).

(** [TimeClip]: time values beyond 8.64e15 ms are invalid. *)
Definition TimeClip (t : Z) : option Z :=
  if Z.abs t <=? 8640000000000000 then Some t else None.

End JS.

Import JS.

(** ** Model schemas

    What jugglingdb registers for a model: its properties and settings. *)

(** [index: true] or [index: {type: ..., kind: ...}]; an absent or empty
    [type] or [kind] is the empty string, which is all the adapter tests. *)
Record indexDesc : Type := {
  itype : string;
  ikind : string
}.

Record property : Type := {
  typeName : string;            (* p.type.name *)
  limit : option Z;             (* p.limit *)
  allowNull : option bool;      (* p.allowNull *)
  null : option bool;           (* p['null'] *)
  index : option indexDesc      (* p.index *)
}.

(** What a lookup in the properties of a model finds, [props[key]]: a
    falsy value (no property of that name, or a disabled one), a property
    descriptor, or a member inherited from [Object.prototype], which is
    truthy and has neither [type] nor [index]. *)
Inductive descriptor : Type :=
| Falsy
| Descr (p : property)
| Member.

(** [!!prop]. *)
Definition present (prop : descriptor) : bool :=
  match prop with
  | Falsy => false
  | Descr _ | Member => true
  end.

(** ** Value codec: [dateToMysql] and [toDatabase] *)

Definition dquote : string := String "034"%char EmptyString.

(** [fillZeros(v)], rendered: [v < 10 ? '0' + v : v]. *)
Definition fillZeros (v : option Z) : string :=
  match v with
  | Some n => if n <? 10 then "0" +:+ numToString n else numToString n
  | None => "NaN"
  end.

(** [dateToMysql(val)] on a [Date] whose time value is [t]. *)
Definition dateToMysql (t : option Z) : string :=
  numStr (getUTCFullYear t) +:+ "-" +:+
  fillZeros ((fun m => m + 1) <$> getUTCMonth t) +:+ "-" +:+
  fillZeros (getUTCDate t) +:+ " " +:+
  fillZeros (getUTCHours t) +:+ ":" +:+
  fillZeros (getUTCMinutes t) +:+ ":" +:+
  fillZeros (getUTCSeconds t).

(** What the adapter uses without defining it: the string escaper of
    lib/protocol/SqlString.js, built-ins of the JavaScript runtime, and a
    method inherited from jugglingdb. *)
Record runtime : Type := {
  (** [SqlString.escape(v, false, timezone)], on a primitive and on a
      store object *)
  escapePrim : value -> string;
  escapeObj : heap -> loc -> string;
  (** conversion of a store object to a string ([ToPrimitive], [toString]) *)
  refToString : heap -> loc -> result string;
  (** [ToNumber] on strings *)
  strToNumber : string -> option Z;
  (** [Date.parse] *)
  parseDate : string -> option Z;
  (** [BaseSQL.prototype.tableEscaped] *)
  tableEscaped : string -> string
}.

Section Codec.

Variable rt : runtime.

Definition escape (h : heap) (v : value) : string :=
  match v with
  | VRef l => escapeObj rt h l
  | _ => escapePrim rt v
  end.

(** [ToString], as applied by string concatenation. *)
Definition toStr (h : heap) (v : value) : result string :=
  match v with
  | VUndef => Ok "undefined"
  | VNull => Ok "null"
  | VBool true => Ok "true"
  | VBool false => Ok "false"
  | VNum n => Ok (numToString n)
  | VNaN => Ok "NaN"
  | VStr s => Ok s
  | VRef l => refToString rt h l
  end.

(** [v.toString()]. *)
Definition callToString (h : heap) (v : value) : result string :=
  match v with
  | VUndef | VNull => Throw (TypeError "Cannot read property 'toString'")
  | _ => toStr h v
  end.

(** [Number(v)]. *)
Definition toNumber (h : heap) (v : value) : result value :=
  match v with
  | VUndef | VNaN => Ok VNaN
  | VNull => Ok (VNum 0)
  | VBool b => Ok (VNum (if b then 1 else 0))
  | VNum n => Ok (VNum n)
  | VStr s => Ok (ofNumber (strToNumber rt s))
  | VRef l =>
      match h !! l with
      | Some (ODate t) => Ok (ofNumber t)
      | _ => s ← refToString rt h l; Ok (ofNumber (strToNumber rt s))
      end
  end.

(** The time value of [new Date(v)]. *)
Definition newDate (h : heap) (v : value) : result (option Z) :=
  match v with
  | VStr s => Ok (parseDate rt s)
  | VRef l => s ← refToString rt h l; Ok (parseDate rt s)
  | VNum n => Ok (TimeClip n)
  | VBool b => Ok (Some (if b then 1 else 0))
  | VNull => Ok (Some 0)
  | VUndef | VNaN => Ok None
  end.

(** The time value read by the UTC getters that [dateToMysql] calls on a
    value whose [toUTCString] is truthy: only a [Date] has them. *)
Definition timeValue (h : heap) (v : value) : result (option Z) :=
  match v with
  | VRef l =>
      match h !! l with
      | Some (ODate t) => Ok t
      | Some _ => Throw (TypeError "val.getUTCFullYear is not a function")
      | None => Throw (Dangling l)
      end
  | _ => Throw (TypeError "val.getUTCFullYear is not a function")
  end.

(** The loop [for (i = 0; i < val.length; i++) val[i] = escape(val[i])]
    on the array at [l], from index [i], for [n] more iterations.  Every
    iteration writes into the store. *)
Fixpoint escapeElems (h : heap) (l : loc) (i n : nat) : heap :=
  match n with
  | O => h
  | S n' =>
      match h !! l with
      | Some (OArray xs) =>
          match xs !! i with
          | Some x =>
              escapeElems (<[l := OArray (<[i := VStr (escape h x)]> xs)]> h)
                          l (S i) n'
          | None => h
          end
      | _ => h
      end
  end.

(** [Array.prototype.join]: [null] and [undefined] elements are empty. *)
Definition joinElem (h : heap) (v : value) : result string :=
  match v with
  | VUndef | VNull => Ok EmptyString
  | _ => toStr h v
  end.

Fixpoint joinElems (h : heap) (xs : list value) : result (list string) :=
  match xs with
  | [] => Ok []
  | x :: xs' =>
      s ← joinElem h x;
      ss ← joinElems h xs';
      Ok (s :: ss)
  end.

(** [val.join(sep)]. *)
Definition join (h : heap) (v : value) (sep : string) : result string :=
  match v with
  | VRef l =>
      match h !! l with
      | Some (OArray xs) => ss ← joinElems h xs; Ok (String.concat sep ss)
      | Some _ => Throw (TypeError "val.join is not a function")
      | None => Throw (Dangling l)
      end
  | _ => Throw (TypeError "val.join is not a function")
  end.

(** Lines 158 to 168 of [toDatabase]: the dispatch on the type of the
    property, once an operator object has been unwrapped. *)
Definition toDatabaseTyped (prop : descriptor) (val : value) (h : heap)
  : result value :=
  match prop with
  | Falsy => Ok val
  | Member => Throw (TypeError "Cannot read property 'name' of undefined")
  | Descr p =>
      if String.eqb (typeName p) "Number" then toNumber h val
      else if String.eqb (typeName p) "Date" then
        if negb (truthy val) then Ok (VStr "NULL")
        else
          u ← hasToUTCString h val;
          t ← (if (u : bool) then timeValue h val else newDate h val);
          Ok (VStr (dquote +:+ dateToMysql t +:+ dquote))
      else if String.eqb (typeName p) "Boolean" then
        Ok (VNum (if truthy val then 1 else 0))
      else
        s ← callToString h val;
        Ok (VStr (escapePrim rt (VStr s)))
  end.

(** The [inq]/[nin] branch of [toDatabase], on the operand [val]. *)
Definition toDatabaseIn (val : value) (h : heap) : result (value * heap) :=
  e ← lengthIsEnumerable h val;
  if negb (e : bool) && String.eqb (typeof val) "object" then
    len ← getLength h val;
    if String.eqb (typeof (len : value)) "number" then
      match val, len with
      | VRef l, VNum n =>
          let h' := escapeElems h l 0 (Z.to_nat n) in
          s ← join h' val ",";
          Ok (VStr s, h')
      | _, _ => Throw (TypeError "val.join is not a function")
      end
    else Ok (val, h)
  else Ok (val, h).

(** [toDatabase(prop, val)].  The only recursion is that of [between] on
    its two bounds; [fuel] bounds its depth. *)
Fixpoint toDatabase (fuel : nat) (prop : descriptor) (val : value)
  (h : heap) : result (value * heap) :=
  match fuel with
  | O => OutOfFuel
  | S fuel' =>
      match val with
      | VNull => Ok (VStr "NULL", h)
      | VUndef => Ok (VUndef, h)
      | _ =>
          isObj ← constructorIsObject h val;
          if (isObj : bool) then
            let operator := head (ownKeys h val) in
            val ← getField h val (default "undefined" operator);
            if bool_decide (operator = Some "between") then
              lo ← getIndex h val 0;
              '(a, h1) ← toDatabase fuel' prop lo h;
              sa ← toStr h1 a;
              hi ← getIndex h1 val 1;
              '(b, h2) ← toDatabase fuel' prop hi h1;
              sb ← toStr h2 b;
              Ok (VStr (sa +:+ " AND " +:+ sb), h2)
            else if bool_decide (operator = Some "inq")
                 || bool_decide (operator = Some "nin") then
              toDatabaseIn val h
            else
              r ← toDatabaseTyped prop val h; Ok (r, h)
          else
            r ← toDatabaseTyped prop val h; Ok (r, h)
      end
  end.

End Codec.

(** ** Filter compiler: [buildWhere], [buildOrderBy], [buildLimit] *)

(** [name.replace(/\./g, '`.`')]. *)
Fixpoint replaceDots (s : string) : string :=
  match s with
  | EmptyString => EmptyString
  | String c s' =>
      if Ascii.eqb c "."%char then "`.`" +:+ replaceDots s'
      else String c (replaceDots s')
  end.

(** [MySQL.prototype.escapeName]; [buildWhere] inlines the same expression
    for [keyEscaped]. *)
Definition escapeName (name : string) : string :=
  "`" +:+ replaceDots name +:+ "`".

(** White space matched by [\s], among ASCII characters. *)
Definition isSpace (c : ascii) : bool :=
  let n := nat_of_ascii c in
  (Nat.eqb n 32 || (Nat.leb 9 n && Nat.leb n 13))%bool.

(** [o.split(/\s+/)]: the pieces between maximal runs of white space.
    [cur] is the piece being read, reversed; [inSep] tells whether the last
    character read was white space. *)
Fixpoint splitSpaces (s : string) (cur : string) (inSep : bool) : list string :=
  match s with
  | EmptyString => [String.rev cur]
  | String c s' =>
      if isSpace c then
        if inSep then splitSpaces s' cur true
        else String.rev cur :: splitSpaces s' EmptyString true
      else splitSpaces s' (String c cur) false
  end.

Definition splitOnSpaces (s : string) : list string :=
  splitSpaces s EmptyString false.

(** The model's [properties] object: a disabled property is [None]. *)
Definition properties : Type := list (string * option property).

(** The own property [key] of [props], when it is enabled: what
    [props[key]] is for a key of [Object.keys(props)]. *)
Definition propOf (props : properties) (key : string) : option property :=
  mjoin (assoc key props).

(** [props[key]] for any key: an own property, or else the member of
    [Object.prototype] of that name. *)
Definition propGet (props : properties) (key : string) : descriptor :=
  match assoc key props with
  | Some (Some p) => Descr p
  | Some None => Falsy
  | None => if inherited key then Member else Falsy
  end.

Section Filter.

Variable rt : runtime.

(** [v == 0]. *)
Definition looseEqZero (h : heap) (v : value) : result bool :=
  match v with
  | VUndef | VNull | VNaN => Ok false
  | VBool b => Ok (negb b)
  | VNum n => Ok (n =? 0)
  | VStr s => Ok (bool_decide (strToNumber rt s = Some 0))
  | VRef l => s ← refToString rt h l; Ok (bool_decide (strToNumber rt s = Some 0))
  end.

(** The operator of the [switch] in [buildWhere]. *)
Definition operatorSQL (condType : option string) : string :=
  match condType with
  | Some "gt" => " > "
  | Some "gte" => " >= "
  | Some "lt" => " < "
  | Some "lte" => " <= "
  | Some "between" => " BETWEEN "
  | Some "inq" => " IN "
  | Some "nin" => " NOT IN "
  | Some "neq" => " != "
  | Some "like" => " LIKE "
  | _ => EmptyString
  end.

(** The body of the [forEach] callback of [buildWhere]: what is pushed on
    [cs] for the key [key] of [conds], and the store afterwards. *)
Definition whereClause (fuel : nat) (props : properties) (conds : value)
  (key : string) (h : heap) : result (value * heap) :=
  let keyEscaped := "`" +:+ replaceDots key +:+ "`" in
  c ← getField h conds key;
  '(val, h) ← toDatabase rt fuel (propGet props key) c h;
  c ← getField h conds key;
  match c with
  | VNull | VUndef => Ok (VStr (keyEscaped +:+ " IS NULL"), h)
  | _ =>
      isObj ← (if truthy c then constructorIsObject h c else Ok false);
      if (isObj : bool) then
        let condType := head (ownKeys h c) in
        let isCustom := bool_decide (condType = Some "custom") in
        let isIn := bool_decide (condType = Some "inq")
                    || bool_decide (condType = Some "nin") in
        let sqlCond := if isCustom then EmptyString else keyEscaped in
        empty ← (if isIn then len ← getLength h val; looseEqZero h len
                 else Ok false);
        if (empty : bool) then
          Ok (VNum (if bool_decide (condType = Some "inq") then 0 else 1), h)
        else
          sqlCond ←
            (if isCustom then
               custom ← getField h c "custom";
               s ← toStr rt h custom;
               Ok (sqlCond +:+ s)
             else Ok (sqlCond +:+ operatorSQL condType));
          sqlCond ←
            (if isIn then
               s ← toStr rt h val; Ok (sqlCond +:+ ("(" +:+ s +:+ ")"))
             else if negb isCustom then
               s ← toStr rt h val; Ok (sqlCond +:+ s)
             else Ok sqlCond);
          Ok (VStr sqlCond, h)
      else
        s ← toStr rt h val;
        Ok (VStr (keyEscaped +:+ " = " +:+ s), h)
  end.

(** [Object.keys(conds).forEach(...)], collecting [cs]. *)
Fixpoint whereClauses (fuel : nat) (props : properties) (conds : value)
  (keys : list string) (h : heap) : result (list value * heap) :=
  match keys with
  | [] => Ok ([], h)
  | key :: keys' =>
      '(c, h) ← whereClause fuel props conds key h;
      '(cs, h) ← whereClauses fuel props conds keys' h;
      Ok (c :: cs, h)
  end.

(** [buildWhere(conds)]. *)
Definition buildWhere (fuel : nat) (props : properties) (conds : value)
  (h : heap) : result (string * heap) :=
  keys ← objectKeys h conds;
  '(cs, h) ← whereClauses fuel props conds keys h;
  match cs with
  | [] => Ok (EmptyString, h)
  | _ =>
      ss ← joinElems rt h cs;
      Ok ("WHERE " +:+ String.concat " AND " ss, h)
  end.

(** One element of [order.map(...)] in [buildOrderBy]. *)
Definition orderTerm (o : value) : result string :=
  match o with
  | VStr o =>
      match splitOnSpaces o with
      | [_] => Ok ("`" +:+ o +:+ "`")
      | t0 :: t1 :: _ => Ok ("`" +:+ t0 +:+ "` " +:+ t1)
      | [] => Ok ("`" +:+ o +:+ "`")
      end
  | _ => Throw (TypeError "o.split is not a function")
  end.

Fixpoint orderTerms (os : list value) : result (list string) :=
  match os with
  | [] => Ok []
  | o :: os' =>
      s ← orderTerm o;
      ss ← orderTerms os';
      Ok (s :: ss)
  end.

(** [buildOrderBy(order)]. *)
Definition buildOrderBy (order : value) (h : heap) : result string :=
  os ← match order with
       | VStr _ => Ok [order]
       | VRef l =>
           match h !! l with
           | Some (OArray xs) => Ok xs
           | Some _ => Throw (TypeError "order.map is not a function")
           | None => Throw (Dangling l)
           end
       | _ => Throw (TypeError "order.map is not a function")
       end;
  ss ← orderTerms os;
  Ok ("ORDER BY " +:+ String.concat ", " ss).

(** [buildLimit(limit, offset)]. *)
Definition buildLimit (limit offset : value) (h : heap) : result string :=
  if truthy offset then
    o ← toStr rt h offset;
    l ← toStr rt h limit;
    Ok ("LIMIT " +:+ (o +:+ ", " +:+ l))
  else
    l ← toStr rt h limit;
    Ok ("LIMIT " +:+ l).

End Filter.

(** ** Executor: [query], [fromDatabase] and [all]

    The pool and the connection belong to the driver.  What the adapter sees
    of them is the first argument that [pool.getConnection] hands to its
    callback and the pair that [connection.query] hands to its own; rows
    are objects that the driver puts in the store.  What the adapter does
    in return is recorded as a trace of events. *)

Inductive event : Type :=
| Logged (sql : string) (time : Z)           (* log(sql, time) *)
| Ended                                      (* connection.end() *)
| Called (args : list value) (h : heap)      (* the caller's callback runs *)
| Included (objs inc : value) (h : heap)     (* model.include(objs, inc, callback) *)
| Raised (e : error).                        (* an exception is thrown *)

(** A callback argument: any value that is not a function, or a function,
    given by what it does when called. *)
Inductive callback : Type :=
| NotFunction (v : value)
| Function (f : list value -> heap -> list event).

Definition invoke (cb : callback) (args : list value) (h : heap) : list event :=
  match cb with
  | Function f => f args h
  | NotFunction _ => [Raised (TypeError "callback is not a function")]
  end.

Record driver : Type := {
  poolErr : value;
  answer : string -> heap -> value * value * heap;
  logging : bool;               (* whether [this.log] is truthy *)
  now : Z                       (* Date.now() *)
}.

(** [MySQL.prototype.query]. *)
Definition query (d : driver) (sql : string) (cb : callback) (h : heap)
  : list event :=
  if negb (truthy (poolErr d)) then
    match cb with
    | NotFunction _ => [Raised (Error "callback should be a function")]
    | Function _ =>
        let '(err, data, h') := answer d sql h in
        (if logging d then [Logged sql (now d)] else [])
          ++ [Ended] ++ invoke cb [err; data] h'
    end
  else invoke cb [poolErr d] h.

(** Allocation of a new store object. *)
Definition alloc (o : obj) (h : heap) : loc * heap :=
  let l := fresh (dom h) in (l, <[l := o]> h).

(** [obj[key] = val] on a plain object or an array. *)
Definition setField (h : heap) (l : loc) (key : string) (val : value) : heap :=
  match h !! l with
  | Some (OPlain fs) =>
      <[l := OPlain (map (fun kv => if String.eqb (fst kv) key
                                    then (key, val) else kv) fs)]> h
  | Some (OArray xs) =>
      <[l := OArray (imap (fun i x => if String.eqb (keyOfIndex i) key
                                      then val else x) xs)]> h
  | _ => h
  end.

(** Whether [.*] can run to the end of [s]: no line terminator in it. *)
Fixpoint noNewline (s : string) : bool :=
  match s with
  | EmptyString => true
  | String c s' =>
      negb (Nat.eqb (nat_of_ascii c) 10 || Nat.eqb (nat_of_ascii c) 13)
      && noNewline s'
  end.

(** [s.replace(/GMT.*$/, 'GMT')]. *)
Fixpoint stripAfterGMT (s : string) : string :=
  match s with
  | EmptyString => EmptyString
  | String c s' =>
      match s with
      | String "G" (String "M" (String "T" rest)) =>
          if noNewline rest then "GMT" else String c (stripAfterGMT s')
      | _ => String c (stripAfterGMT s')
      end
  end.

Section Executor.

Variable rt : runtime.

(** [v == true]. *)
Definition looseEqTrue (h : heap) (v : value) : result bool :=
  match v with
  | VUndef | VNull | VNaN => Ok false
  | VBool b => Ok b
  | VNum n => Ok (n =? 1)
  | VStr s => Ok (bool_decide (strToNumber rt s = Some 1))
  | VRef l => s ← refToString rt h l; Ok (bool_decide (strToNumber rt s = Some 1))
  end.

(** The body of the [forEach] callback of [fromDatabase] for one key of
    the row at [l]. *)
Definition fromDatabaseKey (props : properties) (l : loc) (key : string)
  (h : heap) : result heap :=
  val ← getField h (VRef l) key;
  match val with
  | VUndef | VNull => Ok h
  | _ =>
      match propGet props key with
      | Descr p =>
          if String.eqb (typeName p) "Date" then
            s ← callToString rt h val;
            let '(d, h) := alloc (ODate (parseDate rt (stripAfterGMT s))) h in
            Ok (setField h l key (VRef d))
          else if String.eqb (typeName p) "Boolean" then
            b ← looseEqTrue h val;
            Ok (setField h l key (VBool b))
          else Ok (setField h l key val)
      | Member => Throw (TypeError "Cannot read property 'name' of undefined")
      | Falsy => Ok (setField h l key val)
      end
  end.

Fixpoint fromDatabaseKeys (props : properties) (l : loc) (keys : list string)
  (h : heap) : result heap :=
  match keys with
  | [] => Ok h
  | key :: keys' =>
      h ← fromDatabaseKey props l key h;
      fromDatabaseKeys props l keys' h
  end.

(** [MySQL.prototype.fromDatabase]. *)
Definition fromDatabase (props : properties) (data : value) (h : heap)
  : result (value * heap) :=
  if negb (truthy data) then Ok (VNull, h)
  else
    keys ← objectKeys h data;
    match data with
    | VRef l => h ← fromDatabaseKeys props l keys h; Ok (data, h)
    | _ => Ok (data, h)
    end.

(** [data.map(function (obj) { return self.fromDatabase(model, obj); })],
    element by element. *)
Fixpoint fromDatabaseAll (props : properties) (rows : list value) (h : heap)
  : result (list value * heap) :=
  match rows with
  | [] => Ok ([], h)
  | r :: rows' =>
      '(o, h) ← fromDatabase props r h;
      '(os, h) ← fromDatabaseAll props rows' h;
      Ok (o :: os, h)
  end.

(** The function that [all] passes to [query]. *)
Definition allCallback (props : properties) (filter : value) (cb : callback)
  (args : list value) (h : heap) : list event :=
  let err := default VUndef (args !! 0%nat) in
  let data := default VUndef (args !! 1%nat) in
  if truthy err then
    let '(l, h) := alloc (OArray []) h in
    invoke cb [err; VRef l] h
  else
    let mapped :=
      match data with
      | VRef l =>
          match h !! l with
          | Some (OArray rows) => fromDatabaseAll props rows h
          | Some _ => Throw (TypeError "data.map is not a function")
          | None => Throw (Dangling l)
          end
      | VUndef | VNull => Throw (TypeError "Cannot read property 'map'")
      | _ => Throw (TypeError "data.map is not a function")
      end in
    match mapped with
    | Ok (os, h) =>
        let '(objs, h) := alloc (OArray os) h in
        let inc := if truthy filter then getField h filter "include"
                   else Ok filter in
        match inc with
        | Ok inc =>
            if truthy inc then [Included (VRef objs) inc h]
            else invoke cb [VNull; VRef objs] h
        | Throw e => [Raised e]
        | OutOfFuel => []
        end
    | Throw e => [Raised e]
    | OutOfFuel => []
    end.

(** The first half of [all]: the SQL text, built from the filter, and
    the store once the filter has been compiled. *)
Definition allSQL (fuel : nat) (model : string) (props : properties)
  (filter : value) (h : heap) : result (string * heap) :=
  let sql := "SELECT * FROM " +:+ tableEscaped rt model in
  if truthy filter then
    where_ ← getField h filter "where";
    '(sql, h) ←
      (if truthy where_ then
         '(w, h) ← buildWhere rt fuel props where_ h;
         Ok (sql +:+ " " +:+ w, h)
       else Ok (sql, h));
    order ← getField h filter "order";
    sql ←
      (if truthy order then
         o ← buildOrderBy order h;
         Ok (sql +:+ " " +:+ o)
       else Ok sql);
    limit ← getField h filter "limit";
    sql ←
      (if truthy limit then
         skip ← getField h filter "skip";
         l ← buildLimit rt limit (if truthy skip then skip else VNum 0) h;
         Ok (sql +:+ " " +:+ l)
       else Ok sql);
    Ok (sql, h)
  else Ok (sql, h).

(** [MySQL.prototype.all]: the SQL text it returns, the store after the
    filter has been compiled, and what the query then does. *)
Definition all (fuel : nat) (d : driver) (model : string) (props : properties)
  (filter : value) (cb : callback) (h : heap)
  : result (string * heap * list event) :=
  '(sql, h) ← allSQL fuel model props filter h;
  Ok (sql, h, query d sql (Function (allCallback props filter cb)) h).

End Executor.

(** ** Schema differ: [datatype], [propertySettingsSQL], [alterTable] *)

(** A named index of [settings.indexes]. *)
Record compositeIndex : Type := {
  columns : string;             (* i.columns, comma separated *)
  ctype : string;               (* i.type *)
  ckind : string                (* i.kind *)
}.

(** [this._models[model]]: a disabled property or index is [None]. *)
Record modelDef : Type := {
  mproperties : properties;                               (* m.properties *)
  indexes : option (list (string * option compositeIndex)) (* m.settings.indexes *)
}.

(** A row of [SHOW FIELDS FROM]. *)
Record fieldRow : Type := {
  Field : string;
  Type_ : string;
  Null : string
}.

(** A row of [SHOW INDEXES FROM]. *)
Record indexRow : Type := {
  Key_name : string;
  Seq_in_index : Z;
  Column_name : string
}.

Definition upperChar (c : ascii) : ascii :=
  let n := nat_of_ascii c in
  if (Nat.leb 97 n && Nat.leb n 122)%bool then ascii_of_nat (n - 32) else c.

Definition lowerChar (c : ascii) : ascii :=
  let n := nat_of_ascii c in
  if (Nat.leb 65 n && Nat.leb n 90)%bool then ascii_of_nat (n + 32) else c.

Fixpoint mapString (f : ascii -> ascii) (s : string) : string :=
  match s with
  | EmptyString => EmptyString
  | String c s' => String (f c) (mapString f s')
  end.

(** [s.toUpperCase()], on ASCII letters. *)
Definition toUpperCase (s : string) : string := mapString upperChar s.

(** [s.split(/,\s*/)]: [skip] holds right after a comma, while the white
    space that the separator swallows is being read. *)
Fixpoint splitCommasAux (s : string) (cur : string) (skip : bool) : list string :=
  match s with
  | EmptyString => [String.rev cur]
  | String c s' =>
      if (skip && isSpace c)%bool then splitCommasAux s' cur true
      else if Ascii.eqb c ","%char
           then String.rev cur :: splitCommasAux s' EmptyString true
           else splitCommasAux s' (String c cur) false
  end.

Definition splitCommas (s : string) : list string :=
  splitCommasAux s EmptyString false.

(** [p.limit || d]. *)
Definition limitOr (p : property) (d : Z) : Z :=
  match limit p with
  | Some n => if n =? 0 then d else n
  | None => d
  end.

(** [datatype(p)]. *)
Definition datatype (p : property) : string :=
  match typeName p with
  | "Text" => "TEXT"
  | "Number" => "INT(" +:+ numToString (limitOr p 11) +:+ ")"
  | "Date" => "DATETIME"
  | "Boolean" => "TINYINT(1)"
  | "Point" => "POINT"
  | _ => "VARCHAR(" +:+ numToString (limitOr p 255) +:+ ")"
  end.

(** [p.allowNull === false || p['null'] === false]. *)
Definition notNull (p : property) : bool :=
  (bool_decide (allowNull p = Some false) || bool_decide (null p = Some false))%bool.

(** [propertySettingsSQL(model, prop)], on the property itself. *)
Definition propertySettingsSQL (p : property) : string :=
  datatype p +:+ " " +:+ (if notNull p then "NOT NULL" else "NULL").

(** [changed(newSettings, oldSettings)]. *)
Definition changed (newSettings : property) (oldSettings : fieldRow) : bool :=
  if (String.eqb (Null oldSettings) "YES" && notNull newSettings)%bool then true
  else if (String.eqb (Null oldSettings) "NO" && negb (notNull newSettings))%bool then true
  else if negb (String.eqb (toUpperCase (Type_ oldSettings)) (datatype newSettings)) then true
  else false.

(** What [alterTable] pushes on [sql]; [render] gives the text pushed. *)
Inductive fragment : Type :=
| AddColumn (name : string) (p : property)
| ChangeColumn (name : string) (p : property)
| DropColumn (name : string)
| DropIndex (name : string)
| AddSingleIndex (name kind type : string)
| AddIndex (name cols kind type : string).

Definition nonEmpty (s : string) : bool := negb (String.eqb s EmptyString).

Definition render (f : fragment) : string :=
  match f with
  | AddColumn propName p =>
      "ADD COLUMN `" +:+ propName +:+ "` " +:+ propertySettingsSQL p
  | ChangeColumn propName p =>
      "CHANGE COLUMN `" +:+ propName +:+ "` `" +:+ propName +:+ "` "
        +:+ propertySettingsSQL p
  | DropColumn name => "DROP COLUMN `" +:+ name +:+ "`"
  | DropIndex indexName => "DROP INDEX `" +:+ indexName +:+ "`"
  | AddSingleIndex propName kind type =>
      if (nonEmpty kind && nonEmpty type)%bool then
        "ADD " +:+ kind +:+ " INDEX `" +:+ propName +:+ "` (`" +:+ propName
          +:+ "`) " +:+ type
      else
        "ADD " +:+ kind +:+ " INDEX `" +:+ propName +:+ "` " +:+ type
          +:+ " (`" +:+ propName +:+ "`) "
  | AddIndex indexName cols kind type =>
      if (nonEmpty kind && nonEmpty type)%bool then
        "ADD " +:+ kind +:+ " INDEX `" +:+ indexName +:+ "` (" +:+ cols
          +:+ ") " +:+ type
      else
        "ADD " +:+ kind +:+ " INDEX " +:+ type +:+ " `" +:+ indexName
          +:+ "` (" +:+ cols +:+ ")"
  end.

(** The object [ai]: for each live index name, the first row seen and the
    sparse array of its column names.  The list is in [Object.keys] order:
    names that are array indices come first, in increasing order, the other
    names follow in order of creation. *)
Definition liveIndex : Type := indexRow * list (option string).
Definition aiMap : Type := list (string * liveIndex).

(** [cols[i] = x] on a sparse array; a negative [i] names no element. *)
Fixpoint setAt (i : nat) (x : string) (cols : list (option string))
  : list (option string) :=
  match i, cols with
  | O, [] => [Some x]
  | O, _ :: cols' => Some x :: cols'
  | S i', [] => None :: setAt i' x []
  | S i', c :: cols' => c :: setAt i' x cols'
  end.

Definition setColumn (i : Z) (x : string) (cols : list (option string))
  : list (option string) :=
  if i <? 0 then cols else setAt (Z.to_nat i) x cols.

(** [cols[i]], [None] standing for [undefined]. *)
Definition columnAt (cols : list (option string)) (i : nat) : option string :=
  mjoin (cols !! i).

Definition isDigit (c : ascii) : bool :=
  let n := nat_of_ascii c in (Nat.leb 48 n && Nat.leb n 57)%bool.

Fixpoint digitsValue (s : string) (acc : Z) : option Z :=
  match s with
  | EmptyString => Some acc
  | String c s' =>
      if isDigit c
      then digitsValue s' (10 * acc + Z.of_nat (nat_of_ascii c - 48))
      else None
  end.

(** The array index that a property name denotes, if any. *)
Definition arrayIndex (s : string) : option Z :=
  match s with
  | EmptyString => None
  | String "0" EmptyString => Some 0
  | String "0" _ => None
  | _ =>
      match digitsValue s 0 with
      | Some n => if n <? 4294967295 then Some n else None
      | None => None
      end
  end.

(** Creation of the property [name] of [ai]. *)
Fixpoint aiCreate (name : string) (v : liveIndex) (ai : aiMap) : aiMap :=
  match ai with
  | [] => [(name, v)]
  | (k, w) :: ai' =>
      match arrayIndex name, arrayIndex k with
      | Some n, Some m => if n <? m then (name, v) :: ai
                          else (k, w) :: aiCreate name v ai'
      | Some _, None => (name, v) :: ai
      | None, _ => (k, w) :: aiCreate name v ai'
      end
  end.

Fixpoint aiUpdate (name : string) (f : liveIndex -> liveIndex) (ai : aiMap) : aiMap :=
  match ai with
  | [] => []
  | (k, w) :: ai' =>
      if String.eqb name k then (k, f w) :: ai'
      else (k, w) :: aiUpdate name f ai'
  end.

(** [delete ai[name]]. *)
Fixpoint aiDelete (name : string) (ai : aiMap) : aiMap :=
  match ai with
  | [] => []
  | (k, w) :: ai' =>
      if String.eqb name k then ai' else (k, w) :: aiDelete name ai'
  end.

(** One step of [actualIndexes.forEach].  [ai[name]] is an own property
    of [ai]; or it is a member of [Object.prototype], which is truthy, so
    that no entry is created, and has no [columns] to write into; or it is
    nothing, and the entry is created. *)
Definition aiAddRow (ai : aiMap) (i : indexRow) : result aiMap :=
  let name := Key_name i in
  let write :=
    aiUpdate name
      (fun v => (fst v,
                 setColumn (Seq_in_index i - 1) (Column_name i) (snd v))) in
  if hasKey name ai then Ok (write ai)
  else if inherited name
       then Throw (TypeError "Cannot set property of undefined")
       else Ok (write (aiCreate name (i, []) ai)).

(** [actualIndexes.forEach(...)]. *)
Fixpoint aiAddRows (rows : list indexRow) (ai : aiMap) : result aiMap :=
  match rows with
  | [] => Ok ai
  | i :: rows' => ai ← aiAddRow ai i; aiAddRows rows' ai
  end.

Definition groupIndexes (actualIndexes : option (list indexRow))
  : result aiMap :=
  match actualIndexes with
  | Some rows => aiAddRows rows []
  | None => Ok []
  end.

(** What is pushed for a named index [i] that is not found live. *)
Definition indexFragment (indexName : string) (i : compositeIndex) : fragment :=
  let type := if nonEmpty (ctype i) then "USING " +:+ ctype i
              else EmptyString in
  let kind := if nonEmpty (ckind i) then ckind i else EmptyString in
  AddIndex indexName (columns i) kind type.

Section AlterTable.

Variable m : modelDef.
Variable actualFields : option (list fieldRow).

Definition propNames : list string :=
  filter (fun name => is_Some (propOf (mproperties m) name))
         (map fst (mproperties m)).

(** [m.settings.indexes[name]]. *)
Definition compositeOf (name : string) : option compositeIndex :=
  indexes m ≫= fun ixs => mjoin (assoc name ixs).

Definition indexNames : list string :=
  match indexes m with
  | Some ixs => filter (fun name => is_Some (compositeOf name)) (map fst ixs)
  | None => []
  end.

(** The last row of [actualFields] whose [Field] is [propName]. *)
Definition findField (propName : string) : option fieldRow :=
  match actualFields with
  | Some fs =>
      fold_left (fun found f => if String.eqb (Field f) propName
                                then Some f else found) fs None
  | None => None
  end.

(** [actualize(propName, oldSettings)].  It is called on the names of
    [propNames] only, which are own keys of [m.properties]. *)
Definition actualize (propName : string) (oldSettings : fieldRow)
  : list fragment :=
  match propOf (mproperties m) propName with
  | Some newSettings =>
      if changed newSettings oldSettings
      then [ChangeColumn propName newSettings] else []
  | None => []
  end.

(** Change/add new fields: the callback of the first [propNames.forEach];
    [propName] is an own key of [m.properties]. *)
Definition changeOrAdd (propName : string) : list fragment :=
  if String.eqb propName "id" then []
  else
    match findField propName with
    | Some found => actualize propName found
    | None =>
        match propOf (mproperties m) propName with
        | Some p => [AddColumn propName p]
        | None => []
        end
    end.

(** Drop columns: the callback of [actualFields.forEach]. *)
Definition dropColumn (f : fieldRow) : list fragment :=
  let notFound := negb (bool_decide (Field f ∈ propNames)) in
  if String.eqb (Field f) "id" then []
  else if (notFound || negb (present (propGet (mproperties m) (Field f))))%bool
       then [DropColumn (Field f)] else [].

(** The truthy [index] of the own property [name], if it has one: what
    [m.properties[name].index] is for a name of [propNames]. *)
Definition propIndex (name : string) : option indexDesc :=
  propOf (mproperties m) name ≫= index.

(** Whether [m.properties[name].index] is truthy, for a truthy
    [m.properties[name]]. *)
Definition hasIndex (prop : descriptor) : bool :=
  match prop with
  | Descr p => bool_decide (is_Some (index p))
  | Member | Falsy => false
  end.

(** The test of [orderMatched]: every declared column, in order, is the
    live column at the same position. *)
Definition orderMatched (declared : list string) (live : list (option string))
  : bool :=
  forallb (fun ic => bool_decide (columnAt live (fst ic) = Some (snd ic)))
          (imap (fun i c => (i, c)) declared).

(** Remove indexes: the callback of [aiNames.forEach]. *)
Definition removeIndex (indexName : string) (ai : aiMap)
  : list fragment * aiMap :=
  if (String.eqb indexName "id" || String.eqb indexName "PRIMARY")%bool
  then ([], ai)
  else
    let declared := bool_decide (indexName ∈ indexNames) in
    let prop := propGet (mproperties m) indexName in
    if (negb declared && negb (present prop)
        || present prop && negb (hasIndex prop))%bool
    then ([DropIndex indexName], ai)
    else
      let matched :=
        if declared then
          match compositeOf indexName, assoc indexName ai with
          | Some ci, Some live => orderMatched (splitCommas (columns ci)) (snd live)
          | _, _ => true
          end
        else true in
      if negb matched
      then ([DropIndex indexName], aiDelete indexName ai)
      else ([], ai).

Fixpoint removeIndexes (names : list string) (ai : aiMap)
  : list fragment * aiMap :=
  match names with
  | [] => ([], ai)
  | indexName :: names' =>
      let '(fs, ai) := removeIndex indexName ai in
      let '(fs', ai) := removeIndexes names' ai in
      (fs ++ fs', ai)
  end.

(** Add single-column indexes: the callback of the second
    [propNames.forEach], on an own key of [m.properties].  [kind] stays
    empty: its assignment is commented out in the source.  A member of
    [Object.prototype] found under [ai[propName]] has no [info], so that
    only an own entry of [ai] counts as found. *)
Definition addSingleIndex (ai : aiMap) (propName : string) : list fragment :=
  match propIndex propName with
  | None => []
  | Some i =>
      if hasKey propName ai then []
      else
        let type := if nonEmpty (itype i) then "USING " +:+ itype i
                    else EmptyString in
        let kind := EmptyString in
        [AddSingleIndex propName kind type]
  end.

(** Add multi-column indexes: the callback of [indexNames.forEach], on an
    own key of [m.settings.indexes]; as above, only an own entry of [ai]
    counts as found. *)
Definition addIndex (ai : aiMap) (indexName : string) : list fragment :=
  match compositeOf indexName with
  | None => []
  | Some i =>
      if hasKey indexName ai then [] else [indexFragment indexName i]
  end.

(** The array [sql] that [alterTable] builds, fragment by fragment. *)
Definition alterFragments (actualIndexes : option (list indexRow))
  : result (list fragment) :=
  ai ← groupIndexes actualIndexes;
  let aiNames := map fst ai in
  let changes := flat_map changeOrAdd propNames in
  let drops := match actualFields with
               | Some fs => flat_map dropColumn fs
               | None => []
               end in
  let '(removed, ai) := removeIndexes aiNames ai in
  Ok (changes ++ drops ++ removed
        ++ flat_map (addSingleIndex ai) propNames
        ++ flat_map (addIndex ai) indexNames).

Definition alterTableSQL (actualIndexes : option (list indexRow))
  : result (list string) :=
  fs ← alterFragments actualIndexes;
  Ok (map render fs).

End AlterTable.

Definition newline : string := String "010"%char EmptyString.

(** [MySQL.prototype.alterTable]: what happens once [sql] is built. *)
Definition alterTable (rt : runtime) (d : driver)
  (model : string) (m : modelDef) (actualFields : option (list fieldRow))
  (actualIndexes : option (list indexRow)) (done : callback) (checkOnly : bool)
  (h : heap) : list event :=
  match alterTableSQL m actualFields actualIndexes with
  | Ok [] => invoke done [] h
  | Ok sql =>
      let query_ := "ALTER TABLE " +:+ tableEscaped rt model +:+ " "
                      +:+ String.concat ("," +:+ newline) sql in
      if checkOnly then
        let '(statements, h) := alloc (OArray (map VStr sql)) h in
        let '(o, h) := alloc (OPlain [("statements", VRef statements);
                                      ("query", VStr query_)]) h in
        invoke done [VNull; VBool true; VRef o] h
      else query d query_ done h
  | Throw e => [Raised e]
  | OutOfFuel => []
  end.

(** ** The database side of schema synchronisation

    The server is not part of the adapter.  To speak of the live schema
    once an [ALTER TABLE] has run, each fragment is given its documented
    effect on what [SHOW FIELDS] and [SHOW INDEXES] report afterwards:
    column types are reported in lower case, nullability as [YES] or [NO],
    and an index as one row per column, numbered from 1.  A column drop is
    taken to leave the index rows alone (the server would also take the
    column out of its indexes). *)

Record liveSchema : Type := {
  liveFields : list fieldRow;
  liveIndexes : list indexRow
}.

Definition toLowerCase (s : string) : string := mapString lowerChar s.

Definition fieldOf (name : string) (p : property) : fieldRow :=
  {| Field := name;
     Type_ := toLowerCase (datatype p);
     Null := if notNull p then "NO" else "YES" |}.

Definition indexRowsOf (name : string) (cols : list string) : list indexRow :=
  imap (fun i c => {| Key_name := name;
                      Seq_in_index := Z.of_nat i + 1;
                      Column_name := c |}) cols.

Definition applyFragment (s : liveSchema) (f : fragment) : liveSchema :=
  match f with
  | AddColumn name p =>
      {| liveFields := liveFields s ++ [fieldOf name p];
         liveIndexes := liveIndexes s |}
  | ChangeColumn name p =>
      {| liveFields := map (fun r => if String.eqb (Field r) name
                                     then fieldOf name p else r) (liveFields s);
         liveIndexes := liveIndexes s |}
  | DropColumn name =>
      {| liveFields := filter (fun r => Field r ≠ name) (liveFields s);
         liveIndexes := liveIndexes s |}
  | DropIndex name =>
      {| liveFields := liveFields s;
         liveIndexes := filter (fun r => Key_name r ≠ name) (liveIndexes s) |}
  | AddSingleIndex name _ _ =>
      {| liveFields := liveFields s;
         liveIndexes := liveIndexes s ++ indexRowsOf name [name] |}
  | AddIndex name cols _ _ =>
      {| liveFields := liveFields s;
         liveIndexes := liveIndexes s ++ indexRowsOf name (splitCommas cols) |}
  end.

Definition applyAlter (s : liveSchema) (fs : list fragment) : liveSchema :=
  fold_left applyFragment fs s.

(** One synchronisation: the fragments of the statement that [alterTable]
    sends for the model against the live schema; none when it throws. *)
Definition diff (m : modelDef) (s : liveSchema) : list fragment :=
  match alterFragments m (Some (liveFields s)) (Some (liveIndexes s)) with
  | Ok fs => fs
  | Throw _ | OutOfFuel => []
  end.

(** ** Statement builder: [toFields], [create], [updateOrCreate] *)

(** [obj[key] = val] where [key] may be new: an own property is replaced in
    place, a new one is appended.  Only plain objects take new properties
    in this model. *)
Definition setOrAddField (h : heap) (l : loc) (key : string) (val : value)
  : heap :=
  match h !! l with
  | Some (OPlain fs) =>
      if hasKey key fs then setField h l key val
      else <[l := OPlain (fs ++ [(key, val)])]> h
  | _ => setField h l key val
  end.

Section Statements.

Variable rt : runtime.

(** The body of the [forEach] callback of [toFields]: what is pushed on
    [fields] for [key], if anything. *)
Definition toFieldsKey (fuel : nat) (props : properties) (data : value)
  (key : string) (h : heap) : result (option string * heap) :=
  if present (propGet props key) then
    v ← getField h data key;
    '(value, h) ← toDatabase rt fuel (propGet props key) v h;
    if String.eqb (typeof value) "undefined" then Ok (None, h)
    else
      s ← toStr rt h value;
      Ok (Some ("`" +:+ replaceDots key +:+ "` = " +:+ s), h)
  else Ok (None, h).

Fixpoint toFieldsKeys (fuel : nat) (props : properties) (data : value)
  (keys : list string) (h : heap) : result (list string * heap) :=
  match keys with
  | [] => Ok ([], h)
  | key :: keys' =>
      '(f, h) ← toFieldsKey fuel props data key h;
      '(fs, h) ← toFieldsKeys fuel props data keys' h;
      Ok (match f with Some f => f :: fs | None => fs end, h)
  end.

(** [MySQL.prototype.toFields]. *)
Definition toFields (fuel : nat) (props : properties) (data : value)
  (h : heap) : result (string * heap) :=
  keys ← objectKeys h data;
  '(fields, h) ← toFieldsKeys fuel props data keys h;
  Ok (String.concat "," fields, h).

(** The SQL text of [create]. *)
Definition createSQL (fuel : nat) (model : string) (props : properties)
  (data : value) (h : heap) : result (string * heap) :=
  '(fields, h) ← toFields fuel props data h;
  let sql := "INSERT INTO " +:+ tableEscaped rt model in
  if nonEmpty fields then Ok (sql +:+ " SET " +:+ fields, h)
  else Ok (sql +:+ " VALUES ()", h).

(** The function that [create] passes to [query]:
    [callback(err, info && info.insertId)]. *)
Definition createCallback (cb : callback) (args : list value) (h : heap)
  : list event :=
  let err := default VUndef (args !! 0%nat) in
  let info := default VUndef (args !! 1%nat) in
  match (if truthy info then getField h info "insertId" else Ok info) with
  | Ok id => invoke cb [err; id] h
  | Throw e => [Raised e]
  | OutOfFuel => []
  end.

(** [MySQL.prototype.create]. *)
Definition create (fuel : nat) (d : driver) (model : string)
  (props : properties) (data : value) (cb : callback) (h : heap)
  : result (heap * list event) :=
  '(sql, h) ← createSQL fuel model props data h;
  Ok (h, query d sql (Function (createCallback cb)) h).

(** The three arrays that [updateOrCreate] fills, in the order of the
    keys: [fieldsNames], [fieldValues] and [combined]. *)
Fixpoint updateOrCreateKeys (fuel : nat) (props : properties) (data : value)
  (keys : list string) (h : heap)
  : result (list string * list value * list string * heap) :=
  match keys with
  | [] => Ok ([], [], [], h)
  | key :: keys' =>
      if present (propGet props key) || String.eqb key "id" then
        let k := "`" +:+ key +:+ "`" in
        d ← getField h data key;
        '(v, h) ← (if negb (String.eqb key "id")
                   then toDatabase rt fuel (propGet props key) d h
                   else Ok (d, h));
        c ← (if negb (String.eqb key "id")
             then s ← toStr rt h v; Ok [k +:+ " = " +:+ s]
             else Ok []);
        '(names, values, combined, h) ←
          updateOrCreateKeys fuel props data keys' h;
        Ok (k :: names, v :: values, c ++ combined, h)
      else updateOrCreateKeys fuel props data keys' h
  end.

(** The SQL text of [updateOrCreate]. *)
Definition updateOrCreateSQL (fuel : nat) (model : string)
  (props : properties) (data : value) (h : heap) : result (string * heap) :=
  keys ← objectKeys h data;
  '(names, values, combined, h) ← updateOrCreateKeys fuel props data keys h;
  vs ← joinElems rt h values;
  Ok ("INSERT INTO " +:+ tableEscaped rt model
        +:+ " (" +:+ String.concat ", " names +:+ ")"
        +:+ " VALUES (" +:+ String.concat ", " vs +:+ ")"
        +:+ " ON DUPLICATE KEY UPDATE " +:+ String.concat ", " combined, h).

(** The function that [updateOrCreate] passes to [query]. *)
Definition updateOrCreateCallback (data : value) (cb : callback)
  (args : list value) (h : heap) : list event :=
  let err := default VUndef (args !! 0%nat) in
  let info := default VUndef (args !! 1%nat) in
  let id := if negb (truthy err) && truthy info
            then getField h info "insertId" else Ok VUndef in
  match id with
  | Ok id =>
      if truthy id then
        match data with
        | VRef l => invoke cb [err; data] (setOrAddField h l "id" id)
        | _ => invoke cb [err; data] h
        end
      else invoke cb [err; data] h
  | Throw e => [Raised e]
  | OutOfFuel => []
  end.

(** [MySQL.prototype.updateOrCreate]. *)
Definition updateOrCreate (fuel : nat) (d : driver) (model : string)
  (props : properties) (data : value) (cb : callback) (h : heap)
  : result (heap * list event) :=
  '(sql, h) ← updateOrCreateSQL fuel model props data h;
  Ok (h, query d sql (Function (updateOrCreateCallback data cb)) h).

End Statements.

(** ** Table creation: [singleIndexSettingsSQL], [indexSettingsSQL],
    [propertiesSQL] *)

(** [singleIndexSettingsSQL(model, prop)], on the index [i] of [prop]. *)
Definition singleIndexSettingsSQL (prop : string) (i : indexDesc) : string :=
  let type := if nonEmpty (itype i) then "USING " +:+ itype i
              else EmptyString in
  let kind := if nonEmpty (ikind i) then ikind i else EmptyString in
  if (nonEmpty kind && nonEmpty type)%bool then
    kind +:+ " INDEX `" +:+ prop +:+ "` (`" +:+ prop +:+ "`) " +:+ type
  else
    kind +:+ " INDEX `" +:+ prop +:+ "` " +:+ type +:+ " (`" +:+ prop +:+ "`) ".

(** [indexSettingsSQL(model, prop)], on the index [i] named [prop]. *)
Definition indexSettingsSQL (prop : string) (i : compositeIndex) : string :=
  let type := if nonEmpty (ctype i) then "USING " +:+ ctype i
              else EmptyString in
  let kind := if nonEmpty (ckind i) then ckind i else EmptyString in
  if (nonEmpty kind && nonEmpty type)%bool then
    kind +:+ " INDEX `" +:+ prop +:+ "` (" +:+ columns i +:+ ") " +:+ type
  else
    kind +:+ " INDEX " +:+ type +:+ " `" +:+ prop +:+ "` (" +:+ columns i +:+ ")".

Section Creation.

(** The model keeps of a disabled entry only that it is falsy.  Whether it
    is [null] or [undefined], which have no member to read, or another
    falsy value such as [false], whose members are all [undefined], is
    told for each name by [nullProperty] for the properties and by
    [nullIndex] for the indexes. *)
Variable nullProperty nullIndex : string -> bool.

(** The first loop of [propertiesSQL]: one line per property other than
    [id].  A disabled property has no [type], or none with a [name], to
    read. *)
Fixpoint columnLines (props : properties) : result (list string) :=
  match props with
  | [] => Ok []
  | (prop, p) :: props' =>
      if String.eqb prop "id" then columnLines props'
      else
        match p with
        | Some p =>
            ls ← columnLines props';
            Ok (("`" +:+ prop +:+ "` " +:+ propertySettingsSQL p) :: ls)
        | None => Throw (TypeError "Cannot read property 'type'")
        end
  end.

(** The second loop: one line per property that has an index. *)
Fixpoint singleIndexLines (props : properties) : result (list string) :=
  match props with
  | [] => Ok []
  | (prop, p) :: props' =>
      match p with
      | Some p =>
          ls ← singleIndexLines props';
          Ok (match index p with
              | Some i => singleIndexSettingsSQL prop i :: ls
              | None => ls
              end)
      | None =>
          if nullProperty prop
          then Throw (TypeError "Cannot read property 'index'")
          else singleIndexLines props'
      end
  end.

(** The third loop: one line per entry of [settings.indexes].  Of a
    disabled entry that is not [null], [type] and [kind] are falsy and
    [columns] is [undefined]. *)
Fixpoint indexLines (ixs : list (string * option compositeIndex))
  : result (list string) :=
  match ixs with
  | [] => Ok []
  | (prop, i) :: ixs' =>
      match i with
      | Some i =>
          ls ← indexLines ixs';
          Ok (indexSettingsSQL prop i :: ls)
      | None =>
          if nullIndex prop
          then Throw (TypeError "Cannot read property 'type'")
          else
            ls ← indexLines ixs';
            Ok (indexSettingsSQL prop {| columns := "undefined";
                                         ctype := EmptyString;
                                         ckind := EmptyString |} :: ls)
      end
  end.

(** The array [sql] of [propertiesSQL]. *)
Definition propertiesLines (m : modelDef) : result (list string) :=
  cols ← columnLines (mproperties m);
  singles ← singleIndexLines (mproperties m);
  multis ← match indexes m with
           | Some ixs => indexLines ixs
           | None => Ok []
           end;
  Ok ("`id` INT(11) NOT NULL AUTO_INCREMENT PRIMARY KEY"
        :: cols ++ singles ++ multis).

(** [MySQL.prototype.propertiesSQL]. *)
Definition propertiesSQL (m : modelDef) : result string :=
  ls ← propertiesLines m;
  Ok (String.concat ("," +:+ newline +:+ "  ") ls).

End Creation.

(** ** Sample data *)

Definition plainProp (ty : string) : property :=
  {| typeName := ty; limit := None; allowNull := None; null := None;
     index := None |}.

Definition idRow : fieldRow :=
  {| Field := "id"; Type_ := "int(11)"; Null := "NO" |}.

Definition primaryRow : indexRow :=
  {| Key_name := "PRIMARY"; Seq_in_index := 1; Column_name := "id" |}.

(** A model whose composite index is named after its first column. *)
Definition userModel : modelDef :=
  {| mproperties := [("email", Some (plainProp "String"));
                     ("createdAt", Some (plainProp "Date"))];
     indexes := Some [("email", Some {| columns := "email, createdAt";
                                        ctype := EmptyString;
                                        ckind := EmptyString |})] |}.

Definition userLive : liveSchema :=
  {| liveFields := [idRow;
                    {| Field := "email"; Type_ := "varchar(255)"; Null := "YES" |};
                    {| Field := "createdAt"; Type_ := "datetime"; Null := "YES" |}];
     liveIndexes := [primaryRow] |}.

(** The filter [{where: {id: {inq: [1, 2]}}}]: the filter at 0, its [where]
    object at 1, the condition at 2 and the operand array at 3. *)
Definition inqFilter : heap :=
  <[0%nat := OPlain [("where", VRef 1)]]>
  (<[1%nat := OPlain [("id", VRef 2)]]>
  (<[2%nat := OPlain [("inq", VRef 3)]]>
  (<[3%nat := OArray [VNum 1; VNum 2]]> ∅))).

(** A driver whose pool and connection never fail and answer no rows. *)
Definition quietDriver : driver :=
  {| poolErr := VNull;
     answer := fun _ h => (VNull, VUndef, h);
     logging := false;
     now := 0 |}.

(** A driver whose connection fails every query. *)
Definition failingDriver : driver :=
  {| poolErr := VNull;
     answer := fun _ h => (VStr "ER_NO_SUCH_TABLE", VUndef, h);
     logging := true;
     now := 0 |}.

(** The callback that records its call. *)
Definition record : callback := Function (fun args h => [Called args h]).

(** A model whose composite index is named [id], and a live table where
    the index of that name has its two columns the other way round. *)
Definition pairModel : modelDef :=
  {| mproperties := [("a", Some (plainProp "Number"));
                     ("b", Some (plainProp "Number"))];
     indexes := Some [("id", Some {| columns := "a, b";
                                     ctype := EmptyString;
                                     ckind := EmptyString |})] |}.

Definition pairLive : liveSchema :=
  {| liveFields := [idRow;
                    {| Field := "a"; Type_ := "int(11)"; Null := "YES" |};
                    {| Field := "b"; Type_ := "int(11)"; Null := "YES" |}];
     liveIndexes := [primaryRow;
                     {| Key_name := "id"; Seq_in_index := 1; Column_name := "b" |};
                     {| Key_name := "id"; Seq_in_index := 2; Column_name := "a" |}] |}.

(** The same with the index under another name. *)
Definition pairModelNamed (n : string) : modelDef :=
  {| mproperties := mproperties pairModel;
     indexes := Some [(n, Some {| columns := "a, b";
                                  ctype := EmptyString;
                                  ckind := EmptyString |})] |}.

Definition pairLiveNamed (n : string) : liveSchema :=
  {| liveFields := liveFields pairLive;
     liveIndexes := [primaryRow;
                     {| Key_name := n; Seq_in_index := 1; Column_name := "b" |};
                     {| Key_name := n; Seq_in_index := 2; Column_name := "a" |}] |}.

(** The [where] object [{name: null, age: {gt: 5}, city: 'Oslo'}]. *)
Definition sampleWhere : heap :=
  <[0%nat := OPlain [("name", VNull); ("age", VRef 1); ("city", VStr "Oslo")]]>
  (<[1%nat := OPlain [("gt", VNum 5)]]> ∅).

Definition sampleProps : properties :=
  [("name", Some (plainProp "String"));
   ("age", Some (plainProp "Number"));
   ("city", Some (plainProp "String"))].

(** The [where] object [{f: {gt: null}}]. *)
Definition gtNull : heap :=
  <[0%nat := OPlain [("f", VRef 1)]]>
  (<[1%nat := OPlain [("gt", VNull)]]> ∅).

(** The condition [{inq: v}], alone in the store. *)
Definition inqOf (v : value) : heap :=
  <[0%nat := OPlain [("inq", v)]]> ∅.

(** A store with one [Date]. *)
Definition dateAt (t : option Z) : heap :=
  <[0%nat := ODate t]> ∅.

(** ** Notions used to state the properties *)

(** [c] is a store object [{op: v, ...}] whose first own key is [op]: an
    operator object (no own property shadows its [constructor]). *)
Definition operatorObject (h : heap) (c : value) (op : string) (v : value)
  : Prop :=
  exists lc rest, c = VRef lc /\ h !! lc = Some (OPlain ((op, v) :: rest))
                  /\ assoc "constructor" ((op, v) :: rest) = None.

(** The texts that the loop of [toDatabase] writes into the array at [l],
    whose elements were [pre ++ todo] with [pre] already rewritten: each
    element is escaped in the store as the previous writes left it. *)
Fixpoint escapeAll (rt : runtime) (h : heap) (l : loc) (pre todo : list value)
  : list string :=
  match todo with
  | [] => []
  | x :: todo' =>
      let s := escape rt (<[l := OArray (pre ++ x :: todo')]> h) x in
      s :: escapeAll rt h l (pre ++ [VStr s]) todo'
  end.

(** [conds] is a plain object whose own properties are [fs]: a [where]
    filter. *)
Definition whereObject (h : heap) (conds : value) (fs : list (string * value))
  : Prop :=
  exists lw, conds = VRef lw /\ h !! lw = Some (OPlain fs).

(** [SELECT * FROM <table> WHERE <clauses>]. *)
Definition selectWhere (rt : runtime) (model clauses : string) : string :=
  "SELECT * FROM " +:+ tableEscaped rt model +:+ " WHERE " +:+ clauses.

(** The store once the array at 3 has been given the elements [xs]. *)
Definition withOperand (xs : list value) (h : heap) : heap :=
  <[3%nat := OArray xs]> h.

(** A plain scalar: a boolean, a number or a string. *)
Definition scalar (v : value) : Prop :=
  match v with
  | VBool _ | VNum _ | VNaN | VStr _ => True
  | VUndef | VNull | VRef _ => False
  end.

(** The operators of a [where] condition. *)
Definition operatorNames : list string :=
  ["gt"; "gte"; "lt"; "lte"; "between"; "inq"; "nin"; "neq"; "like"; "custom"].

(** An operator-object in the narrow sense: an object with exactly one key,
    which names an operator. *)
Definition namesOperator (h : heap) (v : value) : Prop :=
  exists l op x, v = VRef l /\ h !! l = Some (OPlain [(op, x)])
                 /\ op ∈ operatorNames.

(** A number below one hundred written with exactly two decimal digits. *)
Definition digitChar (d : Z) : ascii := ascii_of_nat (48 + Z.to_nat d).

Definition twoDigits (n : Z) : string :=
  String (digitChar (n / 10)) (String (digitChar (n mod 10)) EmptyString).

(** The literal [YYYY-MM-DD HH:MM:SS] of the time value [t], between double
    quotes: the UTC year in decimal, the UTC month, day, hours, minutes and
    seconds with two digits each. *)
Definition quotedDate (t : Z) : string :=
  dquote
    +:+ numToString (fst (fst (civilFromDays (Day t)))) +:+ "-"
    +:+ twoDigits (snd (fst (civilFromDays (Day t)))) +:+ "-"
    +:+ twoDigits (snd (civilFromDays (Day t))) +:+ " "
    +:+ twoDigits ((t / 3600000) mod 24) +:+ ":"
    +:+ twoDigits ((t / 60000) mod 60) +:+ ":"
    +:+ twoDigits ((t / 1000) mod 60)
    +:+ dquote.

(** The objects [{a: 1, b: 2}] and [{}], each alone in the store. *)
Definition pairObject : heap :=
  <[0%nat := OPlain [("a", VNum 1); ("b", VNum 2)]]> ∅.

Definition emptyObject : heap :=
  <[0%nat := OPlain []]> ∅.

(** A sample runtime, to run the model on concrete inputs.  Its escaper
    quotes a string without looking inside it. *)
Definition sampleEscape (v : value) : string :=
  match v with
  | VUndef | VNull => "NULL"
  | VBool true => "true"
  | VBool false => "false"
  | VNum n => numToString n
  | VNaN => "NaN"
  | VStr s => "'" +:+ s +:+ "'"
  | VRef _ => "[object]"
  end.

Definition sampleRuntime : runtime :=
  {| escapePrim := sampleEscape;
     escapeObj := fun _ _ => "[object]";
     refToString := fun _ _ => Ok "[object Object]";
     strToNumber := fun _ => None;
     parseDate := fun _ => None;
     tableEscaped := fun model => "`" +:+ model +:+ "`" |}.



(** The [where] object [{f: {gt: {a: 1, b: 2}}}]. *)
Definition gtPair : heap :=
  <[0%nat := OPlain [("f", VRef 1)]]>
  (<[1%nat := OPlain [("gt", VRef 2)]]>
  (<[2%nat := OPlain [("a", VNum 1); ("b", VNum 2)]]> ∅)).

(** The object [{toString: v}], alone in the store. *)
Definition toStringOf (v : value) : heap :=
  <[0%nat := OPlain [("toString", v)]]> ∅.

(** A value that is no store object. *)
Definition primitive (v : value) : Prop :=
  match v with
  | VRef _ => False
  | _ => True
  end.

(** No dot in [s]. *)
Fixpoint noDot (s : string) : bool :=
  match s with
  | EmptyString => true
  | String c s' => negb (Ascii.eqb c "."%char) && noDot s'
  end.

(** No white space in [s]; nothing but white space in [s]. *)
Fixpoint noSpace (s : string) : bool :=
  match s with
  | EmptyString => true
  | String c s' => negb (isSpace c) && noSpace s'
  end.

Fixpoint allSpace (s : string) : bool :=
  match s with
  | EmptyString => true
  | String c s' => isSpace c && allSpace s'
  end.

(** [h'] has the objects of [h] at the same places: arrays may have other
    elements, as many as before; plain objects and dates are the same. *)
Definition sameShape (h h' : heap) : Prop :=
  forall l,
    match h !! l with
    | Some (OArray xs) =>
        exists ys, h' !! l = Some (OArray ys) /\ length ys = length xs
    | o => h' !! l = o
    end.

(** The [where] object [{age: {between: [18, 65]}, q: {custom: 'a = b'}}]. *)
Definition rangeWhere : heap :=
  <[0%nat := OPlain [("age", VRef 1); ("q", VRef 3)]]>
  (<[1%nat := OPlain [("between", VRef 2)]]>
  (<[2%nat := OArray [VNum 18; VNum 65]]>
  (<[3%nat := OPlain [("custom", VStr "a = b")]]> ∅))).

(** The [where] object [{name: null, city: 'Oslo'}]. *)
Definition plainWhere : heap :=
  <[0%nat := OPlain [("name", VNull); ("city", VStr "Oslo")]]> ∅.

(** The filter [{limit: 10, skip: 20}]. *)
Definition pageFilter : heap :=
  <[0%nat := OPlain [("limit", VNum 10); ("skip", VNum 20)]]> ∅.

(** A property of type [Boolean] and a row [{id: 7, active: 1}] as the
    driver reports it. *)
Definition flagProps : properties := [("active", Some (plainProp "Boolean"))].

Definition flagRow : heap :=
  <[0%nat := OPlain [("id", VNum 7); ("active", VNum 1)]]> ∅.

(** A driver that answers every statement with the one row above, in an
    array at 1. *)
Definition flagDriver : driver :=
  {| poolErr := VNull;
     answer := fun _ h =>
       (VNull, VRef 1,
        <[1%nat := OArray [VRef 0]]>
          (<[0%nat := OPlain [("id", VNum 7); ("active", VNum 1)]]> h));
     logging := false;
     now := 0 |}.

(** Whether [fromDatabase] leaves the value [v] of the column [k] alone:
    it is [null] or [undefined], or the column is not declared as a
    [Date] or a [Boolean]. *)
Definition kept (props : properties) (k : string) (v : value) : Prop :=
  v = VNull \/ v = VUndef
  \/ forall p, propOf props k = Some p ->
               typeName p <> "Date" /\ typeName p <> "Boolean".

(** The row at [l], which had the own properties [fs], has the same keys
    and the same values in the columns that are kept. *)
Definition rowInvariant (props : properties) (l : loc)
  (fs : list (string * value)) (h : heap) : Prop :=
  exists fs', h !! l = Some (OPlain fs')
              /\ map fst fs' = map fst fs
              /\ forall k v, assoc k fs = Some v -> kept props k v ->
                             assoc k fs' = Some v.

(** A key and a value that [toDatabase] can encode whatever the model
    declares: the value is primitive and, unless it is [null] or
    [undefined], the properties of the model, looked up under the key, give
    no member of [Object.prototype]. *)
Definition encodable (props : properties) (kv : string * value) : Prop :=
  primitive (snd kv)
  /\ (propGet props (fst kv) = Member -> snd kv = VNull \/ snd kv = VUndef).

(** An own property of [data] that [toFields] turns into an assignment:
    the properties of the model, looked up under its key, give something
    truthy, and its value is not [undefined]. *)
Definition usable (props : properties) (kv : string * value) : Prop :=
  present (propGet props (fst kv)) = true /\ snd kv <> VUndef.

#[global] Instance usable_dec props kv : Decision (usable props kv).
Proof. unfold usable. apply _. Defined.

(** The keys of [data] that [updateOrCreate] sends: those under which the
    properties of the model give something truthy, and [id]. *)
Definition sent (props : properties) (key : string) : Prop :=
  present (propGet props key) = true \/ key = "id".

#[global] Instance sent_dec props key : Decision (sent props key).
Proof. unfold sent. apply _. Defined.

(** The data [{name: 'Ann', age: undefined, nick: 'a'}] for a model that
    has no property [nick]. *)
Definition annData : heap :=
  <[0%nat := OPlain [("name", VStr "Ann"); ("age", VUndef);
                     ("nick", VStr "a")]]> ∅.

(** The data [{id: 7, name: 'Ann'}]. *)
Definition annWithId : heap :=
  <[0%nat := OPlain [("id", VNum 7); ("name", VStr "Ann")]]> ∅.

(** The data [{nick: 'a'}]. *)
Definition nickData : heap :=
  <[0%nat := OPlain [("nick", VStr "a")]]> ∅.

(** A driver that answers every statement with [{insertId: 42}] at 9. *)
Definition insertDriver : driver :=
  {| poolErr := VNull;
     answer := fun _ h =>
       (VNull, VRef 9, <[9%nat := OPlain [("insertId", VNum 42)]]> h);
     logging := false;
     now := 0 |}.

(** The names of the live columns. *)
Definition liveColumns (actualFields : option (list fieldRow)) : list string :=
  match actualFields with
  | Some fs => map Field fs
  | None => []
  end.

(** A fragment that leaves the primary key alone: it is no change of the
    column [id] and drops neither the index [id] nor [PRIMARY]. *)
Definition sparesId (f : fragment) : Prop :=
  match f with
  | AddColumn n _ | ChangeColumn n _ | DropColumn n => n <> "id"
  | DropIndex n => n <> "id" /\ n <> "PRIMARY"
  | AddSingleIndex _ _ _ | AddIndex _ _ _ _ => True
  end.

(** A model with a property [email] indexed with a kind, and a composite
    index [names]. *)
Definition indexedModel : modelDef :=
  {| mproperties :=
       [("email", Some {| typeName := "String"; limit := None;
                          allowNull := Some false; null := None;
                          index := Some {| itype := "BTREE";
                                           ikind := "UNIQUE" |} |});
        ("first", Some (plainProp "String"));
        ("last", Some (plainProp "String"))];
     indexes := Some [("names", Some {| columns := "first, last";
                                        ctype := EmptyString;
                                        ckind := "UNIQUE" |})] |}.

(** The rows of one index, reported out of order. *)
Definition shuffledRows : list indexRow :=
  [{| Key_name := "ab"; Seq_in_index := 2; Column_name := "b" |};
   primaryRow;
   {| Key_name := "ab"; Seq_in_index := 1; Column_name := "a" |}].

(** A model with a disabled property. *)
Definition retiredModel : modelDef :=
  {| mproperties := [("name", Some (plainProp "String")); ("old", None)];
     indexes := None |}.

(** A model with one indexed property, and a live table that has the
    index of that property and one that the model does not know. *)
Definition tagModel : modelDef :=
  {| mproperties :=
       [("tag", Some {| typeName := "String"; limit := None;
                        allowNull := None; null := None;
                        index := Some {| itype := EmptyString;
                                         ikind := EmptyString |} |})];
     indexes := None |}.

Definition tagIndexes : list indexRow :=
  [primaryRow;
   {| Key_name := "tag"; Seq_in_index := 1; Column_name := "tag" |};
   {| Key_name := "stale"; Seq_in_index := 1; Column_name := "tag" |}].

(** * Properties *)

(** ** Strings *)

Lemma append_cons (x : ascii) (a b : string) :
  String x a +:+ b = String x (a +:+ b).
Proof. reflexivity. Qed.

Lemma append_assoc (a b c : string) : (a +:+ b) +:+ c = a +:+ (b +:+ c).
Proof.
  induction a as [|x a IH]; [reflexivity|].
  rewrite !append_cons. now rewrite IH.
Qed.

Lemma append_length (a b : string) :
  String.length (a +:+ b) = (String.length a + String.length b)%nat.
Proof.
  induction a as [|x a IH]; [reflexivity|].
  rewrite append_cons. cbn [String.length]. now rewrite IH.
Qed.

Lemma length_zero_empty (s : string) :
  String.length s = 0%nat <-> s = EmptyString.
Proof. destruct s; cbn; split; congruence. Qed.

Lemma concat_two_nonempty (sep x y : string) (ss : list string) :
  sep <> EmptyString -> String.concat sep (x :: y :: ss) <> EmptyString.
Proof.
  intros Hsep E. apply length_zero_empty in E.
  change (String.concat sep (x :: y :: ss))
    with (x +:+ sep +:+ String.concat sep (y :: ss)) in E.
  rewrite !append_length in E.
  destruct sep; [congruence | cbn [String.length] in E; lia].
Qed.

Lemma length_eqb (s : string) :
  (Z.of_nat (String.length s) =? 0) = String.eqb s EmptyString.
Proof. destruct s; reflexivity. Qed.

#[local] Arguments String.eqb : simpl never.

(** ** Lookups in the properties of a model *)

Lemma propGet_Descr props k p :
  propGet props k = Descr p <-> propOf props k = Some p.
Proof.
  unfold propGet, propOf.
  destruct (assoc k props) as [[q|]|]; cbn; [| |destruct (inherited k)];
    split; congruence.
Qed.

Lemma propGet_Member props k :
  propGet props k = Member -> inherited k = true /\ assoc k props = None.
Proof.
  unfold propGet.
  destruct (assoc k props) as [[q|]|]; try discriminate.
  destruct (inherited k); [auto|discriminate].
Qed.

Lemma propGet_own props k :
  inherited k = false \/ k ∈ map fst props ->
  propGet props k
  = match propOf props k with Some p => Descr p | None => Falsy end.
Proof.
  unfold propGet, propOf. intros H.
  destruct (assoc k props) as [[q|]|] eqn:E; try reflexivity.
  destruct H as [-> | H]; [reflexivity|]. exfalso.
  induction props as [|[k' o] props IH]; [now apply elem_of_nil in H|].
  cbn [assoc] in E. destruct (String.eqb_spec k k') as [->|Hne];
    [discriminate|].
  cbn [map fst] in H. apply elem_of_cons in H as [->|H]; [congruence|auto].
Qed.

Lemma present_propGet props k :
  inherited k = false \/ k ∈ map fst props ->
  present (propGet props k) = bool_decide (is_Some (propOf props k)).
Proof.
  intros H. rewrite (propGet_own props k H).
  destruct (propOf props k) as [p|].
  - symmetry. apply bool_decide_eq_true_2. eauto.
  - symmetry. apply bool_decide_eq_false_2. intros [x Hx]. discriminate.
Qed.

(** ** The calendar *)

Example civil_epoch : civilFromDays 0 = (1970, 1, 1).
Proof. reflexivity. Qed.
Example civil_leap : civilFromDays (Day 951782400000) = (2000, 2, 29).
Proof. reflexivity. Qed.
Example civil_2001 : civilFromDays (Day 1000000000000) = (2001, 9, 9).
Proof. reflexivity. Qed.
Example civil_neg : civilFromDays (Day (-1)) = (1969, 12, 31).
Proof. reflexivity. Qed.
Example civil_1900 : civilFromDays (Day (-2203891200000)) = (1900, 3, 1).
Proof. reflexivity. Qed.

Lemma civilFromDays_bounds day :
  let '(y, m, d) := civilFromDays day in 1 <= m <= 12 /\ 1 <= d <= 31.
Proof.
  unfold civilFromDays.
  set (z := day + 719468).
  set (era := z / 146097).
  set (doe := z - era * 146097).
  assert (Hdoe : 0 <= doe < 146097) by (subst doe era; Z.div_mod_to_equations; lia).
  clearbody doe. clear z era.
  set (yoe := (doe - doe / 1460 + doe / 36524 - doe / 146096) / 365).
  set (doy := doe - (365 * yoe + yoe / 4 - yoe / 100)).
  assert (Hdoy : 0 <= doy <= 365) by (subst doy yoe; Z.div_mod_to_equations; lia).
  clearbody doy.
  set (mp := (5 * doy + 2) / 153).
  assert (Hmp : 0 <= mp <= 11) by (subst mp; Z.div_mod_to_equations; lia).
  split.
  - destruct (mp <? 10) eqn:E; [apply Z.ltb_lt in E | apply Z.ltb_ge in E]; lia.
  - subst mp. Z.div_mod_to_equations. lia.
Qed.

(** ** The sample model *)

Example userModel_first :
  map render (diff userModel userLive)
  = ["ADD  INDEX  `email` (email, createdAt)"].
Proof. vm_compute. reflexivity. Qed.

Example userModel_second :
  map render (diff userModel (applyAlter userLive (diff userModel userLive)))
  = ["DROP INDEX `email`"].
Proof. vm_compute. reflexivity. Qed.

Section CodecFacts.

Variable rt : runtime.

(** A value that is neither [null] nor [undefined] and fails the
    operator-object test goes straight to the dispatch on the type. *)
Lemma toDatabase_literal fuel prop v h :
  v <> VNull -> v <> VUndef -> constructorIsObject h v = Ok false ->
  toDatabase rt (S fuel) prop v h
  = (r ← toDatabaseTyped rt prop v h; Ok (r, h)).
Proof.
  intros Hn Hu Hc.
  destruct v; try congruence; simpl; simpl in Hc; rewrite ?Hc; reflexivity.
Qed.

Lemma operatorObject_test h c op v :
  operatorObject h c op v ->
  c <> VNull /\ c <> VUndef /\ truthy c = true
  /\ constructorIsObject h c = Ok true
  /\ head (ownKeys h c) = Some op
  /\ getField h c op = Ok v.
Proof.
  intros (lc & rest & -> & Hlc & Hop).
  repeat split; try discriminate.
  - cbn [constructorIsObject]. rewrite Hlc, Hop. reflexivity.
  - cbn [ownKeys]. rewrite Hlc. reflexivity.
  - cbn [getField]. rewrite Hlc. cbn [assoc]. rewrite String.eqb_refl.
    reflexivity.
Qed.

(** An operator other than [between], [inq] and [nin] is unwrapped and
    its operand goes to the dispatch on the type, unguarded. *)
Lemma toDatabase_operator fuel prop c op v h :
  operatorObject h c op v ->
  op <> "between" -> op <> "inq" -> op <> "nin" ->
  toDatabase rt (S fuel) prop c h
  = (r ← toDatabaseTyped rt prop v h; Ok (r, h)).
Proof.
  intros Hc Hb Hi Hn.
  destruct (operatorObject_test _ _ _ _ Hc) as (N1 & N2 & _ & T & K & G).
  destruct Hc as (lc & rest & -> & Hlc & Hop).
  cbn [toDatabase]. rewrite T. cbn [mbind result_bind].
  rewrite K. cbn [default from_option id]. rewrite G. cbn [mbind result_bind].
  rewrite !bool_decide_eq_false_2 by congruence.
  reflexivity.
Qed.

Lemma toDatabase_in fuel prop c op v h :
  operatorObject h c op v ->
  op = "inq" \/ op = "nin" ->
  toDatabase rt (S fuel) prop c h = toDatabaseIn rt v h.
Proof.
  intros Hc Hop.
  destruct (operatorObject_test _ _ _ _ Hc) as (N1 & N2 & _ & T & K & G).
  destruct Hc as (lc & rest & -> & Hlc & _).
  cbn [toDatabase]. rewrite T. cbn [mbind result_bind].
  rewrite K. cbn [default from_option id]. rewrite G. cbn [mbind result_bind].
  destruct Hop as [-> | ->]; reflexivity.
Qed.


(** On primitive elements the texts do not depend on the store. *)
Lemma escapeAll_primitive h l todo : forall pre,
  Forall (fun x => forall l', x <> VRef l') todo ->
  escapeAll rt h l pre todo = escapePrim rt <$> todo.
Proof.
  induction todo as [|x todo IH]; intros pre Hp; [reflexivity|].
  apply Forall_cons in Hp as [Hx Hp]. cbn [escapeAll fmap list_fmap].
  rewrite IH by assumption. f_equal.
  destruct x; try reflexivity. now destruct (Hx l0).
Qed.

(** The loop rewrites the array in place, element after element. *)
Lemma escapeElems_spec h0 l todo : forall pre,
  escapeElems rt (<[l := OArray (pre ++ todo)]> h0) l (length pre) (length todo)
  = <[l := OArray (pre ++ (VStr <$> escapeAll rt h0 l pre todo))]> h0.
Proof.
  induction todo as [|x todo IH]; intros pre.
  - reflexivity.
  - cbn [length escapeElems escapeAll fmap list_fmap].
    rewrite lookup_insert_eq.
    rewrite list_lookup_middle by reflexivity.
    rewrite insert_insert_eq.
    replace (<[length pre := VStr (escape rt (<[l := OArray (pre ++ x :: todo)]> h0) x)]>
               (pre ++ x :: todo))
      with ((pre ++ [VStr (escape rt (<[l := OArray (pre ++ x :: todo)]> h0) x)]) ++ todo).
    2:{ rewrite insert_app_r_alt by lia. rewrite Nat.sub_diag.
        cbn. now rewrite <- app_assoc. }
    replace (S (length pre))
      with (length (pre ++ [VStr (escape rt (<[l := OArray (pre ++ x :: todo)]> h0) x)]))
      by (rewrite length_app; simpl; lia).
    rewrite IH. now rewrite <- app_assoc.
Qed.

Lemma joinElems_strings h (ss : list string) :
  joinElems rt h (VStr <$> ss) = Ok ss.
Proof.
  induction ss as [|s ss IH]; [reflexivity|].
  cbn. rewrite IH. reflexivity.
Qed.

(** On an array operand: every element is escaped in place and the
    texts are joined by commas. *)
Lemma toDatabaseIn_array h la xs :
  h !! la = Some (OArray xs) ->
  toDatabaseIn rt (VRef la) h
  = Ok (VStr (String.concat "," (escapeAll rt h la [] xs)),
        <[la := OArray (VStr <$> escapeAll rt h la [] xs)]> h).
Proof.
  intros Hla. unfold toDatabaseIn. cbn. rewrite Hla. cbn.
  rewrite Nat2Z.id.
  pose proof (escapeElems_spec h la xs []) as E. cbn in E.
  rewrite (insert_id h la _ Hla) in E. rewrite E.
  unfold join. rewrite lookup_insert_eq.
  rewrite joinElems_strings. reflexivity.
Qed.

(** On any other operand on which the array test can run: the operand
    itself, and the store is left alone. *)
Lemma toDatabaseIn_other h v e :
  lengthIsEnumerable h v = Ok e ->
  (forall l xs, v = VRef l -> h !! l <> Some (OArray xs)) ->
  toDatabaseIn rt v h = Ok (v, h).
Proof.
  intros He Hna. unfold toDatabaseIn. rewrite He. cbn [mbind result_bind].
  destruct v as [| |b|n| |s|l]; cbn in He; try discriminate;
    try (injection He as <-; reflexivity).
  cbn. destruct (h !! l) as [[xs|fs|t]|] eqn:Hl; try discriminate.
  - exfalso. eapply Hna; eauto.
  - destruct (hasKey "propertyIsEnumerable" fs); [discriminate|].
    injection He as <-. unfold hasKey.
    destruct (assoc "length" fs) as [len|] eqn:Hlen; reflexivity.
  - injection He as <-. reflexivity.
Qed.

(** C9, amended.  Without a property descriptor, a value that is neither
    [null] nor [undefined] nor a plain object (a value whose constructor
    is named [Object]) is returned as it is: same value, same store. *)
Theorem toDatabase_no_descriptor fuel v h :
  v <> VNull -> v <> VUndef -> constructorIsObject h v = Ok false ->
  toDatabase rt (S fuel) Falsy v h = Ok (v, h).
Proof.
  intros Hn Hu Hc. rewrite toDatabase_literal by assumption. reflexivity.
Qed.

(** C10, amended.  An [inq] or [nin] operand that is neither [null] nor
    [undefined] (so that [propertyIsEnumerable] can be called on it) and
    is not an array is returned as it is, and nothing is written. *)
Theorem in_operand_verbatim fuel prop c op v e h :
  operatorObject h c op v ->
  op = "inq" \/ op = "nin" ->
  lengthIsEnumerable h v = Ok e ->
  (forall l xs, v = VRef l -> h !! l <> Some (OArray xs)) ->
  toDatabase rt (S fuel) prop c h = Ok (v, h).
Proof.
  intros Hc Hop He Hna.
  rewrite (toDatabase_in fuel prop c op v h Hc Hop).
  eapply toDatabaseIn_other; eassumption.
Qed.

Lemma fillZeros_twoDigits n :
  0 <= n < 100 -> fillZeros (Some n) = twoDigits n.
Proof.
  intros Hn. replace n with (Z.of_nat (Z.to_nat n)) by lia.
  assert (Hk : (Z.to_nat n < 100)%nat) by lia.
  generalize dependent (Z.to_nat n). clear Hn. intros k Hk.
  do 100 (destruct k as [|k]; [reflexivity|]). lia.
Qed.

(** The [Date] branch on a truthy value that is no plain object: the time
    value that is formatted is the one of the value itself when it has a
    truthy [toUTCString], and the one of [new Date(val)] otherwise. *)
Lemma date_formatted fuel p v t h :
  typeName p = "Date" ->
  truthy v = true -> constructorIsObject h v = Ok false ->
  (u ← hasToUTCString h v;
   if (u : bool) then timeValue h v else newDate rt h v) = Ok (Some t) ->
  toDatabase rt (S fuel) (Descr p) v h = Ok (VStr (quotedDate t), h).
Proof.
  intros Hp Hv Hc Ht.
  rewrite toDatabase_literal; try assumption;
    try (intros ->; discriminate Hv).
  unfold toDatabaseTyped. rewrite Hp.
  change (String.eqb "Date" "Number") with false.
  change (String.eqb "Date" "Date") with true.
  cbv iota. rewrite Hv. cbn [negb].
  destruct (hasToUTCString h v) as [u| |]; cbn [mbind result_bind] in Ht |- *;
    try discriminate.
  rewrite Ht. cbn [mbind result_bind]. do 3 f_equal.
  unfold quotedDate, dateToMysql, getUTCFullYear, getUTCMonth, getUTCDate,
    getUTCHours, getUTCMinutes, getUTCSeconds.
  cbn [mbind option_bind fmap option_fmap option_map numStr].
  pose proof (civilFromDays_bounds (Day t)) as B.
  destruct (civilFromDays (Day t)) as [[y mo] d]. cbn [fst snd].
  replace (mo - 1 + 1) with mo by lia.
  pose proof (Z.mod_pos_bound (t / 3600000) 24 eq_refl).
  pose proof (Z.mod_pos_bound (t / 60000) 60 eq_refl).
  pose proof (Z.mod_pos_bound (t / 1000) 60 eq_refl).
  rewrite !fillZeros_twoDigits by lia.
  rewrite !append_assoc. reflexivity.
Qed.

(** C6, amended.  For a property of type [Date], a truthy value with a
    valid time value is encoded as the quoted text of the UTC year, in
    decimal, and of the UTC month, day, hours, minutes and seconds of that
    time value, each written with exactly two digits.  The time value is
    the one of a [Date]; for a number, the number itself, in milliseconds;
    for a string, what [Date.parse] makes of it; for [true], one; for an
    array, what [Date.parse] makes of its text.  A falsy value other than
    [undefined] is encoded as [NULL], and [undefined] as [undefined]. *)
Theorem date_encoding fuel p h :
  typeName p = "Date" ->
  (forall l t, h !! l = Some (ODate (Some t)) ->
     toDatabase rt (S fuel) (Descr p) (VRef l) h
     = Ok (VStr (quotedDate t), h))
  /\ (forall n, n <> 0 -> Z.abs n <= 8640000000000000 ->
        toDatabase rt (S fuel) (Descr p) (VNum n) h
        = Ok (VStr (quotedDate n), h))
  /\ (forall s t, s <> EmptyString -> parseDate rt s = Some t ->
        toDatabase rt (S fuel) (Descr p) (VStr s) h
        = Ok (VStr (quotedDate t), h))
  /\ toDatabase rt (S fuel) (Descr p) (VBool true) h
     = Ok (VStr (quotedDate 1), h)
  /\ (forall l xs s t,
        h !! l = Some (OArray xs) ->
        refToString rt h l = Ok s -> parseDate rt s = Some t ->
        toDatabase rt (S fuel) (Descr p) (VRef l) h
        = Ok (VStr (quotedDate t), h))
  /\ (forall v, truthy v = false -> v <> VUndef ->
        toDatabase rt (S fuel) (Descr p) v h = Ok (VStr "NULL", h))
  /\ toDatabase rt (S fuel) (Descr p) VUndef h = Ok (VUndef, h).
Proof.
  intros Hp. split; [|split; [|split; [|split; [|split; [|split]]]]];
    [| | | | | |reflexivity].
  5:{ intros l xs s t Hl Hs Ht.
      apply date_formatted; try assumption; try reflexivity.
      - cbn. rewrite Hl. reflexivity.
      - cbn [hasToUTCString newDate]. rewrite Hl. cbn [mbind result_bind].
        rewrite Hs. cbn [mbind result_bind]. rewrite Ht. reflexivity. }
  - intros l t Hl. apply date_formatted; try assumption; try reflexivity;
      cbn; rewrite Hl; reflexivity.
  - intros n Hn Hb. apply date_formatted; try assumption; try reflexivity.
    + cbn. apply negb_true_iff, Z.eqb_neq. exact Hn.
    + cbn [hasToUTCString newDate mbind result_bind]. unfold TimeClip.
      apply Z.leb_le in Hb. rewrite Hb. reflexivity.
  - intros s t Hs Ht. apply date_formatted; try assumption; try reflexivity.
    + cbn. apply negb_true_iff, String.eqb_neq. exact Hs.
    + cbn [hasToUTCString newDate mbind result_bind]. rewrite Ht.
      reflexivity.
  - apply date_formatted; try assumption; reflexivity.
  - intros v Hv Hu.
    destruct v as [| |b|n| |s|l]; try congruence; try discriminate.
    + reflexivity.
    + cbn in Hv. subst b. cbn. rewrite Hp. reflexivity.
    + cbn. rewrite Hp. cbn. cbn in Hv. rewrite Hv. reflexivity.
    + cbn. rewrite Hp. reflexivity.
    + cbn. rewrite Hp. cbn. cbn in Hv. rewrite Hv. reflexivity.
Qed.

End CodecFacts.

Section FilterFacts.

Variable rt : runtime.

Lemma operatorObject_frame h c op v l o :
  operatorObject h c op v -> c <> VRef l ->
  operatorObject (<[l := o]> h) c op v.
Proof.
  intros (lc & rest & -> & Hlc & Hop) Hne. exists lc, rest.
  repeat split; auto.
  rewrite lookup_insert_ne; [assumption | congruence].
Qed.


(** The clause of an [inq] or [nin] condition on an array. *)
Lemma whereClause_in fuel props conds fs key c op la xs h :
  whereObject h conds fs ->
  assoc key fs = Some c ->
  operatorObject h c op (VRef la) ->
  op = "inq" \/ op = "nin" ->
  h !! la = Some (OArray xs) ->
  let strs := escapeAll rt h la [] xs in
  let joined := String.concat "," strs in
  whereClause rt (S fuel) props conds key h
  = Ok (if String.eqb joined EmptyString
        then VNum (if String.eqb op "inq" then 0 else 1)
        else VStr (escapeName key
                     +:+ (if String.eqb op "inq" then " IN " else " NOT IN ")
                     +:+ "(" +:+ joined +:+ ")"),
        <[la := OArray (VStr <$> strs)]> h).
Proof.
  intros (lw & -> & Hlw) Hkey Hc Hop Hla strs joined.
  assert (Hlwa : lw <> la) by (intros ->; congruence).
  assert (Hca : c <> VRef la).
  { destruct Hc as (lc & rest & -> & Hlc & _). intros [= ->]. congruence. }
  set (h' := <[la := OArray (VStr <$> strs)]> h).
  assert (Hc' : operatorObject h' c op (VRef la))
    by (apply operatorObject_frame; assumption).
  destruct (operatorObject_test _ _ _ _ Hc') as (N1 & N2 & Tr & T & K & G).
  unfold whereClause.
  assert (G0 : getField h (VRef lw) key = Ok c)
    by (cbn; rewrite Hlw, Hkey; reflexivity).
  assert (G1 : getField h' (VRef lw) key = Ok c).
  { cbn. unfold h'. rewrite lookup_insert_ne by congruence.
    rewrite Hlw, Hkey. reflexivity. }
  rewrite G0. cbn [mbind result_bind].
  rewrite (toDatabase_in rt fuel _ c op (VRef la) h Hc Hop).
  rewrite (toDatabaseIn_array rt h la xs Hla).
  fold strs. fold h'. cbn [mbind result_bind].
  rewrite G1. cbn [mbind result_bind].
  pose proof Hc as (lc & rest & Ec & _). subst c.
  rewrite Tr, T. cbn [mbind result_bind]. rewrite K.
  assert (Hcust : bool_decide (Some op = Some "custom") = false)
    by (apply bool_decide_eq_false_2; destruct Hop; subst; congruence).
  rewrite Hcust.
  assert (Hin : bool_decide (Some op = Some "inq")
                || bool_decide (Some op = Some "nin") = true)
    by (destruct Hop; subst; reflexivity).
  rewrite Hin. cbn [getLength mbind result_bind looseEqZero negb].
  fold joined. rewrite length_eqb.
  destruct (String.eqb joined EmptyString).
  - destruct Hop; subst; reflexivity.
  - cbn [toStr mbind result_bind]. unfold escapeName.
    destruct Hop; subst op; cbn [operatorSQL]; rewrite !append_assoc;
      reflexivity.
Qed.



(** Unless the descriptor is a member of [Object.prototype], a scalar has
    an encoding, and the encoding has a text. *)
Lemma scalar_encoded fuel prop v h :
  prop <> Member ->
  scalar v ->
  v <> VNull /\ v <> VUndef /\ constructorIsObject h v = Ok false
  /\ exists enc e,
       toDatabase rt (S fuel) prop v h = Ok (enc, h)
       /\ toStr rt h enc = Ok e.
Proof.
  intros Hm Hv.
  assert (H3 : v <> VNull /\ v <> VUndef /\ constructorIsObject h v = Ok false)
    by (destruct v; try contradiction; repeat split; discriminate).
  destruct H3 as (Hn & Hu & Hc). repeat split; try assumption.
  rewrite toDatabase_literal by assumption.
  unfold toDatabaseTyped.
  assert (Hstr : forall r : value, scalar r -> exists e, toStr rt h r = Ok e).
  { intros [| |[]|n| |s|l]; try contradiction; cbn; eauto. }
  assert (Hok : forall r : value, scalar r ->
            exists enc e, (Ok r ≫= (fun r => Ok (r, h)) : result (value * heap))
                          = Ok (enc, h) /\ toStr rt h enc = Ok e).
  { intros r Hr. destruct (Hstr r Hr) as [e He]. exists r, e. split; auto. }
  destruct prop as [|p|]; [now apply Hok| |congruence].
  destruct (String.eqb (typeName p) "Number").
  { destruct v as [| |b|n| |s|l]; try contradiction; cbn [toNumber];
      try (apply Hok; exact I).
    destruct (strToNumber rt s); apply Hok; exact I. }
  destruct (String.eqb (typeName p) "Date").
  { destruct (truthy v) eqn:Ht; cbn [negb]; [|apply Hok; exact I].
    destruct v as [| |b|n| |s|l]; try contradiction;
      cbn [hasToUTCString newDate mbind result_bind]; apply Hok; exact I. }
  destruct (String.eqb (typeName p) "Boolean"); [apply Hok; exact I|].
  destruct v as [| |b|n| |s|l]; try contradiction;
    cbn [callToString toStr mbind result_bind]; try (apply Hok; exact I).
  destruct b; apply Hok; exact I.
Qed.

(** C5, amended.  In a [where] object, a key [f] bound to [null] or
    [undefined] compiles to [`f` IS NULL]; bound to [{gt: v}] it compiles
    to [`f` > e], and bound to [v] itself to [`f` = e], where [e] is the
    text of the encoding of [v], for every [v] that is neither [null] nor
    [undefined] nor a plain object and that has an encoding.  Every plain
    scalar is such a [v], and it has an encoding unless the properties of
    the model, looked up under [f], give a member of [Object.prototype]. *)
Theorem where_clause_shapes fuel props conds fs f h :
  whereObject h conds fs ->
  (assoc f fs = Some VNull \/ assoc f fs = Some VUndef ->
     whereClause rt (S fuel) props conds f h
     = Ok (VStr (escapeName f +:+ " IS NULL"), h))
  /\ (forall c v enc e,
        v <> VNull -> v <> VUndef -> constructorIsObject h v = Ok false ->
        toDatabase rt (S fuel) (propGet props f) v h = Ok (enc, h) ->
        toStr rt h enc = Ok e ->
        (assoc f fs = Some c -> operatorObject h c "gt" v ->
           whereClause rt (S fuel) props conds f h
           = Ok (VStr (escapeName f +:+ " > " +:+ e), h))
        /\ (assoc f fs = Some v ->
              whereClause rt (S fuel) props conds f h
              = Ok (VStr (escapeName f +:+ " = " +:+ e), h)))
  /\ (propGet props f <> Member ->
      forall v, scalar v ->
        v <> VNull /\ v <> VUndef /\ constructorIsObject h v = Ok false
        /\ exists enc e,
             toDatabase rt (S fuel) (propGet props f) v h = Ok (enc, h)
             /\ toStr rt h enc = Ok e).
Proof.
  intros (lw & -> & Hlw). split; [|split].
  3:{ intros Hm v Hv.
      apply (scalar_encoded fuel (propGet props f) v h Hm Hv). }
  - intros Hf. unfold whereClause.
    assert (G0 : exists c, getField h (VRef lw) f = Ok c
                           /\ (c = VNull \/ c = VUndef)).
    { cbn. rewrite Hlw. destruct Hf as [-> | ->]; eexists; split;
        try reflexivity; auto. }
    destruct G0 as (c & G0 & Hc). rewrite G0. cbn [mbind result_bind].
    destruct Hc as [-> | ->]; cbn [toDatabase mbind result_bind];
      rewrite G0; reflexivity.
  - intros c v enc e Hn Hu Hv Henc He.
    rewrite toDatabase_literal in Henc by assumption.
    split.
    + intros Hf Hc. unfold whereClause.
      assert (G0 : getField h (VRef lw) f = Ok c)
        by (cbn; rewrite Hlw, Hf; reflexivity).
      rewrite G0. cbn [mbind result_bind].
      rewrite (toDatabase_operator rt fuel _ c "gt" v h Hc)
        by discriminate.
      rewrite Henc. cbn [mbind result_bind]. rewrite G0.
      cbn [mbind result_bind].
      destruct (operatorObject_test _ _ _ _ Hc) as (N1 & N2 & Tr & T & K & G).
      pose proof Hc as (lc & rest & Ec & _). subst c.
      rewrite Tr, T. cbn [mbind result_bind]. rewrite K.
      rewrite (bool_decide_eq_false_2 (Some "gt" = Some "inq")),
        (bool_decide_eq_false_2 (Some "gt" = Some "nin")),
        (bool_decide_eq_false_2 (Some "gt" = Some "custom"))
        by discriminate.
      cbn [orb negb mbind result_bind operatorSQL]. rewrite He.
      cbn [mbind result_bind]. unfold escapeName.
      rewrite !append_assoc. reflexivity.
    + intros Hf. unfold whereClause.
      assert (G0 : getField h (VRef lw) f = Ok v)
        by (cbn; rewrite Hlw, Hf; reflexivity).
      rewrite G0. cbn [mbind result_bind].
      rewrite toDatabase_literal by assumption.
      destruct (toDatabaseTyped rt (propGet props f) v h) as [r| |];
        try discriminate.
      injection Henc as ->. cbn [mbind result_bind]. rewrite G0.
      cbn [mbind result_bind].
      destruct v as [| |b|n| |s|l]; try congruence;
        try (rewrite ?Hv; destruct (truthy _); cbn [mbind result_bind];
             rewrite He; cbn [mbind result_bind]; unfold escapeName;
             rewrite !append_assoc; reflexivity).
Qed.

End FilterFacts.

Section ExecutorFacts.

Variable rt : runtime.

(** C7.  Whenever the filter of a [select]/[all] call compiles and the
    execution of the query fails, [all] returns and the caller's callback
    is called with the error of the execution, as it is, and a new empty
    array. *)
Theorem all_error_callback fuel d model props filter cb h sql h1
    err data h2 :
  allSQL rt fuel model props filter h = Ok (sql, h1) ->
  truthy (poolErr d) = false ->
  answer d sql h1 = (err, data, h2) ->
  truthy err = true ->
  let l := fresh (dom h2) in
  h2 !! l = None /\
  (<[l := OArray []]> h2) !! l = Some (OArray []) /\
  all rt fuel d model props filter cb h
  = Ok (sql, h1,
        (if logging d then [Logged sql (now d)] else [])
          ++ [Ended] ++ invoke cb [err; VRef l] (<[l := OArray []]> h2)).
Proof.
  intros Hsql Hpool Hans Herr l.
  split; [|split].
  - apply not_elem_of_dom. apply is_fresh.
  - apply lookup_insert_eq.
  - unfold all. rewrite Hsql. cbn [mbind result_bind]. do 2 f_equal.
    unfold query. rewrite Hpool. cbn [negb]. rewrite Hans.
    cbn [invoke]. unfold allCallback.
    cbn [lookup list_lookup default from_option id].
    rewrite Herr. reflexivity.
Qed.

(** C8.  Whatever the SQL text, [query] with a callback that is not a
    function raises an error and does nothing else; with a function and
    no pool error it raises none of its own: it logs, releases the
    connection and calls the function with what the connection gave. *)
Theorem query_requires_callback d sql h :
  (forall v,
     query d sql (NotFunction v) h
     = [Raised (if truthy (poolErr d)
                then TypeError "callback is not a function"
                else Error "callback should be a function")])
  /\ (forall f, truthy (poolErr d) = false ->
        query d sql (Function f) h
        = (if logging d then [Logged sql (now d)] else [])
            ++ [Ended]
            ++ f [fst (fst (answer d sql h)); snd (fst (answer d sql h))]
                 (snd (answer d sql h))).
Proof.
  split.
  - intros v. unfold query. destruct (truthy (poolErr d)); reflexivity.
  - intros f Hpool. unfold query. rewrite Hpool. cbn [negb].
    destruct (answer d sql h) as [[err data] h']. reflexivity.
Qed.

(** [all] on a store that has the shape of [inqFilter], whatever the two
    primitive elements of the operand are. *)
Lemma allSQL_inq_pair h x y :
  h !! 0%nat = Some (OPlain [("where", VRef 1)]) ->
  h !! 1%nat = Some (OPlain [("id", VRef 2)]) ->
  h !! 2%nat = Some (OPlain [("inq", VRef 3)]) ->
  h !! 3%nat = Some (OArray [x; y]) ->
  (forall l, x <> VRef l) -> (forall l, y <> VRef l) ->
  allSQL rt 1 "User" [] (VRef 0) h
  = Ok (selectWhere rt "User"
          ("`id` IN (" +:+ escapePrim rt x +:+ "," +:+ escapePrim rt y +:+ ")"),
        withOperand [VStr (escapePrim rt x); VStr (escapePrim rt y)] h).
Proof.
  intros H0 H1 H2 H3 Hx Hy.
  assert (Hw : whereObject h (VRef 1) [("id", VRef 2)]) by (exists 1%nat; auto).
  assert (Hc : operatorObject h (VRef 2) "inq" (VRef 3))
    by (exists 2%nat, []; repeat split; auto).
  pose proof (whereClause_in rt 0 [] (VRef 1) _ "id" (VRef 2) "inq" 3%nat
                [x; y] h Hw eq_refl Hc (or_introl eq_refl) H3) as E.
  cbv zeta in E.
  assert (Es : escapeAll rt h 3%nat [] [x; y]
               = [escapePrim rt x; escapePrim rt y])
    by (apply escapeAll_primitive; repeat constructor; assumption).
  rewrite Es in E.
  assert (Hj : String.eqb (String.concat ","
                             [escapePrim rt x; escapePrim rt y]) EmptyString
               = false)
    by (apply String.eqb_neq, concat_two_nonempty; discriminate).
  rewrite Hj in E. cbn [fmap list_fmap] in E.
  set (h1 := withOperand [VStr (escapePrim rt x); VStr (escapePrim rt y)] h).
  fold (withOperand [VStr (escapePrim rt x); VStr (escapePrim rt y)] h) in E.
  fold h1 in E.
  assert (G : getField h (VRef 0) "where" = Ok (VRef 1))
    by (cbn; rewrite H0; reflexivity).
  assert (K : objectKeys h (VRef 1) = Ok ["id"])
    by (cbn; rewrite H1; reflexivity).
  assert (H0' : h1 !! 0%nat = Some (OPlain [("where", VRef 1)]))
    by (unfold h1, withOperand; rewrite lookup_insert_ne by lia; exact H0).
  assert (Go : getField h1 (VRef 0) "order" = Ok VUndef)
    by (cbn; rewrite H0'; reflexivity).
  assert (Gl : getField h1 (VRef 0) "limit" = Ok VUndef)
    by (cbn; rewrite H0'; reflexivity).
  unfold allSQL. cbn [truthy]. rewrite G. cbn [mbind result_bind truthy].
  unfold buildWhere. rewrite K. cbn [mbind result_bind whereClauses].
  rewrite E.
  cbn [mbind result_bind joinElems joinElem toStr String.concat].
  rewrite Go. cbn [mbind result_bind truthy]. rewrite Gl.
  cbn [mbind result_bind truthy].
  unfold selectWhere, escapeName. do 2 f_equal.
  rewrite !append_assoc. reflexivity.
Qed.

(** C4, at a failing input.  Compiling [{where: {id: {inq: [1, 2]}}}]
    rewrites the operand array of the caller's filter: once [all] has
    returned, the array holds the escaped texts instead of the numbers,
    and a second call with the same filter escapes these texts again. *)
Theorem all_rewrites_inq_operand d cb :
  let e1 := escapePrim rt (VNum 1) in
  let e2 := escapePrim rt (VNum 2) in
  let h1 := withOperand [VStr e1; VStr e2] inqFilter in
  inqFilter !! 3%nat = Some (OArray [VNum 1; VNum 2])
  /\ h1 !! 3%nat = Some (OArray [VStr e1; VStr e2])
  /\ (exists evs,
        all rt 1 d "User" [] (VRef 0) cb inqFilter
        = Ok (selectWhere rt "User"
                ("`id` IN (" +:+ e1 +:+ "," +:+ e2 +:+ ")"), h1, evs))
  /\ (exists h2 evs,
        all rt 1 d "User" [] (VRef 0) cb h1
        = Ok (selectWhere rt "User"
                ("`id` IN (" +:+ escapePrim rt (VStr e1) +:+ ","
                   +:+ escapePrim rt (VStr e2) +:+ ")"), h2, evs)).
Proof.
  intros e1 e2 h1. split; [reflexivity|]. split; [apply lookup_insert_eq|].
  split.
  - eexists. unfold all.
    rewrite (allSQL_inq_pair inqFilter (VNum 1) (VNum 2));
      try reflexivity; discriminate.
  - do 2 eexists. unfold all.
    rewrite (allSQL_inq_pair h1 (VStr e1) (VStr e2));
      try reflexivity; discriminate.
Qed.

End ExecutorFacts.

Section AlterFacts.

Lemma assoc_None {A} (k : string) (fs : list (string * A)) :
  k ∉ map fst fs -> assoc k fs = None.
Proof.
  induction fs as [|[k' v] fs IH]; [reflexivity|].
  cbn [map fst assoc]. intros Hk.
  apply not_elem_of_cons in Hk as [Hne Hk].
  destruct (String.eqb_spec k k'); [congruence | auto].
Qed.

Lemma assoc_Some_in {A} (k : string) (fs : list (string * A)) v :
  assoc k fs = Some v -> k ∈ map fst fs.
Proof.
  induction fs as [|[k' w] fs IH]; [discriminate|].
  cbn [map fst assoc].
  destruct (String.eqb_spec k k') as [->|Hne]; intros H.
  - apply list_elem_of_here.
  - apply list_elem_of_further; auto.
Qed.

Lemma hasKey_false {A} (k : string) (fs : list (string * A)) :
  hasKey k fs = false <-> assoc k fs = None.
Proof. unfold hasKey. destruct (assoc k fs); split; congruence. Qed.

Lemma assoc_aiDelete_ne name n (ai : aiMap) :
  n <> name -> assoc name (aiDelete n ai) = assoc name ai.
Proof.
  intros Hne. induction ai as [|[k w] ai IH]; [reflexivity|].
  cbn [aiDelete]. destruct (String.eqb_spec n k) as [->|Hnk].
  - cbn [assoc]. destruct (String.eqb_spec name k); congruence.
  - cbn [assoc]. now rewrite IH.
Qed.

Lemma assoc_aiDelete_eq name (ai : aiMap) :
  NoDup (map fst ai) -> assoc name (aiDelete name ai) = None.
Proof.
  induction ai as [|[k w] ai IH]; [reflexivity|].
  cbn [map fst aiDelete]. intros Hnd. apply NoDup_cons in Hnd as [Hk Hnd].
  destruct (String.eqb_spec name k) as [->|Hnk].
  - now apply assoc_None.
  - cbn [assoc]. destruct (String.eqb_spec name k); [congruence | auto].
Qed.

Lemma assoc_aiDelete_None name n (ai : aiMap) :
  assoc name ai = None -> assoc name (aiDelete n ai) = None.
Proof.
  induction ai as [|[k w] ai IH]; [auto|].
  cbn [assoc aiDelete]. destruct (String.eqb name k) eqn:E; [discriminate|].
  intros H. destruct (String.eqb n k); [assumption|].
  cbn [assoc]. rewrite E. auto.
Qed.

Lemma aiDelete_keys name (ai : aiMap) k :
  k ∈ map fst (aiDelete name ai) -> k ∈ map fst ai.
Proof.
  induction ai as [|[k' w] ai IH]; [auto|].
  cbn [aiDelete]. destruct (String.eqb name k'); cbn [map fst].
  - apply list_elem_of_further.
  - intros [->|H]%elem_of_cons; [apply list_elem_of_here|].
    apply list_elem_of_further; auto.
Qed.

Lemma aiDelete_NoDup name (ai : aiMap) :
  NoDup (map fst ai) -> NoDup (map fst (aiDelete name ai)).
Proof.
  induction ai as [|[k w] ai IH]; [auto|].
  cbn [map fst aiDelete]. intros Hnd. apply NoDup_cons in Hnd as [Hk Hnd].
  destruct (String.eqb name k); [assumption|].
  cbn [map fst]. apply NoDup_cons. split; [|auto].
  intros H. apply Hk. eapply aiDelete_keys; eauto.
Qed.

Lemma aiUpdate_keys name f (ai : aiMap) :
  map fst (aiUpdate name f ai) = map fst ai.
Proof.
  induction ai as [|[k w] ai IH]; [reflexivity|].
  cbn [aiUpdate]. destruct (String.eqb name k); cbn [map fst]; congruence.
Qed.

Lemma aiCreate_keys name v (ai : aiMap) k :
  k ∈ map fst (aiCreate name v ai) <-> k = name \/ k ∈ map fst ai.
Proof.
  induction ai as [|[k' w] ai IH]; cbn [aiCreate map fst].
  - rewrite list_elem_of_singleton, elem_of_nil. tauto.
  - destruct (arrayIndex name) as [n|]; [destruct (arrayIndex k') as [n'|]|];
      try destruct (n <? n'); cbn [map fst];
      rewrite ?elem_of_cons, ?IH, ?elem_of_cons; tauto.
Qed.

Lemma aiCreate_NoDup name v (ai : aiMap) :
  name ∉ map fst ai -> NoDup (map fst ai) ->
  NoDup (map fst (aiCreate name v ai)).
Proof.
  induction ai as [|[k w] ai IH]; cbn [aiCreate map fst]; intros Hn Hnd.
  - apply NoDup_singleton.
  - apply not_elem_of_cons in Hn as [Hne Hn].
    pose proof Hnd as [Hk Hnd']%NoDup_cons.
    assert (Hrec : NoDup (k :: map fst (aiCreate name v ai))).
    { apply NoDup_cons. split; [|auto].
      rewrite aiCreate_keys. intros [->|H]; [congruence | auto]. }
    assert (Hhere : NoDup (name :: k :: map fst ai)).
    { apply NoDup_cons. split; [|assumption].
      rewrite elem_of_cons. intros [->|H]; [congruence | auto]. }
    destruct (arrayIndex name) as [n|]; [destruct (arrayIndex k) as [n'|]|];
      try destruct (n <? n'); cbn [map fst]; assumption.
Qed.

Lemma aiAddRow_NoDup (ai ai' : aiMap) (i : indexRow) :
  aiAddRow ai i = Ok ai' ->
  NoDup (map fst ai) -> NoDup (map fst ai').
Proof.
  unfold aiAddRow. intros H Hnd.
  destruct (hasKey (Key_name i) ai) eqn:E.
  { injection H as <-. now rewrite aiUpdate_keys. }
  destruct (inherited (Key_name i)); [discriminate|].
  injection H as <-. rewrite aiUpdate_keys.
  apply aiCreate_NoDup; [|assumption].
  apply hasKey_false in E. intros H.
  apply list_elem_of_fmap in H as ([k w] & Hk & Hin). cbn in Hk. subst k.
  clear Hnd. induction ai as [|[k' w'] ai IH]; [inversion Hin|].
  cbn [assoc] in E. destruct (String.eqb_spec (Key_name i) k'); [discriminate|].
  apply elem_of_cons in Hin as [[= <- _]|Hin]; [congruence | auto].
Qed.

(** No entry of [ai] is ever created under the name of a member of
    [Object.prototype]. *)
Lemma aiAddRow_own (ai ai' : aiMap) (i : indexRow) :
  aiAddRow ai i = Ok ai' ->
  (forall k, k ∈ map fst ai -> inherited k = false) ->
  forall k, k ∈ map fst ai' -> inherited k = false.
Proof.
  unfold aiAddRow. intros H Hown k Hk.
  destruct (hasKey (Key_name i) ai) eqn:E.
  { injection H as <-. rewrite aiUpdate_keys in Hk. auto. }
  destruct (inherited (Key_name i)) eqn:Ei; [discriminate|].
  injection H as <-. rewrite aiUpdate_keys in Hk.
  apply aiCreate_keys in Hk as [->|Hk]; auto.
Qed.

Lemma aiAddRows_invariant rows : forall ai ai' : aiMap,
  aiAddRows rows ai = Ok ai' ->
  NoDup (map fst ai) ->
  (forall k, k ∈ map fst ai -> inherited k = false) ->
  NoDup (map fst ai')
  /\ forall k, k ∈ map fst ai' -> inherited k = false.
Proof.
  induction rows as [|r rows IH]; intros ai ai' H Hnd Hown.
  - injection H as <-. auto.
  - cbn [aiAddRows] in H.
    destruct (aiAddRow ai r) as [ai1| |] eqn:E; cbn [mbind result_bind] in H;
      try discriminate.
    apply (IH ai1 ai' H).
    + now apply (aiAddRow_NoDup ai ai1 r).
    + now apply (aiAddRow_own ai ai1 r).
Qed.

Lemma groupIndexes_NoDup (actualIndexes : option (list indexRow)) ai :
  groupIndexes actualIndexes = Ok ai ->
  NoDup (map fst ai)
  /\ forall k, k ∈ map fst ai -> inherited k = false.
Proof.
  destruct actualIndexes as [rows|]; cbn [groupIndexes]; intros H.
  - apply (aiAddRows_invariant rows [] ai H); [apply NoDup_nil_2|].
    intros k Hk. now apply elem_of_nil in Hk.
  - injection H as <-. split; [apply NoDup_nil_2|].
    intros k Hk. now apply elem_of_nil in Hk.
Qed.

Variable m : modelDef.
Variable actualFields : option (list fieldRow).

Lemma compositeOf_indexNames name ci :
  compositeOf m name = Some ci -> name ∈ indexNames m.
Proof.
  unfold compositeOf, indexNames. intros H.
  destruct (indexes m) as [ixs|] eqn:Hix; [|discriminate].
  cbn [mbind option_bind] in H.
  apply list_elem_of_filter. split.
  - unfold compositeOf. rewrite Hix. cbn [mbind option_bind]. rewrite H. eauto.
  - destruct (assoc name ixs) as [o|] eqn:Ha; [|discriminate].
    eapply assoc_Some_in; eauto.
Qed.

Lemma orderMatched_false declared live i c :
  declared !! i = Some c -> columnAt live i <> Some c ->
  orderMatched declared live = false.
Proof.
  intros Hd Hl. unfold orderMatched.
  apply not_true_is_false. intros H.
  rewrite forallb_forall in H.
  specialize (H (i, c)). cbn [fst snd] in H.
  rewrite bool_decide_eq_true in H. apply Hl, H.
  apply list_elem_of_In. apply list_elem_of_lookup. exists i.
  rewrite list_lookup_imap, Hd. reflexivity.
Qed.

(** The conditions under which the callback of [aiNames.forEach] reaches
    the comparison of the column orders and finds a difference. *)
Lemma removeIndex_reordered name ci live i c (ai : aiMap) :
  compositeOf m name = Some ci ->
  assoc name ai = Some live ->
  splitCommas (columns ci) !! i = Some c ->
  columnAt (snd live) i <> Some c ->
  name <> "id" -> name <> "PRIMARY" ->
  propGet (mproperties m) name <> Member ->
  (forall p, propOf (mproperties m) name = Some p -> is_Some (index p)) ->
  removeIndex m name ai = ([DropIndex name], aiDelete name ai).
Proof.
  intros Hci Hai Hd Hl Hid Hpk Hm Hprop. unfold removeIndex.
  rewrite (proj2 (String.eqb_neq _ _) Hid), (proj2 (String.eqb_neq _ _) Hpk).
  cbn [orb].
  rewrite (bool_decide_eq_true_2 _ (compositeOf_indexNames _ _ Hci)).
  cbn [negb andb orb].
  assert (Hp : present (propGet (mproperties m) name)
               && negb (hasIndex (propGet (mproperties m) name)) = false).
  { destruct (propGet (mproperties m) name) as [|p|] eqn:E;
      [reflexivity| |congruence].
    apply propGet_Descr in E. cbn [present hasIndex andb].
    rewrite (bool_decide_eq_true_2 _ (Hprop p E)). reflexivity. }
  rewrite Hp. rewrite Hci, Hai.
  rewrite (orderMatched_false _ _ _ _ Hd Hl). reflexivity.
Qed.

Lemma removeIndex_other name n (ai : aiMap) :
  n <> name ->
  assoc name (snd (removeIndex m n ai)) = assoc name ai
  /\ (NoDup (map fst ai) -> NoDup (map fst (snd (removeIndex m n ai)))).
Proof.
  intros Hne. unfold removeIndex.
  repeat match goal with
         | |- context [if ?b then _ else _] => destruct b
         end; cbn [snd]; auto using assoc_aiDelete_ne, aiDelete_NoDup.
Qed.

Lemma removeIndexes_gone name names : forall ai : aiMap,
  assoc name ai = None ->
  assoc name (snd (removeIndexes m names ai)) = None.
Proof.
  induction names as [|n names IH]; intros ai Hai; [assumption|].
  cbn [removeIndexes].
  destruct (removeIndex m n ai) as [fs ai1] eqn:E1.
  destruct (removeIndexes m names ai1) as [fs' ai2] eqn:E2.
  cbn [snd]. replace ai2 with (snd (removeIndexes m names ai1))
    by (rewrite E2; reflexivity).
  apply IH. replace ai1 with (snd (removeIndex m n ai))
    by (rewrite E1; reflexivity).
  destruct (String.eqb_spec n name) as [->|Hne].
  - unfold removeIndex.
    repeat match goal with
           | |- context [if ?b then _ else _] => destruct b
           end; cbn [snd]; auto.
    now apply assoc_aiDelete_None.
  - rewrite (proj1 (removeIndex_other name n ai Hne)). assumption.
Qed.

Lemma removeIndexes_reordered name ci live i c names : forall ai : aiMap,
  compositeOf m name = Some ci ->
  splitCommas (columns ci) !! i = Some c ->
  columnAt (snd live) i <> Some c ->
  name <> "id" -> name <> "PRIMARY" ->
  propGet (mproperties m) name <> Member ->
  (forall p, propOf (mproperties m) name = Some p -> is_Some (index p)) ->
  name ∈ names -> NoDup (map fst ai) -> assoc name ai = Some live ->
  DropIndex name ∈ fst (removeIndexes m names ai)
  /\ assoc name (snd (removeIndexes m names ai)) = None.
Proof.
  intros ai Hci Hd Hl Hid Hpk Hm Hprop. revert ai.
  induction names as [|n names IH]; intros ai Hin Hnd Hai.
  - apply elem_of_nil in Hin. contradiction.
  - cbn [removeIndexes].
    destruct (String.eqb_spec n name) as [->|Hne].
    + rewrite (removeIndex_reordered name ci live i c ai) by assumption.
      pose proof (removeIndexes_gone name names (aiDelete name ai)
                    (assoc_aiDelete_eq name ai Hnd)) as Hg.
      destruct (removeIndexes m names (aiDelete name ai)) as [fs' ai2].
      cbn [fst snd] in *. split; [apply list_elem_of_here | assumption].
    + apply elem_of_cons in Hin as [->|Hin]; [congruence|].
      destruct (removeIndex_other name n ai Hne) as [Ha Hn].
      destruct (removeIndex m n ai) as [fs ai1]. cbn [snd] in Ha, Hn.
      destruct (IH ai1 Hin (Hn Hnd)) as [I1 I2]; [congruence|].
      destruct (removeIndexes m names ai1) as [fs' ai2].
      cbn [fst snd] in *. split; [|assumption].
      apply elem_of_app. auto.
Qed.

(** C3, amended.  When the rows of the live indexes can be grouped, a
    declared composite index that is not named [id] or [PRIMARY], whose
    name is not that of a declared property without an index, and whose
    live namesake differs from it at one of the declared column positions,
    is dropped and added again: [alterTable] builds its fragment list, and
    the list holds both the [DROP INDEX] and the [ADD INDEX] of the
    index. *)
Theorem reordered_index_dropped_and_added actualIndexes ai name ci live i c :
  groupIndexes actualIndexes = Ok ai ->
  compositeOf m name = Some ci ->
  assoc name ai = Some live ->
  splitCommas (columns ci) !! i = Some c ->
  columnAt (snd live) i <> Some c ->
  name <> "id" -> name <> "PRIMARY" ->
  (forall p, propOf (mproperties m) name = Some p -> is_Some (index p)) ->
  exists sql,
    alterTableSQL m actualFields actualIndexes = Ok sql
    /\ render (DropIndex name) ∈ sql
    /\ render (indexFragment name ci) ∈ sql.
Proof.
  intros Hg Hci Hai Hd Hl Hid Hpk Hprop.
  destruct (groupIndexes_NoDup actualIndexes ai Hg) as [Hnd Hown].
  pose proof (assoc_Some_in _ _ _ Hai) as Hin.
  assert (Hm : propGet (mproperties m) name <> Member).
  { intros E. apply propGet_Member in E as [E _].
    rewrite (Hown name Hin) in E. discriminate. }
  unfold alterTableSQL, alterFragments. rewrite Hg.
  cbn [mbind result_bind].
  destruct (removeIndexes_reordered name ci live i c (map fst ai) ai
              Hci Hd Hl Hid Hpk Hm Hprop Hin Hnd Hai) as [Hdrop Hgone].
  destruct (removeIndexes m (map fst ai) ai) as [removed ai'].
  cbn [fst snd] in Hdrop, Hgone. cbn [mbind result_bind].
  eexists. split; [reflexivity|].
  split; apply list_elem_of_fmap_2; rewrite !elem_of_app.
  - auto.
  - do 4 right. apply list_elem_of_In, in_flat_map.
    exists name. split.
    + apply list_elem_of_In, (compositeOf_indexNames _ _ Hci).
    + unfold addIndex. rewrite Hci.
      rewrite (proj2 (hasKey_false _ _) Hgone). now left.
Qed.

End AlterFacts.

(** C3, as stated, at an index named [id]: the live index [id] has the
    columns [b, a], the declared one [a, b], and nothing is emitted. *)
Lemma reordered_index_named_id_kept :
  compositeOf pairModel "id"
  = Some {| columns := "a, b"; ctype := EmptyString; ckind := EmptyString |}
  /\ (ai ← groupIndexes (Some (liveIndexes pairLive));
      Ok (snd <$> assoc "id" ai))
     = Ok (Some [Some "b"; Some "a"])
  /\ splitCommas "a, b" = ["a"; "b"]
  /\ alterFragments pairModel (Some (liveFields pairLive))
       (Some (liveIndexes pairLive))
     = Ok [].
Proof. repeat split; vm_compute; reflexivity. Qed.

(** C1, at a failing input.  For [userModel], whose composite index bears
    the name of a property that has no index of its own, synchronisation
    never settles: against a table without the index [alterTable] adds the
    index; against the table so altered it drops the index, sending an
    [ALTER TABLE] where [done] should have been called at once; and the
    table is back where it started. *)
Theorem alterTable_oscillates :
  let live1 := applyAlter userLive (diff userModel userLive) in
  let live2 := applyAlter live1 (diff userModel live1) in
  alterTableSQL userModel (Some (liveFields userLive)) (Some (liveIndexes userLive))
  = Ok ["ADD  INDEX  `email` (email, createdAt)"]
  /\ liveIndexes live1
     = [primaryRow;
        {| Key_name := "email"; Seq_in_index := 1; Column_name := "email" |};
        {| Key_name := "email"; Seq_in_index := 2; Column_name := "createdAt" |}]
  /\ alterTableSQL userModel (Some (liveFields live1)) (Some (liveIndexes live1))
     = Ok ["DROP INDEX `email`"]
  /\ (forall rt d done h,
        alterTable rt d "User" userModel (Some (liveFields live1))
          (Some (liveIndexes live1)) done false h
        = query d ("ALTER TABLE " +:+ tableEscaped rt "User" +:+ " "
                     +:+ "DROP INDEX `email`") done h)
  /\ live2 = userLive.
Proof.
  repeat split; vm_compute; reflexivity.
Qed.

(** ** The properties at sample inputs *)


(** C5, as stated, at three inputs.  At [{f: {gt: null}}] the encoding of
    [null] is [NULL], but the clause carries the text of [null] itself when
    [f] has no descriptor, and none is produced when [f] is a [String]
    property.  At [{f: {gt: {a: 1, b: 2}}}] the encoding of the operand is
    [1], and the clause carries the text of the operand itself.  At
    [{toString: 5}], for a model without a property [toString], no clause
    is produced. *)
Lemma where_clause_exceptions :
  operatorObject gtNull (VRef 1) "gt" VNull
  /\ toDatabase sampleRuntime 1 Falsy VNull gtNull = Ok (VStr "NULL", gtNull)
  /\ whereClause sampleRuntime 1 [] (VRef 0) "f" gtNull
     = Ok (VStr "`f` > null", gtNull)
  /\ whereClause sampleRuntime 1 [] (VRef 0) "f" gtNull
     <> Ok (VStr (escapeName "f" +:+ " > " +:+ "NULL"), gtNull)
  /\ whereClause sampleRuntime 1 [("f", Some (plainProp "String"))]
       (VRef 0) "f" gtNull
     = Throw (TypeError "Cannot read property 'toString'")
  /\ operatorObject gtPair (VRef 1) "gt" (VRef 2)
  /\ ~ namesOperator gtPair (VRef 2)
  /\ toDatabase sampleRuntime 1 Falsy (VRef 2) gtPair = Ok (VNum 1, gtPair)
  /\ whereClause sampleRuntime 1 [] (VRef 0) "f" gtPair
     = Ok (VStr "`f` > [object Object]", gtPair)
  /\ whereObject (toStringOf (VNum 5)) (VRef 0) [("toString", VNum 5)]
  /\ scalar (VNum 5)
  /\ whereClause sampleRuntime 1 [] (VRef 0) "toString" (toStringOf (VNum 5))
     = Throw (TypeError "Cannot read property 'name' of undefined").
Proof.
  split; [exists 1%nat, []; repeat split|].
  do 4 (split; [try (vm_compute; reflexivity); vm_compute; discriminate|]).
  split; [exists 1%nat, []; repeat split|].
  split.
  { intros (l & op & x & [= <-] & Hl & _). vm_compute in Hl. discriminate Hl. }
  do 2 (split; [vm_compute; reflexivity|]).
  split; [exists 0%nat; split; reflexivity|].
  split; [exact I | vm_compute; reflexivity].
Qed.

(** C6, as stated, at [undefined], at an invalid [Date] and at [{}]:
    [undefined] is falsy and is encoded as [undefined], not as [NULL]; an
    invalid [Date] is truthy and its encoding has no date in it; an empty
    object is truthy and is encoded as [NULL]. *)
Lemma date_undefined_and_invalid :
  truthy VUndef = false
  /\ toDatabase sampleRuntime 1 (Descr (plainProp "Date")) VUndef ∅
     = Ok (VUndef, ∅)
  /\ truthy (VRef 0) = true
  /\ toDatabase sampleRuntime 1 (Descr (plainProp "Date")) (VRef 0) (dateAt None)
     = Ok (VStr (dquote +:+ "NaN-NaN-NaN NaN:NaN:NaN" +:+ dquote), dateAt None)
  /\ toDatabase sampleRuntime 1 (Descr (plainProp "Date")) (VRef 0) emptyObject
     = Ok (VStr "NULL", emptyObject).
Proof. repeat split; vm_compute; reflexivity. Qed.

(** C9, as stated, at [{a: 1, b: 2}] and at [{}]: neither is an object
    with one key that names an operator, and without a descriptor the
    first is encoded as [1], the value of its first key, the second as
    [undefined]. *)
Lemma plain_object_unwrapped :
  ~ namesOperator pairObject (VRef 0)
  /\ toDatabase sampleRuntime 1 Falsy (VRef 0) pairObject
     = Ok (VNum 1, pairObject)
  /\ ~ namesOperator emptyObject (VRef 0)
  /\ toDatabase sampleRuntime 1 Falsy (VRef 0) emptyObject
     = Ok (VUndef, emptyObject).
Proof.
  repeat split; try (vm_compute; reflexivity);
    intros (l & op & x & [= <-] & Hl & _); vm_compute in Hl; discriminate Hl.
Qed.

(** C10, as stated, at [{inq: null}]: [null] has no [length], and encoding
    throws instead of returning it. *)
Lemma inq_null_throws :
  operatorObject (inqOf VNull) (VRef 0) "inq" VNull
  /\ toDatabase sampleRuntime 1 Falsy (VRef 0) (inqOf VNull)
     = Throw (TypeError "Cannot read property 'propertyIsEnumerable'")
  /\ toDatabase sampleRuntime 1 Falsy (VRef 0) (inqOf VNull)
     <> Ok (VNull, inqOf VNull).
Proof.
  split; [exists 0%nat, []; repeat split|].
  split; [vm_compute; reflexivity | vm_compute; discriminate].
Qed.


Lemma reordered_index_witness :
  exists sql,
    alterTableSQL (pairModelNamed "ab")
      (Some (liveFields (pairLiveNamed "ab")))
      (Some (liveIndexes (pairLiveNamed "ab"))) = Ok sql
    /\ render (DropIndex "ab") ∈ sql
    /\ render (indexFragment "ab"
                 {| columns := "a, b"; ctype := EmptyString;
                    ckind := EmptyString |}) ∈ sql.
Proof.
  refine (reordered_index_dropped_and_added (pairModelNamed "ab")
            (Some (liveFields (pairLiveNamed "ab")))
            (Some (liveIndexes (pairLiveNamed "ab")))
            [("PRIMARY", (primaryRow, [Some "id"]));
             ("ab", ({| Key_name := "ab"; Seq_in_index := 1;
                        Column_name := "b" |}, [Some "b"; Some "a"]))]
            "ab"
            {| columns := "a, b"; ctype := EmptyString; ckind := EmptyString |}
            ({| Key_name := "ab"; Seq_in_index := 1; Column_name := "b" |},
             [Some "b"; Some "a"])
            0%nat "a" _ _ _ _ _ _ _ _).
  - vm_compute. reflexivity.
  - reflexivity.
  - reflexivity.
  - vm_compute. reflexivity.
  - vm_compute. discriminate.
  - discriminate.
  - discriminate.
  - intros p H. vm_compute in H. discriminate H.
Defined.

Lemma where_clause_shapes_witness :
  whereClause sampleRuntime 1 sampleProps (VRef 0) "name" sampleWhere
  = Ok (VStr "`name` IS NULL", sampleWhere)
  /\ whereClause sampleRuntime 1 sampleProps (VRef 0) "age" sampleWhere
     = Ok (VStr "`age` > 5", sampleWhere)
  /\ whereClause sampleRuntime 1 sampleProps (VRef 0) "city" sampleWhere
     = Ok (VStr "`city` = 'Oslo'", sampleWhere).
Proof.
  assert (Hw : whereObject sampleWhere (VRef 0)
                 [("name", VNull); ("age", VRef 1); ("city", VStr "Oslo")])
    by (exists 0%nat; split; reflexivity).
  split; [|split].
  - apply (proj1 (where_clause_shapes sampleRuntime 0 sampleProps (VRef 0) _
                    "name" sampleWhere Hw)).
    left. reflexivity.
  - refine (proj1 (proj1 (proj2 (where_clause_shapes sampleRuntime 0
                                   sampleProps (VRef 0) _ "age" sampleWhere Hw))
                     (VRef 1) (VNum 5) (VNum 5) "5" _ _ _ _ _) _ _);
      try discriminate; try reflexivity.
    exists 1%nat, []. repeat split.
  - refine (proj2 (proj1 (proj2 (where_clause_shapes sampleRuntime 0
                                   sampleProps (VRef 0) _ "city" sampleWhere Hw))
                     (VRef 1) (VStr "Oslo") (VStr "'Oslo'") "'Oslo'"
                     _ _ _ _ _) _);
      try discriminate; reflexivity.
Defined.

Lemma date_encoding_witness :
  toDatabase sampleRuntime 1 (Descr (plainProp "Date")) (VRef 0)
    (dateAt (Some 1000000000000))
  = Ok (VStr (dquote +:+ "2001-09-09 01:46:40" +:+ dquote),
        dateAt (Some 1000000000000))
  /\ toDatabase sampleRuntime 1 (Descr (plainProp "Date")) (VNum 86400000)
       (dateAt (Some 1000000000000))
     = Ok (VStr (dquote +:+ "1970-01-02 00:00:00" +:+ dquote),
           dateAt (Some 1000000000000))
  /\ toDatabase sampleRuntime 1 (Descr (plainProp "Date")) (VNum 0)
       (dateAt (Some 1000000000000))
     = Ok (VStr "NULL", dateAt (Some 1000000000000)).
Proof.
  pose proof (date_encoding sampleRuntime 0 (plainProp "Date")
                (dateAt (Some 1000000000000)) eq_refl)
    as (Hd & Hn & _ & _ & _ & Hf & _).
  split; [|split].
  - exact (Hd 0%nat 1000000000000 eq_refl).
  - apply (Hn 86400000); [discriminate | vm_compute; discriminate].
  - apply Hf; [reflexivity | discriminate].
Defined.

Lemma all_error_callback_witness :
  all sampleRuntime 1 failingDriver "User" [] VUndef record ∅
  = Ok ("SELECT * FROM `User`", ∅,
        [Logged "SELECT * FROM `User`" 0; Ended;
         Called [VStr "ER_NO_SUCH_TABLE"; VRef 0] (<[0%nat := OArray []]> ∅)]).
Proof.
  exact (proj2 (proj2 (all_error_callback sampleRuntime 1 failingDriver "User"
                         [] VUndef record ∅ "SELECT * FROM `User`" ∅
                         (VStr "ER_NO_SUCH_TABLE") VUndef ∅
                         eq_refl eq_refl eq_refl eq_refl))).
Defined.

Lemma query_requires_callback_witness :
  query quietDriver "SELECT 1" (NotFunction VUndef) ∅
  = [Raised (Error "callback should be a function")]
  /\ query quietDriver "SELECT 1" record ∅
     = [Ended; Called [VNull; VUndef] ∅].
Proof.
  split.
  - exact (proj1 (query_requires_callback quietDriver "SELECT 1" ∅) VUndef).
  - exact (proj2 (query_requires_callback quietDriver "SELECT 1" ∅)
             (fun args h => [Called args h]) eq_refl).
Defined.

Lemma toDatabase_no_descriptor_witness :
  toDatabase sampleRuntime 1 Falsy (VStr "O'Neil") ∅ = Ok (VStr "O'Neil", ∅).
Proof.
  apply (toDatabase_no_descriptor sampleRuntime 0 (VStr "O'Neil") ∅);
    [discriminate | discriminate | reflexivity].
Defined.

Lemma in_operand_verbatim_witness :
  toDatabase sampleRuntime 1 Falsy (VRef 0) (inqOf (VStr "1) OR (1=1"))
  = Ok (VStr "1) OR (1=1", inqOf (VStr "1) OR (1=1")).
Proof.
  refine (in_operand_verbatim sampleRuntime 0 Falsy (VRef 0) "inq"
            (VStr "1) OR (1=1") false _ _ _ _ _).
  - exists 0%nat, []. repeat split.
  - left. reflexivity.
  - reflexivity.
  - intros l xs H. discriminate H.
Defined.

(** ** The filter compiler and the differ on the examples of the
    specification *)

Example buildLimit_no_skip :
  buildLimit sampleRuntime (VNum 10) (VNum 0) ∅ = Ok "LIMIT 10".
Proof. reflexivity. Qed.

Example buildLimit_skip :
  buildLimit sampleRuntime (VNum 10) (VNum 5) ∅ = Ok "LIMIT 5, 10".
Proof. reflexivity. Qed.

Example buildWhere_sample :
  buildWhere sampleRuntime 1 sampleProps (VRef 0) sampleWhere
  = Ok ("WHERE `name` IS NULL AND `age` > 5 AND `city` = 'Oslo'", sampleWhere).
Proof. vm_compute. reflexivity. Qed.

Example buildWhere_inq_empty :
  buildWhere sampleRuntime 1 [] (VRef 1) (withOperand [] inqFilter)
  = Ok ("WHERE 0", withOperand [] inqFilter).
Proof. vm_compute. reflexivity. Qed.

Example buildOrderBy_sample :
  buildOrderBy (VRef 0) (<[0%nat := OArray [VStr "name"; VStr "age  DESC"]]> ∅)
  = Ok "ORDER BY `name`, `age` DESC".
Proof. vm_compute. reflexivity. Qed.

Example escapeName_dotted : escapeName "a.b" = "`a`.`b`".
Proof. reflexivity. Qed.

Example pair_reordered :
  alterTableSQL (pairModelNamed "ab") (Some (liveFields (pairLiveNamed "ab")))
    (Some (liveIndexes (pairLiveNamed "ab")))
  = Ok ["DROP INDEX `ab`"; "ADD  INDEX  `ab` (a, b)"].
Proof. vm_compute. reflexivity. Qed.

Example pair_settled :
  let live1 := applyAlter (pairLiveNamed "ab")
                 (diff (pairModelNamed "ab") (pairLiveNamed "ab")) in
  alterFragments (pairModelNamed "ab") (Some (liveFields live1))
    (Some (liveIndexes live1))
  = Ok [].
Proof. vm_compute. reflexivity. Qed.

(** * Further properties *)

(** ** Names and ordering *)

Lemma append_nil_r (s : string) : s +:+ EmptyString = s.
Proof.
  induction s as [|c s IH]; [reflexivity|].
  rewrite append_cons. now rewrite IH.
Qed.

Lemma replaceDots_app (a b : string) :
  replaceDots (a +:+ b) = replaceDots a +:+ replaceDots b.
Proof.
  induction a as [|c a IH]; [reflexivity|].
  rewrite append_cons. cbn [replaceDots]. rewrite IH.
  destruct (Ascii.eqb c "."); [|reflexivity].
  now rewrite append_assoc.
Qed.

Lemma replaceDots_noDot (s : string) : noDot s = true -> replaceDots s = s.
Proof.
  induction s as [|c s IH]; [reflexivity|].
  cbn [noDot replaceDots]. intros [Hc Hs]%andb_prop.
  apply negb_true_iff in Hc. rewrite Hc. now rewrite IH.
Qed.

(** [escapeName] quotes a name without dot as it is, and a dotted path
    segment by segment: the dots stay outside the quotes. *)
Theorem escapeName_path (a b : string) :
  (noDot a = true -> escapeName a = "`" +:+ a +:+ "`")
  /\ escapeName (a +:+ "." +:+ b) = escapeName a +:+ "." +:+ escapeName b.
Proof.
  split.
  - intros Ha. unfold escapeName. now rewrite replaceDots_noDot.
  - unfold escapeName. rewrite replaceDots_app.
    change (replaceDots ("." +:+ b)) with ("`.`" +:+ replaceDots b).
    rewrite !append_assoc. reflexivity.
Qed.

Lemma escapeName_path_witness :
  escapeName "user" = "`user`"
  /\ escapeName "user.name" = "`user`.`name`".
Proof.
  split.
  - apply (proj1 (escapeName_path "user" "name")). reflexivity.
  - exact (proj2 (escapeName_path "user" "name")).
Defined.

Lemma rev_app_append (s acc : string) :
  String.rev_app s acc = String.rev s +:+ acc.
Proof.
  revert acc. induction s as [|c s IH]; intros acc; [reflexivity|].
  unfold String.rev. cbn [String.rev_app].
  rewrite (IH (String c acc)), (IH (String c EmptyString)).
  rewrite append_assoc. reflexivity.
Qed.

Lemma splitSpaces_last (s : string) : forall cur b,
  noSpace s = true -> splitSpaces s cur b = [String.rev cur +:+ s].
Proof.
  induction s as [|c s IH]; intros cur b Hs.
  - cbn [splitSpaces]. now rewrite append_nil_r.
  - cbn [noSpace] in Hs. apply andb_prop in Hs as [Hc Hs].
    apply negb_true_iff in Hc. cbn [splitSpaces]. rewrite Hc.
    rewrite IH by assumption. unfold String.rev at 1.
    cbn [String.rev_app]. rewrite rev_app_append, append_assoc.
    reflexivity.
Qed.

Lemma splitSpaces_word (s : string) c rest : forall cur,
  noSpace s = true -> isSpace c = true ->
  splitSpaces (s +:+ String c rest) cur false
  = (String.rev cur +:+ s) :: splitSpaces rest EmptyString true.
Proof.
  induction s as [|x s IH]; intros cur Hs Hc.
  - change (EmptyString +:+ String c rest) with (String c rest).
    cbn [splitSpaces]. rewrite Hc. now rewrite append_nil_r.
  - cbn [noSpace] in Hs. apply andb_prop in Hs as [Hx Hs].
    apply negb_true_iff in Hx. rewrite append_cons.
    cbn [splitSpaces]. rewrite Hx.
    rewrite IH by assumption. unfold String.rev at 1.
    cbn [String.rev_app]. rewrite rev_app_append, append_assoc.
    reflexivity.
Qed.

Lemma splitSpaces_run (ws rest : string) cur :
  allSpace ws = true ->
  splitSpaces (ws +:+ rest) cur true = splitSpaces rest cur true.
Proof.
  induction ws as [|c ws IH]; intros Hws; [reflexivity|].
  cbn [allSpace] in Hws. apply andb_prop in Hws as [Hc Hws].
  rewrite append_cons. cbn [splitSpaces]. rewrite Hc. now apply IH.
Qed.

(** [buildOrderBy] on a string: a name without white space is quoted as it
    is (its dots are not split); of [name dir ...] the name is quoted, the
    direction follows after one space whatever the white space between
    them was, and what follows the direction is dropped. *)
Theorem buildOrderBy_string name c ws dir tail h :
  noSpace name = true -> isSpace c = true -> allSpace ws = true ->
  noSpace dir = true -> dir <> EmptyString ->
  (tail = EmptyString
   \/ exists c' t, tail = String c' t /\ isSpace c' = true) ->
  buildOrderBy (VStr name) h = Ok ("ORDER BY `" +:+ name +:+ "`")
  /\ buildOrderBy (VStr (name +:+ String c ws +:+ dir +:+ tail)) h
     = Ok ("ORDER BY `" +:+ name +:+ "` " +:+ dir).
Proof.
  intros Hn Hc Hws Hd Hne Ht. split.
  - cbn [buildOrderBy mbind result_bind orderTerms orderTerm].
    unfold splitOnSpaces. rewrite splitSpaces_last by assumption.
    reflexivity.
  - cbn [buildOrderBy mbind result_bind orderTerms orderTerm].
    unfold splitOnSpaces. rewrite (append_cons c ws).
    rewrite splitSpaces_word by assumption.
    rewrite splitSpaces_run by assumption.
    change (String.rev EmptyString +:+ name) with name.
    destruct dir as [|x dir]; [congruence|].
    cbn [noSpace] in Hd. apply andb_prop in Hd as [Hx Hd].
    apply negb_true_iff in Hx. rewrite append_cons.
    cbn [splitSpaces]. rewrite Hx.
    destruct Ht as [-> | (c' & t & -> & Hc')].
    + rewrite append_nil_r, splitSpaces_last by assumption.
      cbn [mbind result_bind]. rewrite ?append_assoc. reflexivity.
    + rewrite splitSpaces_word by assumption.
      cbn [mbind result_bind]. rewrite ?append_assoc. reflexivity.
Qed.

Lemma buildOrderBy_string_witness :
  buildOrderBy (VStr "name") ∅ = Ok "ORDER BY `name`"
  /\ buildOrderBy (VStr "age   DESC NULLS LAST") ∅ = Ok "ORDER BY `age` DESC".
Proof.
  split.
  - refine (proj1 (buildOrderBy_string "name" " " EmptyString "x" EmptyString
                     ∅ _ _ _ _ _ _));
      try reflexivity; try discriminate. left. reflexivity.
  - refine (proj2 (buildOrderBy_string "age" " " "  " "DESC" " NULLS LAST" ∅
                     _ _ _ _ _ _));
      try reflexivity; try discriminate.
    right. exists " "%char, "NULLS LAST". split; reflexivity.
Defined.

(** ** What the codec writes *)

Lemma sameShape_refl h : sameShape h h.
Proof.
  intros l. destruct (h !! l) as [[xs|fs|t]|]; eauto.
Qed.

Lemma sameShape_trans h1 h2 h3 :
  sameShape h1 h2 -> sameShape h2 h3 -> sameShape h1 h3.
Proof.
  intros H12 H23 l. specialize (H12 l). specialize (H23 l).
  destruct (h1 !! l) as [[xs|fs|t]|].
  - destruct H12 as (ys & E & L). rewrite E in H23.
    destruct H23 as (zs & E' & L'). exists zs. split; [assumption|lia].
  - rewrite H12 in H23. exact H23.
  - rewrite H12 in H23. exact H23.
  - rewrite H12 in H23. exact H23.
Qed.

Lemma sameShape_dom h h' : sameShape h h' -> dom h' = dom h.
Proof.
  intros H. apply set_eq. intros l. rewrite !elem_of_dom.
  specialize (H l). destruct (h !! l) as [[xs|fs|t]|] eqn:E.
  - destruct H as (ys & -> & _). split; eauto.
  - rewrite H. reflexivity.
  - rewrite H. reflexivity.
  - rewrite H. reflexivity.
Qed.

Lemma sameShape_write h l xs ys :
  h !! l = Some (OArray xs) -> length ys = length xs ->
  sameShape h (<[l := OArray ys]> h).
Proof.
  intros Hl Hlen l'. destruct (decide (l' = l)) as [->|Hne].
  - rewrite Hl, lookup_insert_eq. eauto.
  - rewrite lookup_insert_ne by congruence.
    destruct (h !! l') as [[zs|fs|t]|]; eauto.
Qed.

Section CodecFrame.

Variable rt : runtime.

Lemma escapeElems_shape n : forall h l i,
  sameShape h (escapeElems rt h l i n).
Proof.
  induction n as [|n IH]; intros h l i; [apply sameShape_refl|].
  cbn [escapeElems].
  destruct (h !! l) as [[xs|fs|t]|] eqn:Hl; try apply sameShape_refl.
  destruct (xs !! i) as [x|] eqn:Hi; [|apply sameShape_refl].
  eapply sameShape_trans; [|apply IH].
  apply (sameShape_write h l xs); [assumption|].
  apply length_insert.
Qed.

Lemma toDatabaseIn_shape v h r h' :
  toDatabaseIn rt v h = Ok (r, h') -> sameShape h h'.
Proof.
  unfold toDatabaseIn. intros H.
  destruct (lengthIsEnumerable h v) as [e| |]; cbn [mbind result_bind] in H;
    try discriminate.
  destruct (negb e && String.eqb (typeof v) "object");
    [|injection H as <- <-; apply sameShape_refl].
  destruct (getLength h v) as [len| |]; cbn [mbind result_bind] in H;
    try discriminate.
  destruct (String.eqb (typeof len) "number");
    [|injection H as <- <-; apply sameShape_refl].
  destruct v; try discriminate. destruct len; try discriminate.
  destruct (join rt _ _ _) as [s| |]; cbn [mbind result_bind] in H;
    try discriminate.
  injection H as <- <-. apply escapeElems_shape.
Qed.

Lemma toDatabase_shape fuel : forall prop val h r h',
  toDatabase rt fuel prop val h = Ok (r, h') -> sameShape h h'.
Proof.
  induction fuel as [|fuel IH]; intros prop val h r h' H; [discriminate|].
  cbn [toDatabase] in H.
  assert (Typed : forall v,
            (toDatabaseTyped rt prop v h ≫= fun r => Ok (r, h))
            = Ok (r, h') -> sameShape h h').
  { intros v Hv.
    destruct (toDatabaseTyped rt prop v h); cbn [mbind result_bind] in Hv;
      try discriminate.
    injection Hv as <- <-. apply sameShape_refl. }
  assert (Main :
    (constructorIsObject h val ≫= fun isObj : bool =>
       if isObj then
         let operator := head (ownKeys h val) in
         val' ← getField h val (default "undefined" operator);
         if bool_decide (operator = Some "between") then
           lo ← getIndex h val' 0;
           '(a, h1) ← toDatabase rt fuel prop lo h;
           sa ← toStr rt h1 a;
           hi ← getIndex h1 val' 1;
           '(b, h2) ← toDatabase rt fuel prop hi h1;
           sb ← toStr rt h2 b;
           Ok (VStr (sa +:+ " AND " +:+ sb), h2)
         else if bool_decide (operator = Some "inq")
                 || bool_decide (operator = Some "nin") then
           toDatabaseIn rt val' h
         else
           r ← toDatabaseTyped rt prop val' h; Ok (r, h)
       else
         r ← toDatabaseTyped rt prop val h; Ok (r, h)) = Ok (r, h') ->
    sameShape h h').
  { clear H. intros H.
    destruct (constructorIsObject h val) as [[|]| |];
      cbn [mbind result_bind] in H; try discriminate; [|now apply (Typed val)].
    cbv zeta in H.
    destruct (getField h val _) as [val'| |]; cbn [mbind result_bind] in H;
      try discriminate.
    destruct (bool_decide (head (ownKeys h val) = Some "between")).
    - destruct (getIndex h val' 0) as [lo| |]; cbn [mbind result_bind] in H;
        try discriminate.
      destruct (toDatabase rt fuel prop lo h) as [[a h1]| |] eqn:E1;
        cbn [mbind result_bind] in H; try discriminate.
      destruct (toStr rt h1 a) as [sa| |]; cbn [mbind result_bind] in H;
        try discriminate.
      destruct (getIndex h1 val' 1) as [hi| |]; cbn [mbind result_bind] in H;
        try discriminate.
      destruct (toDatabase rt fuel prop hi h1) as [[b h2]| |] eqn:E2;
        cbn [mbind result_bind] in H; try discriminate.
      destruct (toStr rt h2 b) as [sb| |]; cbn [mbind result_bind] in H;
        try discriminate.
      injection H as <- <-.
      eapply sameShape_trans; [apply (IH _ _ _ _ _ E1)|apply (IH _ _ _ _ _ E2)].
    - destruct (bool_decide (head (ownKeys h val) = Some "inq")
                || bool_decide (head (ownKeys h val) = Some "nin")).
      + now apply toDatabaseIn_shape in H.
      + now apply (Typed val'). }
  destruct val; try (apply Main; exact H);
    injection H as <- <-; apply sameShape_refl.
Qed.

(** Whatever it is given, [toDatabase] writes nothing but elements of
    arrays that are already in the store: it creates no object, the store
    has the same places afterwards, every array has as many elements as
    before, and plain objects and dates are as they were. *)
Theorem toDatabase_writes_array_elements fuel prop val h r h' :
  toDatabase rt fuel prop val h = Ok (r, h') ->
  dom h' = dom h /\ sameShape h h'.
Proof.
  intros H. apply toDatabase_shape in H. split; [|assumption].
  now apply sameShape_dom.
Qed.

End CodecFrame.

Lemma toDatabase_writes_array_elements_witness :
  dom (withOperand [VStr "1"; VStr "2"] inqFilter) = dom inqFilter
  /\ sameShape inqFilter (withOperand [VStr "1"; VStr "2"] inqFilter).
Proof.
  apply (toDatabase_writes_array_elements sampleRuntime 1 Falsy (VRef 2)
           inqFilter (VStr "1,2")).
  vm_compute. reflexivity.
Defined.

(** ** More of the filter compiler *)

Section FilterMore.

Variable rt : runtime.

Lemma primitive_encoded fuel prop v h :
  primitive v ->
  (prop = Member -> v = VNull \/ v = VUndef) ->
  exists enc e,
    toDatabase rt (S fuel) prop v h = Ok (enc, h) /\ toStr rt h enc = Ok e.
Proof.
  intros Hv Hm.
  assert (Hs : scalar v -> prop <> Member).
  { intros Sv E. destruct (Hm E) as [-> | ->]; exact Sv. }
  destruct v as [| |b|n| |s|l]; try contradiction.
  - exists VUndef, "undefined". split; reflexivity.
  - exists (VStr "NULL"), "NULL". split; reflexivity.
  - apply (scalar_encoded rt fuel prop (VBool b) h (Hs I) I).
  - apply (scalar_encoded rt fuel prop (VNum n) h (Hs I) I).
  - apply (scalar_encoded rt fuel prop VNaN h (Hs I) I).
  - apply (scalar_encoded rt fuel prop (VStr s) h (Hs I) I).
Qed.

Lemma toDatabase_between fuel prop c la xs a sa b sb h :
  operatorObject h c "between" (VRef la) ->
  h !! la = Some (OArray xs) ->
  toDatabase rt fuel prop (default VUndef (xs !! 0%nat)) h = Ok (a, h) ->
  toStr rt h a = Ok sa ->
  toDatabase rt fuel prop (default VUndef (xs !! 1%nat)) h = Ok (b, h) ->
  toStr rt h b = Ok sb ->
  toDatabase rt (S fuel) prop c h = Ok (VStr (sa +:+ " AND " +:+ sb), h).
Proof.
  intros Hc Hla Ea Sa Eb Sb.
  destruct (operatorObject_test _ _ _ _ Hc) as (N1 & N2 & _ & T & K & G).
  destruct Hc as (lc & rest & -> & Hlc & _).
  cbn [toDatabase]. rewrite T. cbn [mbind result_bind].
  rewrite K. cbn [default from_option id]. rewrite G. cbn [mbind result_bind].
  rewrite bool_decide_eq_true_2 by reflexivity.
  cbn [getIndex]. rewrite Hla. cbn [mbind result_bind].
  cbn [default from_option id] in Ea, Eb.
  cbn [default from_option id]. rewrite Ea. cbn [mbind result_bind].
  rewrite Sa. cbn [mbind result_bind getIndex]. rewrite Hla.
  cbn [mbind result_bind default from_option id].
  rewrite Eb. cbn [mbind result_bind].
  rewrite Sb. reflexivity.
Qed.

(** A [between] condition on an array of two primitive bounds, under a key
    [f] that is a property of the model or names no member of
    [Object.prototype], compiles to [`f` BETWEEN lo AND hi], each bound
    encoded by the property type, and writes nothing.  The bounds are read
    by position and not counted: a missing upper bound gives the text
    [undefined]. *)
Theorem between_clause fuel props conds fs f c la xs h :
  whereObject h conds fs ->
  assoc f fs = Some c ->
  operatorObject h c "between" (VRef la) ->
  h !! la = Some (OArray xs) ->
  propGet props f <> Member ->
  primitive (default VUndef (xs !! 0%nat)) ->
  primitive (default VUndef (xs !! 1%nat)) ->
  exists a sa b sb,
    toDatabase rt (S fuel) (propGet props f) (default VUndef (xs !! 0%nat)) h
    = Ok (a, h)
    /\ toStr rt h a = Ok sa
    /\ toDatabase rt (S fuel) (propGet props f) (default VUndef (xs !! 1%nat)) h
       = Ok (b, h)
    /\ toStr rt h b = Ok sb
    /\ (xs !! 1%nat = None -> sb = "undefined")
    /\ whereClause rt (S (S fuel)) props conds f h
       = Ok (VStr (escapeName f +:+ " BETWEEN " +:+ sa +:+ " AND " +:+ sb), h).
Proof.
  intros (lw & -> & Hlw) Hf Hc Hla Hm Hlo Hhi.
  destruct (primitive_encoded fuel (propGet props f) _ h Hlo)
    as (a & sa & Ea & Sa); [intros E; contradiction|].
  destruct (primitive_encoded fuel (propGet props f) _ h Hhi)
    as (b & sb & Eb & Sb); [intros E; contradiction|].
  exists a, sa, b, sb.
  split; [exact Ea|]. split; [exact Sa|]. split; [exact Eb|].
  split; [exact Sb|]. split.
  - intros Hnone. rewrite Hnone in Eb. cbn in Eb. injection Eb as <-.
    cbn in Sb. congruence.
  - unfold whereClause.
    assert (G0 : getField h (VRef lw) f = Ok c)
      by (cbn; rewrite Hlw, Hf; reflexivity).
    rewrite G0. cbn [mbind result_bind].
    rewrite (toDatabase_between (S fuel) _ c la xs a sa b sb h)
      by assumption.
    cbn [mbind result_bind]. rewrite G0. cbn [mbind result_bind].
    destruct (operatorObject_test _ _ _ _ Hc) as (N1 & N2 & Tr & T & K & G).
    pose proof Hc as (lc & rest & Ec & _). subst c.
    rewrite Tr, T. cbn [mbind result_bind]. rewrite K.
    rewrite (bool_decide_eq_false_2 (Some "between" = Some "inq")),
      (bool_decide_eq_false_2 (Some "between" = Some "nin")),
      (bool_decide_eq_false_2 (Some "between" = Some "custom"))
      by discriminate.
    cbn [orb negb mbind result_bind operatorSQL toStr]. unfold escapeName.
    rewrite !append_assoc. reflexivity.
Qed.

(** A [custom] condition, under a key [f] that is a property of the model
    or names no member of [Object.prototype], compiles to its operand as
    it is: the clause has neither the field name nor an operator, and the
    operand is neither encoded nor escaped. *)
Theorem custom_clause fuel props conds fs f c v h :
  whereObject h conds fs ->
  assoc f fs = Some c ->
  operatorObject h c "custom" v ->
  propGet props f <> Member ->
  scalar v ->
  exists e,
    toStr rt h v = Ok e
    /\ (forall s, v = VStr s -> e = s)
    /\ whereClause rt (S fuel) props conds f h = Ok (VStr e, h).
Proof.
  intros (lw & -> & Hlw) Hf Hc Hm Hv.
  destruct (scalar_encoded rt fuel (propGet props f) v h Hm Hv)
    as (Hn & Hu & Ho & enc & e' & Henc & _).
  rewrite toDatabase_literal in Henc by assumption.
  assert (He : exists e, toStr rt h v = Ok e /\ (forall s, v = VStr s -> e = s)).
  { destruct v as [| |[]|n| |s|l]; try contradiction; cbn [toStr];
      eexists; (split; [reflexivity|]); intros s' E; congruence. }
  destruct He as (e & He & Hs). exists e.
  split; [exact He|]. split; [exact Hs|].
  unfold whereClause.
  assert (G0 : getField h (VRef lw) f = Ok c)
    by (cbn; rewrite Hlw, Hf; reflexivity).
  rewrite G0. cbn [mbind result_bind].
  rewrite (toDatabase_operator rt fuel _ c "custom" v h Hc) by discriminate.
  destruct (toDatabaseTyped rt (propGet props f) v h) as [r| |];
    try discriminate.
  cbn [mbind result_bind]. rewrite G0. cbn [mbind result_bind].
  destruct (operatorObject_test _ _ _ _ Hc) as (N1 & N2 & Tr & T & K & G).
  pose proof Hc as (lc & rest & Ec & _). subst c.
  rewrite Tr, T. cbn [mbind result_bind]. rewrite K.
  rewrite (bool_decide_eq_false_2 (Some "custom" = Some "inq")),
    (bool_decide_eq_false_2 (Some "custom" = Some "nin"))
    by discriminate.
  rewrite bool_decide_eq_true_2 by reflexivity.
  cbn [orb negb mbind result_bind]. rewrite G. cbn [mbind result_bind].
  rewrite He. reflexivity.
Qed.

Lemma assoc_in_encodable props (fs : list (string * value)) key :
  Forall (encodable props) fs ->
  encodable props (key, default VUndef (assoc key fs)).
Proof.
  induction 1 as [|[k v] fs Hv _ IH].
  - split; [exact I|]. intros _. now right.
  - cbn [assoc]. destruct (String.eqb_spec key k) as [->|Hne];
      [exact Hv|exact IH].
Qed.

Lemma whereClause_primitive fuel props lw fs key h :
  h !! lw = Some (OPlain fs) ->
  encodable props (key, default VUndef (assoc key fs)) ->
  exists s, whereClause rt (S fuel) props (VRef lw) key h = Ok (VStr s, h).
Proof.
  intros Hlw [Hv Hm]. cbn [fst snd] in Hv, Hm. unfold whereClause.
  assert (G0 : getField h (VRef lw) key = Ok (default VUndef (assoc key fs)))
    by (cbn; rewrite Hlw; reflexivity).
  rewrite G0. cbn [mbind result_bind].
  destruct (primitive_encoded fuel (propGet props key) _ h Hv Hm)
    as (enc & e & Henc & He).
  rewrite Henc. cbn [mbind result_bind]. rewrite G0. cbn [mbind result_bind].
  destruct (default VUndef (assoc key fs)) as [| |b|n| |s|l];
    try contradiction; try (eexists; reflexivity);
    cbn [truthy constructorIsObject].
  - destruct b; cbn [mbind result_bind]; rewrite He; eexists; reflexivity.
  - destruct (negb (n =? 0)); cbn [mbind result_bind]; rewrite He;
      eexists; reflexivity.
  - cbn [mbind result_bind]. rewrite He. eexists. reflexivity.
  - destruct (negb (String.eqb s EmptyString)); cbn [mbind result_bind];
      rewrite He; eexists; reflexivity.
Qed.

Lemma whereClauses_primitive fuel props lw fs h :
  h !! lw = Some (OPlain fs) ->
  Forall (encodable props) fs ->
  forall keys, exists clauses,
    Forall2 (fun key s =>
               whereClause rt (S fuel) props (VRef lw) key h = Ok (VStr s, h))
            keys clauses
    /\ whereClauses rt (S fuel) props (VRef lw) keys h
       = Ok (VStr <$> clauses, h).
Proof.
  intros Hlw Hfs keys. induction keys as [|key keys IH].
  - exists []. split; [constructor|reflexivity].
  - destruct IH as (clauses & HF & HW).
    destruct (whereClause_primitive fuel props lw fs key h Hlw
                (assoc_in_encodable props fs key Hfs)) as (s & Hs).
    exists (s :: clauses). split; [constructor; assumption|].
    cbn [whereClauses]. rewrite Hs. cbn [mbind result_bind].
    rewrite HW. reflexivity.
Qed.

(** On a [where] object whose conditions are all primitive values, and
    whose keys, those bound to [null] or [undefined] apart, are properties
    of the model or name no member of [Object.prototype], [buildWhere]
    returns and writes nothing: it gives the clauses of the keys, in the
    order of the keys, joined by [AND] after [WHERE], and the empty text
    when the object has no key. *)
Theorem buildWhere_conjunction fuel props conds fs h :
  whereObject h conds fs ->
  Forall (encodable props) fs ->
  exists clauses,
    Forall2 (fun key s =>
               whereClause rt (S fuel) props conds key h = Ok (VStr s, h))
            (map fst fs) clauses
    /\ buildWhere rt (S fuel) props conds h
       = Ok (match clauses with
             | [] => EmptyString
             | _ => "WHERE " +:+ String.concat " AND " clauses
             end, h).
Proof.
  intros (lw & -> & Hlw) Hfs.
  destruct (whereClauses_primitive fuel props lw fs h Hlw Hfs (map fst fs))
    as (clauses & HF & HW).
  exists clauses. split; [exact HF|].
  unfold buildWhere. cbn [objectKeys]. rewrite Hlw. cbn [mbind result_bind].
  rewrite HW. cbn [mbind result_bind].
  destruct clauses as [|s clauses]; [reflexivity|].
  change (VStr <$> s :: clauses) with (VStr s :: (VStr <$> clauses)).
  cbv iota. change (VStr s :: (VStr <$> clauses)) with (VStr <$> s :: clauses).
  rewrite (joinElems_strings rt). reflexivity.
Qed.

End FilterMore.

Lemma between_clause_witness :
  whereClause sampleRuntime 2 sampleProps (VRef 0) "age" rangeWhere
  = Ok (VStr "`age` BETWEEN 18 AND 65", rangeWhere).
Proof.
  destruct (between_clause sampleRuntime 0 sampleProps (VRef 0)
              [("age", VRef 1); ("q", VRef 3)] "age" (VRef 1) 2%nat
              [VNum 18; VNum 65] rangeWhere)
    as (a & sa & b & sb & Ea & Sa & Eb & Sb & _ & H).
  - exists 0%nat. split; reflexivity.
  - reflexivity.
  - exists 1%nat, []. repeat split.
  - reflexivity.
  - discriminate.
  - exact I.
  - exact I.
  - vm_compute in Ea. injection Ea as <-.
    vm_compute in Eb. injection Eb as <-.
    vm_compute in Sa. injection Sa as <-.
    vm_compute in Sb. injection Sb as <-.
    exact H.
Defined.

Lemma custom_clause_witness :
  whereClause sampleRuntime 1 sampleProps (VRef 0) "q" rangeWhere
  = Ok (VStr "a = b", rangeWhere).
Proof.
  destruct (custom_clause sampleRuntime 0 sampleProps (VRef 0)
              [("age", VRef 1); ("q", VRef 3)] "q" (VRef 3) (VStr "a = b")
              rangeWhere)
    as (e & _ & Hs & H).
  - exists 0%nat. split; reflexivity.
  - reflexivity.
  - exists 3%nat, []. repeat split.
  - discriminate.
  - exact I.
  - rewrite (Hs _ eq_refl) in H. exact H.
Defined.

Lemma buildWhere_conjunction_witness :
  buildWhere sampleRuntime 1 sampleProps (VRef 0) plainWhere
  = Ok ("WHERE `name` IS NULL AND `city` = 'Oslo'", plainWhere).
Proof.
  destruct (buildWhere_conjunction sampleRuntime 0 sampleProps (VRef 0)
              [("name", VNull); ("city", VStr "Oslo")] plainWhere)
    as (clauses & HF & H).
  - exists 0%nat. split; reflexivity.
  - repeat constructor; cbn; discriminate.
  - inversion HF as [|k1 s1 ks1 cs1 H1 HF1]; subst.
    inversion HF1 as [|k2 s2 ks2 cs2 H2 HF2]; subst.
    inversion HF2; subst.
    vm_compute in H1. injection H1 as <-.
    vm_compute in H2. injection H2 as <-.
    exact H.
Defined.

(** ** More of the executor *)

Section ExecutorMore.

Variable rt : runtime.

(** Paging in [all], on a filter without [where] and [order]: without a
    truthy [limit] there is no [LIMIT] clause, whatever [skip] is; with a
    limit [n] the clause is [LIMIT n], or [LIMIT k, n] when [skip] is a
    number [k] other than zero.  The store is not written. *)
Theorem all_paging fuel model props lf fs n h :
  h !! lf = Some (OPlain fs) ->
  truthy (default VUndef (assoc "where" fs)) = false ->
  truthy (default VUndef (assoc "order" fs)) = false ->
  let base := "SELECT * FROM " +:+ tableEscaped rt model in
  (truthy (default VUndef (assoc "limit" fs)) = false ->
     allSQL rt fuel model props (VRef lf) h = Ok (base, h))
  /\ (assoc "limit" fs = Some (VNum n) -> n <> 0 ->
      (truthy (default VUndef (assoc "skip" fs)) = false ->
         allSQL rt fuel model props (VRef lf) h
         = Ok (base +:+ " LIMIT " +:+ numToString n, h))
      /\ (forall k, assoc "skip" fs = Some (VNum k) -> k <> 0 ->
            allSQL rt fuel model props (VRef lf) h
            = Ok (base +:+ " LIMIT " +:+ numToString k +:+ ", "
                    +:+ numToString n, h))).
Proof.
  intros Hlf Hw Ho base.
  assert (G : forall key, getField h (VRef lf) key
                          = Ok (default VUndef (assoc key fs)))
    by (intros key; cbn [getField]; rewrite Hlf; reflexivity).
  assert (Start : allSQL rt fuel model props (VRef lf) h
          = (limit ← Ok (default VUndef (assoc "limit" fs));
             sql ← (if truthy limit then
                      skip ← getField h (VRef lf) "skip";
                      l ← buildLimit rt limit
                             (if truthy skip then skip else VNum 0) h;
                      Ok (base +:+ " " +:+ l)
                    else Ok base);
             Ok (sql, h))).
  { unfold allSQL. cbn [truthy]. rewrite (G "where").
    cbn [mbind result_bind]. rewrite Hw. cbn [mbind result_bind].
    rewrite (G "order"). cbn [mbind result_bind]. rewrite Ho.
    cbn [mbind result_bind]. rewrite (G "limit"). reflexivity. }
  rewrite Start. clear Start. cbn [mbind result_bind]. split.
  - intros Hl. rewrite Hl. reflexivity.
  - intros Hl Hn. rewrite Hl. cbn [default from_option id truthy].
    assert (Hnz : negb (n =? 0) = true)
      by (apply negb_true_iff, Z.eqb_neq; exact Hn).
    rewrite Hnz, G. cbn [mbind result_bind]. split.
    + intros Hs. rewrite Hs. reflexivity.
    + intros k Hk Hkz. rewrite Hk. cbn [default from_option id truthy].
      assert (Hknz : negb (k =? 0) = true)
        by (apply negb_true_iff, Z.eqb_neq; exact Hkz).
      rewrite Hknz. unfold buildLimit. cbn [truthy]. rewrite Hknz.
      reflexivity.
Qed.

(** When the pool gives no connection, [all] runs no statement: the only
    thing it does is call the caller's callback with the error of the pool
    and a new empty array. *)
Theorem all_pool_failure fuel d model props filter cb h sql h1 :
  allSQL rt fuel model props filter h = Ok (sql, h1) ->
  truthy (poolErr d) = true ->
  let l := fresh (dom h1) in
  h1 !! l = None
  /\ all rt fuel d model props filter cb h
     = Ok (sql, h1, invoke cb [poolErr d; VRef l] (<[l := OArray []]> h1)).
Proof.
  intros Hsql Hp l. split.
  - apply (not_elem_of_dom (D := gset nat)). apply is_fresh.
  - unfold all. rewrite Hsql. cbn [mbind result_bind]. unfold query.
    rewrite Hp. cbn [negb invoke]. unfold allCallback.
    change (default VUndef ([poolErr d] !! 0%nat)) with (poolErr d).
    rewrite Hp. reflexivity.
Qed.

(** When the statement succeeds on an array of rows and the filter asks
    for no [include], [all] decodes the rows one after the other and calls
    the caller's callback with [null] and a new array of the decoded
    rows. *)
Theorem all_success fuel d model props filter cb h sql h1 err la h2
    rows os h3 :
  allSQL rt fuel model props filter h = Ok (sql, h1) ->
  truthy (poolErr d) = false ->
  answer d sql h1 = (err, VRef la, h2) ->
  truthy err = false ->
  h2 !! la = Some (OArray rows) ->
  fromDatabaseAll rt props rows h2 = Ok (os, h3) ->
  let l := fresh (dom h3) in
  (truthy filter = false
   \/ exists inc, getField (<[l := OArray os]> h3) filter "include" = Ok inc
                  /\ truthy inc = false) ->
  h3 !! l = None
  /\ all rt fuel d model props filter cb h
     = Ok (sql, h1,
           (if logging d then [Logged sql (now d)] else [])
             ++ [Ended]
             ++ invoke cb [VNull; VRef l] (<[l := OArray os]> h3)).
Proof.
  intros Hsql Hp Ha He Hla Hrows l Hinc. split.
  - apply (not_elem_of_dom (D := gset nat)). apply is_fresh.
  - unfold all. rewrite Hsql. cbn [mbind result_bind]. unfold query.
    rewrite Hp, Ha. cbn [negb invoke]. unfold allCallback.
    change (default VUndef ([err; VRef la] !! 0%nat)) with err.
    change (default VUndef ([err; VRef la] !! 1%nat)) with (VRef la).
    rewrite He, Hla, Hrows. unfold alloc. fold l.
    destruct Hinc as [Hf | (inc & Hg & Hi)].
    + rewrite Hf. cbv beta iota. rewrite Hf. reflexivity.
    + destruct (truthy filter) eqn:Hf.
      * rewrite Hg. cbv beta iota. rewrite Hi. reflexivity.
      * cbv beta iota. rewrite Hf. reflexivity.
Qed.

End ExecutorMore.

Lemma all_paging_witness :
  allSQL sampleRuntime 1 "User" [] (VRef 0) pageFilter
  = Ok ("SELECT * FROM `User` LIMIT 20, 10", pageFilter).
Proof.
  refine (proj2 (proj2 (all_paging sampleRuntime 1 "User" [] 0%nat
                          [("limit", VNum 10); ("skip", VNum 20)] 10
                          pageFilter _ _ _) _ _) 20 _ _);
    try reflexivity; discriminate.
Defined.

Lemma all_pool_failure_witness :
  all sampleRuntime 1
    {| poolErr := VStr "ECONNREFUSED"; answer := fun _ h => (VNull, VUndef, h);
       logging := true; now := 0 |}
    "User" [] VUndef record ∅
  = Ok ("SELECT * FROM `User`", ∅,
        [Called [VStr "ECONNREFUSED"; VRef 0] (<[0%nat := OArray []]> ∅)]).
Proof.
  refine (proj2 (all_pool_failure sampleRuntime 1 _ "User" [] VUndef record ∅
                   "SELECT * FROM `User`" ∅ _ _)); reflexivity.
Defined.

(** ** Decoding rows *)

Lemma assoc_update key (val : value) (fs : list (string * value)) k :
  assoc k (map (fun kv => if String.eqb (fst kv) key then (key, val) else kv) fs)
  = if String.eqb k key
    then match assoc key fs with Some _ => Some val | None => None end
    else assoc k fs.
Proof.
  induction fs as [|[k' v'] fs IH].
  - cbn. now destruct (String.eqb k key).
  - cbn [map assoc fst].
    destruct (String.eqb k' key) eqn:E1; cbn [assoc]; rewrite IH.
    + apply String.eqb_eq in E1. subst k'. rewrite String.eqb_refl.
      destruct (String.eqb k key) eqn:E2; reflexivity.
    + destruct (String.eqb k k') eqn:E2.
      * apply String.eqb_eq in E2. subst k. rewrite E1. reflexivity.
      * destruct (String.eqb k key) eqn:E3; [|reflexivity].
        apply String.eqb_eq in E3. subst k. rewrite E2. reflexivity.
Qed.

Lemma keys_update key (val : value) (fs : list (string * value)) :
  map fst (map (fun kv => if String.eqb (fst kv) key then (key, val) else kv) fs)
  = map fst fs.
Proof.
  induction fs as [|[k' v'] fs IH]; [reflexivity|].
  cbn [map fst]. rewrite IH.
  destruct (String.eqb_spec k' key) as [->|]; reflexivity.
Qed.

Lemma setField_plain h l fs key val :
  h !! l = Some (OPlain fs) ->
  setField h l key val
  = <[l := OPlain (map (fun kv => if String.eqb (fst kv) key
                                  then (key, val) else kv) fs)]> h.
Proof. intros Hl. unfold setField. now rewrite Hl. Qed.

Section Decoding.

Variable rt : runtime.
Variable props : properties.

Lemma fromDatabaseKey_invariant l fs key h h' :
  rowInvariant props l fs h ->
  fromDatabaseKey rt props l key h = Ok h' ->
  rowInvariant props l fs h'.
Proof.
  intros (fs' & Hl & Hkeys & Hkept) H.
  unfold fromDatabaseKey in H. cbn [getField] in H. rewrite Hl in H.
  cbn [mbind result_bind] in H.
  assert (Same : rowInvariant props l fs h) by (exists fs'; auto).
  assert (Upd : forall val h1,
            h1 !! l = Some (OPlain fs') ->
            (forall v, assoc key fs = Some v -> kept props key v ->
                       assoc key fs' <> None -> val = v) ->
            rowInvariant props l fs (setField h1 l key val)).
  { intros val h1 Hl1 Hval.
    rewrite (setField_plain h1 l fs' key val Hl1).
    eexists. split; [apply lookup_insert_eq|]. split.
    - rewrite keys_update. exact Hkeys.
    - intros k v Hk Hv. rewrite assoc_update.
      destruct (String.eqb_spec k key) as [->|Hne]; [|now apply Hkept].
      pose proof (Hkept key v Hk Hv) as E. rewrite E.
      f_equal. apply Hval; [assumption..|]. congruence. }
  destruct (assoc key fs') as [val|] eqn:Hval; cbn [default from_option id] in H;
    [|injection H as <-; exact Same].
  assert (Keep : forall v, assoc key fs = Some v -> kept props key v -> v = val).
  { intros v Hk Hv. pose proof (Hkept key v Hk Hv). congruence. }
  assert (Plain : rowInvariant props l fs (setField h l key val)).
  { apply Upd; [assumption|]. intros v Hk Hv _. symmetry. now apply Keep. }
  assert (Typed : val <> VNull -> val <> VUndef ->
            match propGet props key with
            | Descr p =>
                if String.eqb (typeName p) "Date" then
                  s ← callToString rt h val;
                  let '(d, h) := alloc (ODate (parseDate rt (stripAfterGMT s))) h in
                  Ok (setField h l key (VRef d))
                else if String.eqb (typeName p) "Boolean" then
                  b ← looseEqTrue rt h val;
                  Ok (setField h l key (VBool b))
                else Ok (setField h l key val)
            | Member => Throw (TypeError "Cannot read property 'name' of undefined")
            | Falsy => Ok (setField h l key val)
            end = Ok h' -> rowInvariant props l fs h').
  { clear H. intros Hn Hu H.
    assert (Not : forall v, assoc key fs = Some v -> kept props key v ->
                  forall p, propOf props key = Some p ->
                  typeName p <> "Date" /\ typeName p <> "Boolean").
    { intros v Hk Hv p Hp. pose proof (Keep v Hk Hv) as ->.
      destruct Hv as [->| [->|Hv]]; try congruence. now apply Hv. }
    destruct (propGet props key) as [|p|] eqn:Hp;
      [injection H as <-; exact Plain| |discriminate].
    apply propGet_Descr in Hp.
    destruct (String.eqb_spec (typeName p) "Date") as [Hd|Hd].
    { destruct (callToString rt h val) as [s| |];
        cbn [mbind result_bind] in H; try discriminate.
      unfold alloc in H. injection H as <-.
      apply Upd.
      - rewrite lookup_insert_ne; [assumption|].
        intros E. pose proof (is_fresh (dom h)) as Hf. rewrite E in Hf.
        apply Hf. apply elem_of_dom. eauto.
      - intros v Hk Hv _. destruct (Not v Hk Hv p Hp). congruence. }
    destruct (String.eqb_spec (typeName p) "Boolean") as [Hb|Hb].
    { destruct (looseEqTrue rt h val) as [b| |];
        cbn [mbind result_bind] in H; try discriminate.
      injection H as <-. apply Upd; [assumption|].
      intros v Hk Hv _. destruct (Not v Hk Hv p Hp). congruence. }
    injection H as <-. exact Plain. }
  destruct val; try (apply Typed; [discriminate|discriminate|exact H]);
    injection H as <-; exact Same.
Qed.

Lemma fromDatabaseKeys_invariant l fs keys : forall h h',
  rowInvariant props l fs h ->
  fromDatabaseKeys rt props l keys h = Ok h' ->
  rowInvariant props l fs h'.
Proof.
  induction keys as [|key keys IH]; intros h h' Hinv H.
  - injection H as <-. exact Hinv.
  - cbn [fromDatabaseKeys] in H.
    destruct (fromDatabaseKey rt props l key h) as [h1| |] eqn:E;
      cbn [mbind result_bind] in H; try discriminate.
    eapply IH; [|exact H]. eapply fromDatabaseKey_invariant; eassumption.
Qed.

(** [fromDatabase] decodes a row in place and returns the row itself.  The
    row has the same keys afterwards, in the same order, and every column
    that holds [null] or [undefined], or that is not declared as a [Date]
    or a [Boolean], holds what it held. *)
Theorem fromDatabase_keeps l fs h r h' :
  h !! l = Some (OPlain fs) ->
  fromDatabase rt props (VRef l) h = Ok (r, h') ->
  r = VRef l
  /\ exists fs', h' !! l = Some (OPlain fs')
       /\ map fst fs' = map fst fs
       /\ forall k v, assoc k fs = Some v -> kept props k v -> assoc k fs' = Some v.
Proof.
  intros Hl H. unfold fromDatabase in H. cbn [truthy negb objectKeys] in H.
  rewrite Hl in H. cbn [mbind result_bind] in H.
  destruct (fromDatabaseKeys rt props l (map fst fs) h) as [h1| |] eqn:E;
    cbn [mbind result_bind] in H; try discriminate.
  injection H as <- <-. split; [reflexivity|].
  apply (fromDatabaseKeys_invariant l fs (map fst fs) h h1); [|exact E].
  exists fs. auto.
Qed.

(** A [Boolean] column round trip: [toDatabase] encodes a scalar as the
    number 1 or 0 by its truthiness, and [fromDatabase] decodes that
    number, read back in a row, as the strict boolean of the same
    truthiness. *)
Theorem boolean_round_trip fuel p key v l fs h0 h :
  propOf props key = Some p ->
  typeName p = "Boolean" ->
  scalar v ->
  h !! l = Some (OPlain fs) ->
  let n := if truthy v then 1 else 0 in
  toDatabase rt (S fuel) (Descr p) v h0 = Ok (VNum n, h0)
  /\ (assoc key fs = Some (VNum n) ->
      exists h', fromDatabaseKey rt props l key h = Ok h'
                 /\ getField h' (VRef l) key = Ok (VBool (truthy v))).
Proof.
  intros Hp Ht Hv Hl n. split.
  - destruct (scalar_encoded rt fuel (Descr p) v h0) as (Hn & Hu & Ho & _);
      [discriminate|exact Hv|].
    rewrite toDatabase_literal by assumption.
    unfold toDatabaseTyped. rewrite Ht. reflexivity.
  - intros Hk. unfold fromDatabaseKey. cbn [getField]. rewrite Hl, Hk.
    cbn [default from_option id mbind result_bind].
    rewrite (proj2 (propGet_Descr props key p) Hp), Ht.
    change (String.eqb "Boolean" "Date") with false.
    change (String.eqb "Boolean" "Boolean") with true.
    cbn [looseEqTrue mbind result_bind]. eexists. split; [reflexivity|].
    rewrite (setField_plain h l fs key _ Hl). cbn [getField].
    rewrite lookup_insert_eq, assoc_update, String.eqb_refl, Hk.
    cbn [default from_option id]. subst n.
    destruct (truthy v); reflexivity.
Qed.

End Decoding.

Lemma fromDatabase_keeps_witness :
  VRef 0 = VRef 0
  /\ exists fs',
       (<[0%nat := OPlain [("id", VNum 7); ("active", VBool true)]]> ∅ : heap)
         !! 0%nat = Some (OPlain fs')
       /\ map fst fs' = ["id"; "active"]
       /\ forall k v,
            assoc k [("id", VNum 7); ("active", VNum 1)] = Some v ->
            kept flagProps k v -> assoc k fs' = Some v.
Proof.
  apply (fromDatabase_keeps sampleRuntime flagProps 0%nat
           [("id", VNum 7); ("active", VNum 1)] flagRow (VRef 0)).
  - reflexivity.
  - vm_compute. reflexivity.
Defined.

Lemma boolean_round_trip_witness :
  toDatabase sampleRuntime 1 (Descr (plainProp "Boolean")) (VStr "yes") ∅
  = Ok (VNum 1, ∅)
  /\ exists h', fromDatabaseKey sampleRuntime flagProps 0%nat "active" flagRow
                = Ok h'
                /\ getField h' (VRef 0) "active" = Ok (VBool true).
Proof.
  destruct (boolean_round_trip sampleRuntime flagProps 0
              (plainProp "Boolean") "active" (VStr "yes") 0%nat
              [("id", VNum 7); ("active", VNum 1)] ∅ flagRow)
    as [H1 H2]; try reflexivity; try exact I.
  split; [exact H1|]. apply H2. reflexivity.
Defined.

Lemma all_success_witness :
  all sampleRuntime 1 flagDriver "User" flagProps VUndef record ∅
  = Ok ("SELECT * FROM `User`", ∅,
        [Ended;
         Called [VNull; VRef 2]
           (<[2%nat := OArray [VRef 0]]>
              (<[1%nat := OArray [VRef 0]]>
                 (<[0%nat := OPlain [("id", VNum 7); ("active", VBool true)]]>
                    ∅)))]).
Proof.
  assert (Hrows : fromDatabaseAll sampleRuntime flagProps [VRef 0]
                    (<[1%nat := OArray [VRef 0]]> flagRow)
                  = Ok ([VRef 0],
                        <[1%nat := OArray [VRef 0]]>
                          (<[0%nat := OPlain [("id", VNum 7);
                                              ("active", VBool true)]]> ∅)))
    by (vm_compute; reflexivity).
  pose proof (all_success sampleRuntime 1 flagDriver "User" flagProps VUndef
                record ∅ "SELECT * FROM `User`" ∅ VNull 1%nat
                (<[1%nat := OArray [VRef 0]]> flagRow) [VRef 0] [VRef 0] _
                eq_refl eq_refl eq_refl eq_refl eq_refl Hrows
                (or_introl eq_refl)) as [_ H].
  rewrite H. vm_compute. reflexivity.
Defined.

(** ** Statements: [toFields], [create], [updateOrCreate] *)

Lemma assoc_NoDup {A} (fs : list (string * A)) k v :
  NoDup (map fst fs) -> (k, v) ∈ fs -> assoc k fs = Some v.
Proof.
  induction fs as [|[k' v'] fs IH]; intros Hnd Hin.
  - now apply elem_of_nil in Hin.
  - cbn [map fst] in Hnd. apply NoDup_cons in Hnd as [Hk' Hnd].
    cbn [assoc]. apply elem_of_cons in Hin as [E|Hin].
    + injection E as -> ->. now rewrite String.eqb_refl.
    + destruct (String.eqb_spec k k') as [->|Hne]; [|now apply IH].
      exfalso. apply Hk'. apply (list_elem_of_fmap_2 fst) in Hin. exact Hin.
Qed.

Lemma assoc_app {A} (fs gs : list (string * A)) k :
  assoc k (fs ++ gs)
  = match assoc k fs with Some v => Some v | None => assoc k gs end.
Proof.
  induction fs as [|[k' v'] fs IH]; [reflexivity|].
  cbn [app assoc]. destruct (String.eqb k k'); [reflexivity|exact IH].
Qed.

Lemma sent_test props key :
  present (propGet props key) || String.eqb key "id"
  = bool_decide (sent props key).
Proof.
  destruct (present (propGet props key)) eqn:Hp;
    destruct (String.eqb_spec key "id") as [Hk|Hk]; cbn [orb]; symmetry.
  - apply bool_decide_eq_true_2. now left.
  - apply bool_decide_eq_true_2. now left.
  - apply bool_decide_eq_true_2. now right.
  - apply bool_decide_eq_false_2. intros [N|N]; [congruence|contradiction].
Qed.

Section StatementFacts.

Variable rt : runtime.

Lemma typed_defined p v h r :
  primitive v ->
  toDatabaseTyped rt (Descr p) v h = Ok r -> r <> VUndef.
Proof.
  unfold toDatabaseTyped. intros Hv H.
  destruct (String.eqb (typeName p) "Number").
  { destruct v as [| |b|n| |s|l]; try contradiction; cbn [toNumber] in H;
      try (injection H as <-; discriminate).
    destruct (strToNumber rt s); injection H as <-; discriminate. }
  destruct (String.eqb (typeName p) "Date").
  { destruct (negb (truthy v)); [injection H as <-; discriminate|].
    destruct (hasToUTCString h v) as [u| |]; cbn [mbind result_bind] in H;
      try discriminate.
    destruct (if u then _ else _);
      cbn [mbind result_bind] in H; try discriminate.
    injection H as <-. discriminate. }
  destruct (String.eqb (typeName p) "Boolean");
    [injection H as <-; discriminate|].
  destruct (callToString rt h v); cbn [mbind result_bind] in H;
    try discriminate.
  injection H as <-. discriminate.
Qed.

Lemma primitive_assigned fuel prop v h :
  present prop = true ->
  primitive v -> v <> VUndef ->
  (prop = Member -> v = VNull \/ v = VUndef) ->
  exists enc e,
    toDatabase rt (S fuel) prop v h = Ok (enc, h)
    /\ toStr rt h enc = Ok e
    /\ String.eqb (typeof enc) "undefined" = false.
Proof.
  intros Hp Hv Hu Hm.
  destruct (primitive_encoded rt fuel prop v h Hv Hm) as (enc & e & Henc & He).
  exists enc, e. split; [exact Henc|]. split; [exact He|].
  assert (Hd : enc <> VUndef).
  { destruct (decide (v = VNull)) as [->|Hn].
    - cbn in Henc. injection Henc as <-. discriminate.
    - destruct prop as [|p|];
        [discriminate Hp| |destruct (Hm eq_refl); congruence].
      assert (Ho : constructorIsObject h v = Ok false)
        by (destruct v; try contradiction; try congruence; reflexivity).
      rewrite toDatabase_literal in Henc by assumption.
      destruct (toDatabaseTyped rt (Descr p) v h) eqn:E;
        cbn [mbind result_bind] in Henc; try discriminate.
      injection Henc as <-. eapply typed_defined; [|exact E]. exact Hv. }
  destruct enc; try congruence; reflexivity.
Qed.

Lemma toFieldsKey_entry fuel props l fs k v h :
  h !! l = Some (OPlain fs) -> assoc k fs = Some v ->
  encodable props (k, v) ->
  if decide (usable props (k, v)) then
    exists enc e,
      toDatabase rt (S fuel) (propGet props k) v h = Ok (enc, h)
      /\ toStr rt h enc = Ok e
      /\ toFieldsKey rt (S fuel) props (VRef l) k h
         = Ok (Some (escapeName k +:+ " = " +:+ e), h)
  else toFieldsKey rt (S fuel) props (VRef l) k h = Ok (None, h).
Proof.
  intros Hl Hk [Hv Hm]. cbn [fst snd] in Hv, Hm. unfold toFieldsKey.
  destruct (decide (usable props (k, v))) as [[Hp Hu]|Hn]; cbn [fst snd] in *.
  - rewrite Hp. cbn [getField]. rewrite Hl, Hk.
    cbn [default from_option id mbind result_bind].
    destruct (primitive_assigned fuel (propGet props k) v h Hp Hv Hu Hm)
      as (enc & e & Henc & He & Ht).
    exists enc, e. split; [exact Henc|]. split; [exact He|].
    rewrite Henc. cbn [mbind result_bind]. rewrite Ht, He.
    cbn [mbind result_bind]. unfold escapeName. rewrite !append_assoc.
    reflexivity.
  - destruct (present (propGet props k)) eqn:Hp; [|reflexivity].
    assert (v = VUndef) as ->.
    { destruct (decide (v = VUndef)); [assumption|]. exfalso. apply Hn.
      split; cbn [fst snd]; assumption. }
    cbn [getField]. rewrite Hl, Hk. reflexivity.
Qed.

Lemma toFieldsKeys_entries fuel props l fs h :
  h !! l = Some (OPlain fs) -> NoDup (map fst fs) ->
  Forall (encodable props) fs ->
  forall rest, (forall kv, kv ∈ rest -> kv ∈ fs) ->
  exists texts,
    Forall2 (fun kv e =>
               exists enc,
                 toDatabase rt (S fuel) (propGet props (fst kv)) (snd kv) h
                 = Ok (enc, h)
                 /\ toStr rt h enc = Ok e)
            (filter (usable props) rest) texts
    /\ toFieldsKeys rt (S fuel) props (VRef l) (map fst rest) h
       = Ok (zip_with (fun kv e => escapeName (fst kv) +:+ " = " +:+ e)
               (filter (usable props) rest) texts, h).
Proof.
  intros Hl Hnd Hprim rest. induction rest as [|[k v] rest IH]; intros Hin.
  - exists []. split; [constructor|reflexivity].
  - destruct IH as (texts & HF & HK).
    { intros kv H. apply Hin. now apply list_elem_of_further. }
    assert (Hkv : (k, v) ∈ fs) by (apply Hin; apply list_elem_of_here).
    pose proof (assoc_NoDup fs k v Hnd Hkv) as Hk.
    assert (Hv : encodable props (k, v)).
    { rewrite Forall_forall in Hprim. apply (Hprim (k, v) Hkv). }
    pose proof (toFieldsKey_entry fuel props l fs k v h Hl Hk Hv) as HE.
    cbn [map fst toFieldsKeys].
    destruct (decide (usable props (k, v))) as [Hu|Hu].
    + destruct HE as (enc & e & Henc & He & HT). exists (e :: texts).
      rewrite filter_cons_True by assumption. split.
      * constructor; [exists enc; split; assumption|assumption].
      * rewrite HT. cbn [mbind result_bind]. rewrite HK. reflexivity.
    + exists texts. rewrite filter_cons_False by assumption.
      split; [assumption|].
      rewrite HE. cbn [mbind result_bind]. rewrite HK. reflexivity.
Qed.

(** On data whose values are all primitive, and whose keys, those that
    hold [null] or [undefined] apart, are properties of the model or name
    no member of [Object.prototype], [toFields] returns and writes nothing:
    it gives one assignment [`key` = text] for each own property under
    whose key the properties of the model give something truthy and whose
    value is not [undefined], in the order of the keys and joined by
    commas; [text] is the encoding of the value by the type of the
    property.  The other own properties leave no trace. *)
Theorem toFields_assignments fuel props l fs h :
  h !! l = Some (OPlain fs) ->
  NoDup (map fst fs) ->
  Forall (encodable props) fs ->
  exists texts,
    Forall2 (fun kv e =>
               exists enc,
                 toDatabase rt (S fuel) (propGet props (fst kv)) (snd kv) h
                 = Ok (enc, h)
                 /\ toStr rt h enc = Ok e)
            (filter (usable props) fs) texts
    /\ toFields rt (S fuel) props (VRef l) h
       = Ok (String.concat ","
               (zip_with (fun kv e => escapeName (fst kv) +:+ " = " +:+ e)
                  (filter (usable props) fs) texts), h).
Proof.
  intros Hl Hnd Hprim.
  destruct (toFieldsKeys_entries fuel props l fs h Hl Hnd Hprim fs)
    as (texts & HF & HK); [auto|].
  exists texts. split; [exact HF|].
  unfold toFields. cbn [objectKeys]. rewrite Hl. cbn [mbind result_bind].
  rewrite HK. reflexivity.
Qed.

Lemma toFieldsKeys_unusable fuel props l fs h :
  h !! l = Some (OPlain fs) ->
  (forall k v, assoc k fs = Some v ->
               present (propGet props k) = false \/ v = VUndef) ->
  forall keys,
    toFieldsKeys rt (S fuel) props (VRef l) keys h = Ok ([], h).
Proof.
  intros Hl Hno keys. induction keys as [|k keys IH]; [reflexivity|].
  cbn [toFieldsKeys].
  assert (HK : toFieldsKey rt (S fuel) props (VRef l) k h = Ok (None, h)).
  { unfold toFieldsKey. destruct (present (propGet props k)) eqn:Hp;
      [|reflexivity].
    cbn [getField]. rewrite Hl.
    destruct (assoc k fs) as [v|] eqn:Hk; [|reflexivity].
    destruct (Hno k v Hk) as [E| ->]; [congruence|reflexivity]. }
  rewrite HK. cbn [mbind result_bind]. rewrite IH. reflexivity.
Qed.

(** When no own property of the data is usable, that is when for every
    key either the properties of the model, looked up under the key, give
    something falsy (no enabled property, and no member of
    [Object.prototype]), or the key holds [undefined], [create] sends
    [INSERT INTO <table> VALUES ()] and writes nothing. *)
Theorem create_without_fields fuel d model props l fs cb h :
  h !! l = Some (OPlain fs) ->
  (forall k v, assoc k fs = Some v ->
               present (propGet props k) = false \/ v = VUndef) ->
  createSQL rt (S fuel) model props (VRef l) h
  = Ok ("INSERT INTO " +:+ tableEscaped rt model +:+ " VALUES ()", h)
  /\ create rt (S fuel) d model props (VRef l) cb h
     = Ok (h, query d ("INSERT INTO " +:+ tableEscaped rt model
                         +:+ " VALUES ()")
                (Function (createCallback cb)) h).
Proof.
  intros Hl Hno.
  assert (HS : createSQL rt (S fuel) model props (VRef l) h
               = Ok ("INSERT INTO " +:+ tableEscaped rt model
                       +:+ " VALUES ()", h)).
  { unfold createSQL, toFields. cbn [objectKeys]. rewrite Hl.
    cbn [mbind result_bind].
    rewrite (toFieldsKeys_unusable fuel props l fs h Hl Hno).
    cbn [mbind result_bind]. rewrite append_assoc. reflexivity. }
  split; [exact HS|]. unfold create. rewrite HS. reflexivity.
Qed.

(** Once the statement of [create] has run, the caller's callback gets the
    error of the connection, and the [insertId] of the result when the
    result is an object; a falsy result ([undefined] when the statement
    failed) is passed as it is. *)
Theorem create_reports_insertId fuel d model props data cb h sql h1
    err info h2 newId :
  createSQL rt fuel model props data h = Ok (sql, h1) ->
  truthy (poolErr d) = false ->
  answer d sql h1 = (err, info, h2) ->
  (truthy info = false /\ newId = info
   \/ exists li ifs, info = VRef li /\ h2 !! li = Some (OPlain ifs)
                     /\ newId = default VUndef (assoc "insertId" ifs)) ->
  create rt fuel d model props data cb h
  = Ok (h1, (if logging d then [Logged sql (now d)] else [])
              ++ [Ended] ++ invoke cb [err; newId] h2).
Proof.
  intros HS Hp Ha Hid. unfold create. rewrite HS. cbn [mbind result_bind].
  unfold query. rewrite Hp, Ha. cbn [negb invoke]. unfold createCallback.
  change (default VUndef ([err; info] !! 0%nat)) with err.
  change (default VUndef ([err; info] !! 1%nat)) with info.
  destruct Hid as [[Hf ->] | (li & ifs & -> & Hli & ->)].
  - rewrite Hf. reflexivity.
  - cbn [truthy getField]. rewrite Hli. reflexivity.
Qed.

Lemma joinElems_lookup h xs : forall ss,
  joinElems rt h xs = Ok ss ->
  length ss = length xs
  /\ forall i x, xs !! i = Some x ->
       exists s, joinElem rt h x = Ok s /\ ss !! i = Some s.
Proof.
  induction xs as [|x xs IH]; intros ss H.
  - injection H as <-. split; [reflexivity|]. intros i x Hi. discriminate Hi.
  - cbn [joinElems] in H.
    destruct (joinElem rt h x) as [s| |] eqn:Es; cbn [mbind result_bind] in H;
      try discriminate.
    destruct (joinElems rt h xs) as [ss'| |] eqn:Ess;
      cbn [mbind result_bind] in H; try discriminate.
    injection H as <-. destruct (IH ss' eq_refl) as [Hlen Hlook].
    split; [cbn [length]; now rewrite Hlen|].
    intros [|i] y Hi.
    + injection Hi as <-. exists s. split; [assumption|reflexivity].
    + apply (Hlook i y Hi).
Qed.

Lemma updateOrCreateKeys_lists fuel props l fs keys :
  forall h names values combined h',
  h !! l = Some (OPlain fs) ->
  updateOrCreateKeys rt fuel props (VRef l) keys h
  = Ok (names, values, combined, h') ->
  h' !! l = Some (OPlain fs)
  /\ names = map (fun k => "`" +:+ k +:+ "`") (filter (sent props) keys)
  /\ length values = length (filter (sent props) keys)
  /\ length combined
     = length (filter (fun k => k <> "id") (filter (sent props) keys))
  /\ forall i, filter (sent props) keys !! i = Some "id" ->
               values !! i = Some (default VUndef (assoc "id" fs)).
Proof.
  induction keys as [|key keys IH]; intros h names values combined h' Hl H.
  - injection H as <- <- <- <-. repeat split; try assumption.
    intros i Hi. discriminate Hi.
  - cbn [updateOrCreateKeys] in H. rewrite sent_test in H.
    destruct (decide (sent props key)) as [Hs|Hs].
    2:{ rewrite (bool_decide_eq_false_2 _ Hs) in H.
        rewrite filter_cons_False by assumption. now apply (IH h). }
    rewrite (bool_decide_eq_true_2 _ Hs) in H.
    rewrite filter_cons_True by assumption.
    cbn [getField] in H. rewrite Hl in H. cbn [mbind result_bind] in H.
    destruct (String.eqb_spec key "id") as [->|Hk]; cbn [negb] in H.
    + cbn [mbind result_bind] in H.
      destruct (updateOrCreateKeys rt fuel props (VRef l) keys h)
        as [[[[names' values'] combined'] h1]| |] eqn:E;
        cbn [mbind result_bind] in H; try discriminate.
      injection H as <- <- <- <-.
      destruct (IH _ _ _ _ _ Hl E) as (Hl' & Hn & Hv & Hc & Hid).
      split; [assumption|]. split; [cbn [map]; now rewrite Hn|].
      split; [cbn [length]; now rewrite Hv|]. split.
      * rewrite filter_cons_False by (intros N; now apply N). exact Hc.
      * intros [|i] Hi; [reflexivity|]. apply (Hid i Hi).
    + destruct (toDatabase rt fuel (propGet props key)
                  (default VUndef (assoc key fs)) h) as [[v h0]| |] eqn:Ev;
        cbn [mbind result_bind] in H; try discriminate.
      destruct (toStr rt h0 v) as [s| |]; cbn [mbind result_bind] in H;
        try discriminate.
      assert (Hl0 : h0 !! l = Some (OPlain fs)).
      { pose proof (toDatabase_shape rt fuel _ _ _ _ _ Ev l) as Hsh.
        rewrite Hl in Hsh. exact Hsh. }
      destruct (updateOrCreateKeys rt fuel props (VRef l) keys h0)
        as [[[[names' values'] combined'] h1]| |] eqn:E;
        cbn [mbind result_bind] in H; try discriminate.
      injection H as <- <- <- <-.
      destruct (IH _ _ _ _ _ Hl0 E) as (Hl' & Hn & Hv & Hc & Hid).
      split; [assumption|]. split; [cbn [map]; now rewrite Hn|].
      split; [cbn [length]; now rewrite Hv|]. split.
      * rewrite filter_cons_True by assumption. cbn [app length].
        now rewrite Hc.
      * intros [|i] Hi; [injection Hi as ->; congruence|]. apply (Hid i Hi).
Qed.

(** The statement of [updateOrCreate] names the keys of the data under
    which the properties of the model give something truthy (an enabled
    property, or a member of [Object.prototype]) and the key [id], in the
    order of the keys, each between backquotes; it has one value for each name and one assignment in the
    [ON DUPLICATE KEY UPDATE] list for each name but [id].  The value sent
    for [id] is the one of the data, not encoded.  The data object is not
    written while the statement is built. *)
Theorem updateOrCreate_statement fuel model props l fs h sql h' :
  h !! l = Some (OPlain fs) ->
  updateOrCreateSQL rt fuel model props (VRef l) h = Ok (sql, h') ->
  let chosen := filter (sent props) (map fst fs) in
  h' !! l = Some (OPlain fs)
  /\ exists values combined,
       sql = "INSERT INTO " +:+ tableEscaped rt model
               +:+ " (" +:+ String.concat ", "
                              (map (fun k => "`" +:+ k +:+ "`") chosen)
               +:+ ")"
               +:+ " VALUES (" +:+ String.concat ", " values +:+ ")"
               +:+ " ON DUPLICATE KEY UPDATE "
               +:+ String.concat ", " combined
       /\ length values = length chosen
       /\ length combined = length (filter (fun k => k <> "id") chosen)
       /\ forall i, chosen !! i = Some "id" ->
            exists s, joinElem rt h' (default VUndef (assoc "id" fs)) = Ok s
                      /\ values !! i = Some s.
Proof.
  intros Hl H chosen. unfold updateOrCreateSQL in H. cbn [objectKeys] in H.
  rewrite Hl in H. cbn [mbind result_bind] in H.
  destruct (updateOrCreateKeys rt fuel props (VRef l) (map fst fs) h)
    as [[[[names vals] combined] h1]| |] eqn:E;
    cbn [mbind result_bind] in H; try discriminate.
  destruct (joinElems rt h1 vals) as [vs| |] eqn:Ej;
    cbn [mbind result_bind] in H; try discriminate.
  injection H as <- <-.
  destruct (updateOrCreateKeys_lists _ _ _ _ _ _ _ _ _ _ Hl E)
    as (Hl' & Hn & Hv & Hc & Hid).
  destruct (joinElems_lookup h1 vals vs Ej) as [Hlen Hlook].
  split; [assumption|]. exists vs, combined. subst names. fold chosen.
  split; [reflexivity|]. split; [fold chosen in Hv; lia|].
  split; [exact Hc|].
  intros i Hi. apply (Hlook i). apply Hid. exact Hi.
Qed.

Lemma getField_setOrAddField h l fs key val :
  h !! l = Some (OPlain fs) ->
  getField (setOrAddField h l key val) (VRef l) key = Ok val
  /\ forall k, k <> key ->
       getField (setOrAddField h l key val) (VRef l) k
       = getField h (VRef l) k.
Proof.
  intros Hl. unfold setOrAddField. rewrite Hl. unfold hasKey.
  destruct (assoc key fs) as [v0|] eqn:Hk.
  - rewrite (setField_plain h l fs key val Hl). cbn [getField].
    rewrite lookup_insert_eq, Hl. split.
    + rewrite assoc_update, String.eqb_refl, Hk. reflexivity.
    + intros k Hne. rewrite assoc_update.
      destruct (String.eqb_spec k key); [congruence|reflexivity].
  - cbn [getField]. rewrite lookup_insert_eq, Hl. split.
    + rewrite assoc_app, Hk. cbn [assoc]. rewrite String.eqb_refl.
      reflexivity.
    + intros k Hne. rewrite assoc_app.
      destruct (assoc k fs); [reflexivity|]. cbn [assoc].
      destruct (String.eqb_spec k key); [congruence|reflexivity].
Qed.

(** Once the statement of [updateOrCreate] has run, the caller's callback
    gets the error and the data object itself.  When the statement failed
    the object is as it was; when it succeeded with a truthy [insertId],
    the object has been given that [id], its other properties being as
    they were. *)
Theorem updateOrCreate_sets_id fuel d model props l cb h sql h1
    err info h2 fs2 :
  updateOrCreateSQL rt fuel model props (VRef l) h = Ok (sql, h1) ->
  truthy (poolErr d) = false ->
  answer d sql h1 = (err, info, h2) ->
  h2 !! l = Some (OPlain fs2) ->
  let trace h3 :=
    Ok (h1, (if logging d then [Logged sql (now d)] else [])
              ++ [Ended] ++ invoke cb [err; VRef l] h3) in
  (truthy err = true ->
     updateOrCreate rt fuel d model props (VRef l) cb h = trace h2)
  /\ (forall li ifs newId,
        truthy err = false -> info = VRef li ->
        h2 !! li = Some (OPlain ifs) ->
        assoc "insertId" ifs = Some newId -> truthy newId = true ->
        let h3 := setOrAddField h2 l "id" newId in
        updateOrCreate rt fuel d model props (VRef l) cb h = trace h3
        /\ getField h3 (VRef l) "id" = Ok newId
        /\ forall k, k <> "id" ->
             getField h3 (VRef l) k = getField h2 (VRef l) k).
Proof.
  intros HS Hp Ha Hl2 trace.
  assert (Start : updateOrCreate rt fuel d model props (VRef l) cb h
          = Ok (h1, (if logging d then [Logged sql (now d)] else [])
                      ++ [Ended]
                      ++ updateOrCreateCallback (VRef l) cb [err; info] h2)).
  { unfold updateOrCreate. rewrite HS. cbn [mbind result_bind].
    unfold query. rewrite Hp, Ha. reflexivity. }
  rewrite Start. unfold updateOrCreateCallback.
  change (default VUndef ([err; info] !! 0%nat)) with err.
  change (default VUndef ([err; info] !! 1%nat)) with info.
  split.
  - intros He. rewrite He. reflexivity.
  - intros li ifs newId He -> Hli Hid Ht. rewrite He.
    cbn [negb truthy andb getField]. rewrite Hli, Hid.
    cbn [default from_option id]. rewrite Ht.
    split; [reflexivity|].
    apply (getField_setOrAddField h2 l fs2 "id" newId Hl2).
Qed.

End StatementFacts.

Lemma toFields_assignments_witness :
  toFields sampleRuntime 1 sampleProps (VRef 0) annData
  = Ok ("`name` = 'Ann'", annData).
Proof.
  destruct (toFields_assignments sampleRuntime 0 sampleProps 0%nat
              [("name", VStr "Ann"); ("age", VUndef); ("nick", VStr "a")]
              annData)
    as (texts & HF & H).
  - reflexivity.
  - cbn [map fst]. repeat constructor; rewrite ?elem_of_cons, ?elem_of_nil;
      intros N; repeat destruct N as [N|N]; discriminate || contradiction.
  - repeat (constructor; [split; [exact I|intros E; discriminate E]|]).
    constructor.
  - assert (Hfil : filter (usable sampleProps)
                     [("name", VStr "Ann"); ("age", VUndef); ("nick", VStr "a")]
                   = [("name", VStr "Ann")]) by (vm_compute; reflexivity).
    rewrite Hfil in HF, H.
    inversion HF as [|kv e kvs es (enc & Henc & He) HF']; subst.
    inversion HF'; subst.
    vm_compute in Henc. injection Henc as <-.
    vm_compute in He. injection He as <-.
    exact H.
Defined.

Lemma create_without_fields_witness :
  create sampleRuntime 1 quietDriver "User" sampleProps (VRef 0) record nickData
  = Ok (nickData, [Ended; Called [VNull; VUndef] nickData]).
Proof.
  destruct (create_without_fields sampleRuntime 0 quietDriver "User"
              sampleProps 0%nat [("nick", VStr "a")] record nickData)
    as [_ H].
  - reflexivity.
  - intros k v Hk. left. cbn [assoc] in Hk.
    destruct (String.eqb_spec k "nick") as [->|]; [reflexivity|discriminate].
  - rewrite H. reflexivity.
Defined.

Lemma create_reports_insertId_witness :
  create sampleRuntime 1 insertDriver "User" sampleProps (VRef 0) record annData
  = Ok (annData,
        [Ended;
         Called [VNull; VNum 42]
           (<[9%nat := OPlain [("insertId", VNum 42)]]> annData)]).
Proof.
  apply (create_reports_insertId sampleRuntime 1 insertDriver "User"
           sampleProps (VRef 0) record annData
           "INSERT INTO `User` SET `name` = 'Ann'" annData VNull (VRef 9)
           (<[9%nat := OPlain [("insertId", VNum 42)]]> annData) (VNum 42)).
  - vm_compute. reflexivity.
  - reflexivity.
  - reflexivity.
  - right. exists 9%nat, [("insertId", VNum 42)]. repeat split.
Defined.

Lemma updateOrCreate_statement_witness :
  exists values combined,
    "INSERT INTO `User` (`id`, `name`) VALUES (7, 'Ann') ON DUPLICATE KEY UPDATE `name` = 'Ann'"
    = "INSERT INTO `User` (`id`, `name`)"
        +:+ " VALUES (" +:+ String.concat ", " values +:+ ")"
        +:+ " ON DUPLICATE KEY UPDATE " +:+ String.concat ", " combined
    /\ length values = 2%nat
    /\ length combined = 1%nat
    /\ values !! 0%nat = Some "7".
Proof.
  destruct (updateOrCreate_statement sampleRuntime 1 "User" sampleProps 0%nat
              [("id", VNum 7); ("name", VStr "Ann")] annWithId
              "INSERT INTO `User` (`id`, `name`) VALUES (7, 'Ann') ON DUPLICATE KEY UPDATE `name` = 'Ann'"
              annWithId)
    as (_ & values & combined & Hsql & Hv & Hc & Hid).
  - reflexivity.
  - vm_compute. reflexivity.
  - exists values, combined.
    split; [exact Hsql|]. split; [exact Hv|]. split; [exact Hc|].
    destruct (Hid 0%nat eq_refl) as (s & Hs & Hlook).
    vm_compute in Hs. injection Hs as <-. exact Hlook.
Defined.

Lemma updateOrCreate_sets_id_witness :
  let h3 := setOrAddField (<[9%nat := OPlain [("insertId", VNum 42)]]> annData)
              0 "id" (VNum 42) in
  updateOrCreate sampleRuntime 1 insertDriver "User" sampleProps (VRef 0)
    record annData
  = Ok (annData, [Ended; Called [VNull; VRef 0] h3])
  /\ getField h3 (VRef 0) "id" = Ok (VNum 42)
  /\ getField h3 (VRef 0) "name" = Ok (VStr "Ann").
Proof.
  intros h3. subst h3.
  assert (Hsql : updateOrCreateSQL sampleRuntime 1 "User" sampleProps (VRef 0)
                   annData
                 = Ok ("INSERT INTO `User` (`name`, `age`) VALUES ('Ann', ) ON DUPLICATE KEY UPDATE `name` = 'Ann', `age` = undefined",
                       annData))
    by (vm_compute; reflexivity).
  destruct (updateOrCreate_sets_id sampleRuntime 1 insertDriver "User"
              sampleProps 0%nat record annData _ annData VNull (VRef 9)
              (<[9%nat := OPlain [("insertId", VNum 42)]]> annData)
              [("name", VStr "Ann"); ("age", VUndef); ("nick", VStr "a")]
              Hsql eq_refl eq_refl eq_refl) as [_ H].
  destruct (H 9%nat [("insertId", VNum 42)] (VNum 42)
              eq_refl eq_refl eq_refl eq_refl eq_refl) as (H1 & H2 & H3).
  split; [exact H1|]. split; [exact H2|].
  rewrite (H3 "name") by discriminate. reflexivity.
Defined.

(** ** More of the schema differ *)

Section DifferFacts.

Variable m : modelDef.

(** A composite index that [alterTable] adds is declared by the very text
    that [indexSettingsSQL] gives for it; a single-column index that it
    adds is declared by the text of [singleIndexSettingsSQL] for the same
    index without its kind. *)
Theorem index_definitions_agree (ai : aiMap) name :
  hasKey name ai = false ->
  (forall ci, compositeOf m name = Some ci ->
     map render (addIndex m ai name) = ["ADD " +:+ indexSettingsSQL name ci])
  /\ (forall i, propIndex m name = Some i ->
        map render (addSingleIndex m ai name)
        = ["ADD " +:+ singleIndexSettingsSQL name
                        {| itype := itype i; ikind := EmptyString |}]).
Proof.
  intros Hk. split.
  - intros ci Hci. unfold addIndex. rewrite Hci, Hk.
    cbn [map render indexFragment]. unfold indexSettingsSQL.
    destruct (nonEmpty (ckind ci) && nonEmpty (ctype ci))%bool eqn:E.
    + apply andb_prop in E as [E1 E2]. rewrite E1, E2.
      change (nonEmpty ("USING " +:+ ctype ci)) with true.
      rewrite ?E1. cbn [andb]. rewrite ?append_assoc. reflexivity.
    + destruct (nonEmpty (ckind ci)) eqn:E1;
        destruct (nonEmpty (ctype ci)) eqn:E2; try discriminate;
        cbn [andb]; rewrite ?E1; cbn [andb];
        rewrite ?append_assoc; reflexivity.
  - intros i Hi. unfold addSingleIndex. rewrite Hi, Hk.
    cbn [map render]. unfold singleIndexSettingsSQL. cbn [itype ikind].
    change (nonEmpty EmptyString) with false. cbn [andb].
    rewrite ?append_assoc. reflexivity.
Qed.

Lemma findField_fold name (fs : list fieldRow) : forall acc,
  fold_left (fun found f => if String.eqb (Field f) name
                            then Some f else found) fs acc = None
  <-> acc = None /\ name ∉ map Field fs.
Proof.
  induction fs as [|f fs IH]; intros acc; cbn [fold_left map].
  - rewrite elem_of_nil. tauto.
  - rewrite IH, not_elem_of_cons.
    destruct (String.eqb_spec (Field f) name) as [E|E].
    + split; [intros [N _]; discriminate|]. intros (_ & N & _). congruence.
    + split; intros H; [|tauto]. destruct H. split; [|split]; auto.
Qed.

Lemma findField_None actualFields name :
  findField actualFields name = None <-> name ∉ liveColumns actualFields.
Proof.
  unfold findField, liveColumns. destruct actualFields as [fs|].
  - rewrite findField_fold. tauto.
  - rewrite elem_of_nil. tauto.
Qed.

Lemma propNames_spec name :
  name ∈ propNames m
  <-> name ∈ map fst (mproperties m)
      /\ is_Some (propOf (mproperties m) name).
Proof. unfold propNames. rewrite list_elem_of_filter. tauto. Qed.

Lemma propOf_key name p :
  propOf (mproperties m) name = Some p -> name ∈ map fst (mproperties m).
Proof.
  unfold propOf. intros H.
  destruct (assoc name (mproperties m)) as [o|] eqn:E; [|discriminate].
  apply (assoc_Some_in _ _ _ E).
Qed.

Variable actualFields : option (list fieldRow).
Variable actualIndexes : option (list indexRow).

Lemma elem_of_flat_map {A B} (g : A -> list B) (l : list A) (y : B) :
  y ∈ flat_map g l <-> exists x, x ∈ l /\ y ∈ g x.
Proof.
  rewrite list_elem_of_In, in_flat_map. split; intros (x & H1 & H2);
    exists x; rewrite ?list_elem_of_In in *; auto.
Qed.

Lemma alterFragments_elem fs :
  alterFragments m actualFields actualIndexes = Ok fs ->
  exists ai,
    groupIndexes actualIndexes = Ok ai
    /\ forall f,
         f ∈ fs
         <-> (exists name, name ∈ propNames m
                           /\ f ∈ changeOrAdd m actualFields name)
             \/ (exists r, r ∈ default [] actualFields /\ f ∈ dropColumn m r)
             \/ f ∈ fst (removeIndexes m (map fst ai) ai)
             \/ (exists name,
                   name ∈ propNames m
                   /\ f ∈ addSingleIndex m
                            (snd (removeIndexes m (map fst ai) ai)) name)
             \/ (exists name,
                   name ∈ indexNames m
                   /\ f ∈ addIndex m
                            (snd (removeIndexes m (map fst ai) ai)) name).
Proof.
  unfold alterFragments. intros H.
  destruct (groupIndexes actualIndexes) as [ai| |];
    cbn [mbind result_bind] in H; try discriminate.
  exists ai. split; [reflexivity|]. intros f.
  destruct (removeIndexes m _ _) as [removed ai'].
  injection H as <-.
  cbn [fst snd]. rewrite !elem_of_app, !elem_of_flat_map.
  destruct actualFields as [rs|]; cbn [default from_option id].
  - rewrite elem_of_flat_map. tauto.
  - assert (Hn : f ∈ ([] : list fragment)
                 <-> exists r, r ∈ ([] : list fieldRow) /\ f ∈ dropColumn m r).
    { rewrite elem_of_nil. split; [tauto|].
      intros (r & Hr & _). now apply elem_of_nil in Hr. }
    tauto.
Qed.

Lemma changeOrAdd_elem name f :
  f ∈ changeOrAdd m actualFields name ->
  name <> "id"
  /\ exists p, propOf (mproperties m) name = Some p
       /\ (f = AddColumn name p /\ findField actualFields name = None
           \/ f = ChangeColumn name p
              /\ exists old, findField actualFields name = Some old
                             /\ changed p old = true).
Proof.
  unfold changeOrAdd, actualize.
  destruct (String.eqb_spec name "id") as [->|Hne];
    [intros H; now apply elem_of_nil in H|].
  intros H. split; [assumption|].
  destruct (findField actualFields name) as [old|] eqn:Ef;
    destruct (propOf (mproperties m) name) as [p|] eqn:Ep;
    try (now apply elem_of_nil in H).
  - destruct (changed p old) eqn:Ec; [|now apply elem_of_nil in H].
    apply list_elem_of_singleton in H. exists p. split; [reflexivity|].
    right. split; [assumption|]. exists old. auto.
  - apply list_elem_of_singleton in H. exists p. split; [reflexivity|].
    left. auto.
Qed.

Lemma dropColumn_elem r f :
  f ∈ dropColumn m r
  <-> f = DropColumn (Field r) /\ Field r <> "id"
      /\ propOf (mproperties m) (Field r) = None.
Proof.
  unfold dropColumn.
  destruct (String.eqb_spec (Field r) "id") as [E|E].
  { rewrite elem_of_nil. tauto. }
  destruct (propOf (mproperties m) (Field r)) as [p|] eqn:Ep.
  - assert (Hin : Field r ∈ propNames m).
    { apply propNames_spec. split; [now apply (propOf_key _ p)|].
      rewrite Ep. eauto. }
    rewrite (bool_decide_eq_true_2 _ Hin).
    rewrite (proj2 (propGet_Descr _ _ _) Ep).
    cbn [present negb orb]. rewrite elem_of_nil. split; [tauto|].
    intros (_ & _ & N). discriminate.
  - assert (Hout : Field r ∉ propNames m).
    { intros Hin. apply propNames_spec in Hin as [_ [x Hx]]. congruence. }
    rewrite (bool_decide_eq_false_2 _ Hout).
    cbn [negb orb]. rewrite list_elem_of_singleton. tauto.
Qed.

Lemma removeIndex_elem name (ai : aiMap) f :
  f ∈ fst (removeIndex m name ai) ->
  f = DropIndex name /\ name <> "id" /\ name <> "PRIMARY".
Proof.
  unfold removeIndex.
  destruct (String.eqb_spec name "id") as [->|H1]; cbn [orb fst];
    [intros H; now apply elem_of_nil in H|].
  destruct (String.eqb_spec name "PRIMARY") as [->|H2]; cbn [fst];
    [intros H; now apply elem_of_nil in H|].
  repeat match goal with
         | |- context [if ?b then _ else _] => destruct b
         end; cbn [fst];
    rewrite ?elem_of_nil, ?list_elem_of_singleton; tauto.
Qed.

Lemma removeIndexes_elem names : forall (ai : aiMap) f,
  f ∈ fst (removeIndexes m names ai) ->
  exists name, name ∈ names /\ f = DropIndex name
               /\ name <> "id" /\ name <> "PRIMARY".
Proof.
  induction names as [|n names IH]; intros ai f H.
  - now apply elem_of_nil in H.
  - cbn [removeIndexes] in H.
    destruct (removeIndex m n ai) as [fs ai1] eqn:E1.
    destruct (removeIndexes m names ai1) as [fs' ai2] eqn:E2.
    cbn [fst] in H. apply elem_of_app in H as [H|H].
    + exists n. split; [apply list_elem_of_here|].
      apply (removeIndex_elem n ai). rewrite E1. exact H.
    + destruct (IH ai1 f) as (name & Hin & Hf); [rewrite E2; exact H|].
      exists name. split; [now apply list_elem_of_further|exact Hf].
Qed.

Lemma addSingleIndex_elem (ai : aiMap) name f :
  f ∈ addSingleIndex m ai name -> exists k t, f = AddSingleIndex name k t.
Proof.
  unfold addSingleIndex.
  destruct (propIndex m name); [|intros H; now apply elem_of_nil in H].
  destruct (hasKey name ai); [intros H; now apply elem_of_nil in H|].
  intros H%list_elem_of_singleton. eauto.
Qed.

Lemma addIndex_elem (ai : aiMap) name f :
  f ∈ addIndex m ai name -> exists c k t, f = AddIndex name c k t.
Proof.
  unfold addIndex.
  destruct (compositeOf m name); [|intros H; now apply elem_of_nil in H].
  destruct (hasKey name ai); [intros H; now apply elem_of_nil in H|].
  intros H%list_elem_of_singleton. unfold indexFragment in H. eauto.
Qed.

(** [alterTable] leaves the primary key alone: whatever the model and the
    live table are, no fragment adds, changes or drops the column [id],
    and none drops the index [id] or [PRIMARY]. *)
Theorem alterTable_spares_id fs f :
  alterFragments m actualFields actualIndexes = Ok fs ->
  f ∈ fs -> sparesId f.
Proof.
  intros Hfs H.
  destruct (alterFragments_elem fs Hfs) as (ai & _ & Hel).
  apply Hel in H.
  destruct H as [(name & _ & H) | [(r & _ & H) | [H | [(name & _ & H)
                | (name & _ & H)]]]].
  - apply changeOrAdd_elem in H as (Hne & p & _ & [[-> _] | [-> _]]);
      exact Hne.
  - apply dropColumn_elem in H as (-> & Hne & _). exact Hne.
  - apply removeIndexes_elem in H as (name & _ & -> & H1 & H2).
    split; assumption.
  - apply addSingleIndex_elem in H as (k & t & ->). exact I.
  - apply addIndex_elem in H as (c & k & t & ->). exact I.
Qed.

(** Which columns [alterTable] adds and changes: [ADD COLUMN] is emitted
    for exactly the enabled properties other than [id] that no live column
    is named after, and [CHANGE COLUMN] for exactly those whose live
    column, the last of that name, differs by [changed]. *)
Theorem columns_added_or_changed fs name p :
  alterFragments m actualFields actualIndexes = Ok fs ->
  (AddColumn name p ∈ fs
   <-> name <> "id" /\ propOf (mproperties m) name = Some p
       /\ name ∉ liveColumns actualFields)
  /\ (ChangeColumn name p ∈ fs
      <-> name <> "id" /\ propOf (mproperties m) name = Some p
          /\ exists old, findField actualFields name = Some old
                         /\ changed p old = true).
Proof.
  intros Hfs. destruct (alterFragments_elem fs Hfs) as (ai & _ & Hel).
  assert (In : propOf (mproperties m) name = Some p -> name ∈ propNames m).
  { intros Hp. apply propNames_spec. split; [now apply (propOf_key _ p)|].
    rewrite Hp. eauto. }
  split; rewrite Hel; split.
  - intros [(n & _ & H) | [(r & _ & H) | [H | [(n & _ & H) | (n & _ & H)]]]].
    + apply changeOrAdd_elem in H
        as (Hne & q & Hq & [[E Hf] | [E _]]); [|discriminate].
      injection E as -> ->. rewrite <- findField_None. auto.
    + apply dropColumn_elem in H as (E & _). discriminate.
    + apply removeIndexes_elem in H as (n & _ & E & _). discriminate.
    + apply addSingleIndex_elem in H as (k & t & E). discriminate.
    + apply addIndex_elem in H as (c & k & t & E). discriminate.
  - intros (Hne & Hp & Hl). left. exists name. split; [now apply In|].
    unfold changeOrAdd.
    destruct (String.eqb_spec name "id"); [contradiction|].
    apply findField_None in Hl. rewrite Hl, Hp. apply list_elem_of_here.
  - intros [(n & _ & H) | [(r & _ & H) | [H | [(n & _ & H) | (n & _ & H)]]]].
    + apply changeOrAdd_elem in H
        as (Hne & q & Hq & [[E _] | [E Hold]]); [discriminate|].
      injection E as -> ->. auto.
    + apply dropColumn_elem in H as (E & _). discriminate.
    + apply removeIndexes_elem in H as (n & _ & E & _). discriminate.
    + apply addSingleIndex_elem in H as (k & t & E). discriminate.
    + apply addIndex_elem in H as (c & k & t & E). discriminate.
  - intros (Hne & Hp & old & Hold & Hc). left. exists name.
    split; [now apply In|].
    unfold changeOrAdd, actualize.
    destruct (String.eqb_spec name "id"); [contradiction|].
    rewrite Hold, Hp, Hc. apply list_elem_of_here.
Qed.

(** Which columns [alterTable] drops: exactly the live columns other than
    [id] whose name is not that of an enabled property. *)
Theorem columns_dropped fs name :
  alterFragments m actualFields actualIndexes = Ok fs ->
  DropColumn name ∈ fs
  <-> name <> "id" /\ name ∈ liveColumns actualFields
      /\ propOf (mproperties m) name = None.
Proof.
  intros Hfs. destruct (alterFragments_elem fs Hfs) as (ai & _ & Hel).
  rewrite Hel. split.
  - intros [(n & _ & H) | [(r & Hr & H) | [H | [(n & _ & H) | (n & _ & H)]]]].
    + apply changeOrAdd_elem in H
        as (_ & q & _ & [[E _] | [E _]]); discriminate.
    + apply dropColumn_elem in H as (E & Hne & Hp). injection E as ->.
      split; [assumption|]. split; [|assumption].
      unfold liveColumns. destruct actualFields as [rs|];
        [|now apply elem_of_nil in Hr].
      now apply (list_elem_of_fmap_2 Field).
    + apply removeIndexes_elem in H as (n & _ & E & _). discriminate.
    + apply addSingleIndex_elem in H as (k & t & E). discriminate.
    + apply addIndex_elem in H as (c & k & t & E). discriminate.
  - intros (Hne & Hl & Hp). right. left.
    unfold liveColumns in Hl. destruct actualFields as [rs|];
      [|now apply elem_of_nil in Hl].
    apply list_elem_of_fmap in Hl as (r & -> & Hr).
    exists r. split; [exact Hr|]. apply dropColumn_elem. auto.
Qed.

End DifferFacts.

Lemma index_definitions_agree_witness :
  map render (addIndex indexedModel [] "names")
  = ["ADD UNIQUE INDEX  `names` (first, last)"]
  /\ map render (addSingleIndex indexedModel [] "email")
     = ["ADD  INDEX `email` USING BTREE (`email`) "]
  /\ singleIndexSettingsSQL "email" {| itype := "BTREE"; ikind := "UNIQUE" |}
     = "UNIQUE INDEX `email` (`email`) USING BTREE".
Proof.
  split; [|split].
  - apply (proj1 (index_definitions_agree indexedModel [] "names" eq_refl)
             {| columns := "first, last"; ctype := EmptyString;
                ckind := "UNIQUE" |}).
    reflexivity.
  - apply (proj2 (index_definitions_agree indexedModel [] "email" eq_refl)
             {| itype := "BTREE"; ikind := "UNIQUE" |}).
    reflexivity.
  - reflexivity.
Defined.

Lemma alterTable_spares_id_witness : sparesId (DropIndex "ab").
Proof.
  apply (alterTable_spares_id (pairModelNamed "ab")
           (Some (liveFields (pairLiveNamed "ab")))
           (Some (liveIndexes (pairLiveNamed "ab")))
           [DropIndex "ab"; AddIndex "ab" "a, b" EmptyString EmptyString]).
  - vm_compute. reflexivity.
  - apply list_elem_of_here.
Defined.

Lemma columns_added_or_changed_witness :
  AddColumn "name" (plainProp "String")
    ∈ [AddColumn "name" (plainProp "String"); DropColumn "old"].
Proof.
  apply (proj1 (columns_added_or_changed retiredModel
                  (Some [idRow; {| Field := "old"; Type_ := "int(11)";
                                   Null := "YES" |}])
                  (Some [primaryRow])
                  [AddColumn "name" (plainProp "String"); DropColumn "old"]
                  "name" (plainProp "String") eq_refl)).
  split; [discriminate|]. split; [reflexivity|].
  cbn. rewrite !not_elem_of_cons, elem_of_nil.
  repeat split; try discriminate. tauto.
Defined.

Lemma columns_dropped_witness :
  DropColumn "old"
    ∈ [AddColumn "name" (plainProp "String"); DropColumn "old"].
Proof.
  apply (columns_dropped retiredModel
           (Some [idRow; {| Field := "old"; Type_ := "int(11)";
                            Null := "YES" |}])
           (Some [primaryRow])
           [AddColumn "name" (plainProp "String"); DropColumn "old"]
           "old" eq_refl).
  split; [discriminate|]. split; [|reflexivity].
  cbn. apply list_elem_of_further, list_elem_of_here.
Defined.

(** ** Column types *)

Lemma upper_lower c : upperChar (lowerChar c) = upperChar c.
Proof. destruct c as [[] [] [] [] [] [] [] []]; reflexivity. Qed.

Lemma toUpperCase_lower s : toUpperCase (toLowerCase s) = toUpperCase s.
Proof.
  induction s as [|c s IH]; [reflexivity|].
  unfold toUpperCase, toLowerCase in *. cbn [mapString].
  now rewrite upper_lower, IH.
Qed.

Lemma mapString_app f a b :
  mapString f (a +:+ b) = mapString f a +:+ mapString f b.
Proof.
  induction a as [|c a IH]; [reflexivity|].
  rewrite append_cons. cbn [mapString]. rewrite IH. reflexivity.
Qed.

Lemma upper_uint d :
  toUpperCase (NilEmpty.string_of_uint d) = NilEmpty.string_of_uint d.
Proof.
  unfold toUpperCase.
  induction d; cbn [NilEmpty.string_of_uint mapString]; rewrite ?IHd;
    reflexivity.
Qed.

Lemma upper_num n : toUpperCase (numToString n) = numToString n.
Proof.
  assert (U : forall d, toUpperCase (NilZero.string_of_uint d)
                        = NilZero.string_of_uint d).
  { intros d. destruct d; try reflexivity;
      unfold NilZero.string_of_uint; apply upper_uint. }
  unfold numToString, NilZero.string_of_int.
  destruct (Z.to_int n) as [d|d]; [apply U|].
  unfold toUpperCase in *. cbn [mapString]. rewrite U. reflexivity.
Qed.

Lemma upper_sized (a : string) n :
  toUpperCase a = a ->
  toUpperCase (a +:+ numToString n +:+ ")") = a +:+ numToString n +:+ ")".
Proof.
  intros Ha. unfold toUpperCase in *. rewrite !mapString_app, Ha.
  fold (toUpperCase (numToString n)). rewrite upper_num. reflexivity.
Qed.

Lemma datatype_upper p : toUpperCase (datatype p) = datatype p.
Proof.
  unfold datatype. generalize (typeName p). intros s.
  repeat (match goal with
          | |- context [match ?x with _ => _ end] => is_var x; destruct x
          end; cbv beta iota);
    first [reflexivity | apply upper_sized; reflexivity].
Qed.

(** A live column whose type is the one of the property, whatever the case
    of its letters, and whose nullability is the one of the property, is
    not changed: [changed] is false and [actualize] pushes nothing. *)
Theorem changed_settled m name p old :
  propOf (mproperties m) name = Some p ->
  toLowerCase (Type_ old) = toLowerCase (datatype p) ->
  Null old = (if notNull p then "NO" else "YES") ->
  changed p old = false /\ actualize m name old = [].
Proof.
  intros Hp Ht Hn.
  assert (Hc : changed p old = false).
  { unfold changed. rewrite Hn.
    assert (Hu : toUpperCase (Type_ old) = datatype p).
    { rewrite <- toUpperCase_lower, Ht, toUpperCase_lower.
      apply datatype_upper. }
    rewrite Hu, String.eqb_refl. destruct (notNull p); reflexivity. }
  split; [exact Hc|]. unfold actualize. rewrite Hp, Hc. reflexivity.
Qed.

Lemma changed_settled_witness :
  changed (plainProp "Number")
    {| Field := "age"; Type_ := "Int(11)"; Null := "YES" |} = false
  /\ actualize pairModel "a"
       {| Field := "age"; Type_ := "Int(11)"; Null := "YES" |} = [].
Proof.
  apply (changed_settled pairModel "a" (plainProp "Number")); reflexivity.
Defined.

(** ** Live indexes *)

Lemma columnAt_setAt i x : forall cols j,
  columnAt (setAt i x cols) j
  = if decide (j = i) then Some x else columnAt cols j.
Proof.
  unfold columnAt.
  induction i as [|i IH]; intros [|c cols] [|j]; cbn [setAt];
    cbn [lookup list_lookup]; rewrite ?IH; repeat case_decide;
    try lia; try reflexivity; try (destruct j; reflexivity).
Qed.

Lemma assoc_aiCreate name v (ai : aiMap) k :
  assoc name ai = None ->
  assoc k (aiCreate name v ai)
  = if String.eqb k name then Some v else assoc k ai.
Proof.
  induction ai as [|[k' w] ai IH]; intros Hn.
  - cbn [aiCreate assoc]. now destruct (String.eqb k name).
  - cbn [assoc] in Hn. destruct (String.eqb_spec name k') as [E|E];
      [discriminate|].
    assert (Here : assoc k ((name, v) :: (k', w) :: ai)
                   = if String.eqb k name then Some v
                     else assoc k ((k', w) :: ai)) by reflexivity.
    assert (There : assoc k ((k', w) :: aiCreate name v ai)
                    = if String.eqb k name then Some v
                      else assoc k ((k', w) :: ai)).
    { cbn [assoc]. rewrite (IH Hn).
      destruct (String.eqb_spec k k') as [->|]; [|reflexivity].
      destruct (String.eqb_spec k' name); [congruence|reflexivity]. }
    cbn [aiCreate].
    destruct (arrayIndex name) as [n|]; [|exact There].
    destruct (arrayIndex k') as [n'|]; [|exact Here].
    destruct (n <? n'); [exact Here|exact There].
Qed.

Lemma assoc_aiUpdate name f (ai : aiMap) k :
  assoc k (aiUpdate name f ai)
  = if String.eqb k name then f <$> assoc name ai else assoc k ai.
Proof.
  induction ai as [|[k' w] ai IH].
  - cbn. now destruct (String.eqb k name).
  - cbn [aiUpdate assoc].
    destruct (String.eqb_spec name k') as [->|E]; cbn [assoc].
    + destruct (String.eqb_spec k k'); reflexivity.
    + rewrite IH.
      destruct (String.eqb_spec k k') as [->|]; [|reflexivity].
      destruct (String.eqb_spec k' name); [congruence|reflexivity].
Qed.

Lemma assoc_aiAddRow (ai ai' : aiMap) r k :
  aiAddRow ai r = Ok ai' ->
  assoc k ai'
  = if String.eqb k (Key_name r)
    then Some (fst (default (r, []) (assoc (Key_name r) ai)),
               setColumn (Seq_in_index r - 1) (Column_name r)
                 (snd (default (r, []) (assoc (Key_name r) ai))))
    else assoc k ai.
Proof.
  unfold aiAddRow, hasKey. intros H.
  destruct (assoc (Key_name r) ai) as [w|] eqn:E.
  - injection H as <-. rewrite assoc_aiUpdate, E. reflexivity.
  - destruct (inherited (Key_name r)); [discriminate|]. injection H as <-.
    rewrite assoc_aiUpdate.
    rewrite !assoc_aiCreate by assumption. rewrite String.eqb_refl.
    destruct (String.eqb k (Key_name r)); reflexivity.
Qed.

Lemma fold_positions r (rows : list indexRow) : forall ai0 ai : aiMap,
  aiAddRows rows ai0 = Ok ai ->
  1 <= Seq_in_index r ->
  (forall r', r' ∈ rows -> Key_name r' = Key_name r ->
              Seq_in_index r' = Seq_in_index r ->
              Column_name r' = Column_name r) ->
  r ∈ rows
  \/ (exists live, assoc (Key_name r) ai0 = Some live
                   /\ columnAt (snd live) (Z.to_nat (Seq_in_index r - 1))
                      = Some (Column_name r)) ->
  exists live,
    assoc (Key_name r) ai = Some live
    /\ columnAt (snd live) (Z.to_nat (Seq_in_index r - 1))
       = Some (Column_name r).
Proof.
  induction rows as [|x rows IH]; intros ai0 ai Hg Hseq Hcons H.
  - injection Hg as <-.
    destruct H as [H|H]; [now apply elem_of_nil in H|exact H].
  - cbn [aiAddRows] in Hg.
    destruct (aiAddRow ai0 x) as [ai1| |] eqn:E1;
      cbn [mbind result_bind] in Hg; try discriminate.
    apply (IH ai1 ai Hg); [assumption| |].
    { intros r' Hr'. apply Hcons. now apply list_elem_of_further. }
    destruct H as [[->|H]%elem_of_cons | (live & Hl & Hc)];
      [right|left; exact H|right].
    + rewrite (assoc_aiAddRow _ _ _ _ E1), String.eqb_refl.
      eexists. split; [reflexivity|].
      cbn [snd]. unfold setColumn.
      destruct (Z.ltb_spec (Seq_in_index x - 1) 0) as [N|N]; [lia|].
      rewrite columnAt_setAt. rewrite decide_True by reflexivity.
      reflexivity.
    + rewrite (assoc_aiAddRow _ _ _ _ E1).
      destruct (String.eqb_spec (Key_name r) (Key_name x)) as [E|E];
        [|exists live; auto].
      eexists. split; [reflexivity|]. cbn [snd].
      rewrite <- E, Hl. cbn [default from_option id]. unfold setColumn.
      destruct (Z.ltb_spec (Seq_in_index x - 1) 0) as [N|N]; [exact Hc|].
      rewrite columnAt_setAt.
      destruct (decide (Z.to_nat (Seq_in_index r - 1)
                        = Z.to_nat (Seq_in_index x - 1))) as [Eq|Ne];
        [|exact Hc].
      f_equal. apply Hcons; [apply list_elem_of_here|congruence|lia].
Qed.

(** The rows can be grouped exactly when none bears the name of a member
    of [Object.prototype]. *)
Lemma aiAddRows_returns (rows : list indexRow) : forall ai0 : aiMap,
  (forall k, k ∈ map fst ai0 -> inherited k = false) ->
  Forall (fun r => inherited (Key_name r) = false) rows
  <-> exists ai, aiAddRows rows ai0 = Ok ai.
Proof.
  induction rows as [|x rows IH]; intros ai0 Hown.
  - split; [intros _; exists ai0; reflexivity|constructor].
  - cbn [aiAddRows]. rewrite Forall_cons.
    destruct (aiAddRow ai0 x) as [ai1| |] eqn:E1; cbn [mbind result_bind].
    + rewrite <- (IH ai1 (aiAddRow_own ai0 ai1 x E1 Hown)).
      assert (Hx : inherited (Key_name x) = false).
      { unfold aiAddRow in E1.
        destruct (hasKey (Key_name x) ai0) eqn:Hk.
        - apply Hown. unfold hasKey in Hk.
          destruct (assoc (Key_name x) ai0) as [w|] eqn:Ea; [|discriminate].
          apply (assoc_Some_in _ _ _ Ea).
        - destruct (inherited (Key_name x)); [discriminate|reflexivity]. }
      tauto.
    + split; [|intros [ai N]; discriminate].
      intros [Hx _]. exfalso. unfold aiAddRow in E1.
      destruct (hasKey (Key_name x) ai0); [discriminate|].
      rewrite Hx in E1. discriminate.
    + exfalso. unfold aiAddRow in E1.
      destruct (hasKey (Key_name x) ai0); [discriminate|].
      destruct (inherited (Key_name x)); discriminate.
Qed.

(** The rows of the live indexes can be grouped by name exactly when no
    index bears the name of a member of [Object.prototype]; for such a
    name the entry is neither created nor written, and grouping throws.
    When they are grouped, the columns of a live index are placed by their
    [Seq_in_index], in whatever order the rows are reported: when the rows
    that share the name and the position of a row agree on the column, the
    column of the row is found at that position in the columns grouped
    under the name. *)
Theorem groupIndexes_positions rows :
  (Forall (fun r => inherited (Key_name r) = false) rows
   <-> exists ai, groupIndexes (Some rows) = Ok ai)
  /\ forall ai r,
       groupIndexes (Some rows) = Ok ai ->
       r ∈ rows ->
       1 <= Seq_in_index r ->
       (forall r', r' ∈ rows -> Key_name r' = Key_name r ->
                   Seq_in_index r' = Seq_in_index r ->
                   Column_name r' = Column_name r) ->
       exists live,
         assoc (Key_name r) ai = Some live
         /\ columnAt (snd live) (Z.to_nat (Seq_in_index r - 1))
            = Some (Column_name r).
Proof.
  split.
  - cbn [groupIndexes]. apply aiAddRows_returns.
    intros k Hk. now apply elem_of_nil in Hk.
  - intros ai r Hg Hin Hseq Hcons. cbn [groupIndexes] in Hg.
    apply (fold_positions r rows [] ai Hg); auto.
Qed.

Lemma groupIndexes_positions_witness :
  exists ai,
    groupIndexes (Some shuffledRows) = Ok ai
    /\ exists live,
         assoc "ab" ai = Some live /\ columnAt (snd live) 0 = Some "a".
Proof.
  destruct (proj1 (proj1 (groupIndexes_positions shuffledRows)))
    as [ai Hai].
  { repeat constructor. }
  exists ai. split; [exact Hai|].
  apply (proj2 (groupIndexes_positions shuffledRows) ai
           {| Key_name := "ab"; Seq_in_index := 1; Column_name := "a" |} Hai).
  - unfold shuffledRows. do 2 apply list_elem_of_further.
    apply list_elem_of_here.
  - cbn. lia.
  - intros r' Hr' Hk Hs. unfold shuffledRows in Hr'.
    repeat (apply elem_of_cons in Hr' as [->|Hr']); try discriminate;
      try reflexivity.
    now apply elem_of_nil in Hr'.
Defined.

(** ** Table creation *)

Section CreationFacts.

Variable m : modelDef.

Lemma columnLines_adds (rest : properties) : forall cols,
  (forall kv, kv ∈ rest -> assoc (fst kv) (mproperties m) = Some (snd kv)) ->
  columnLines rest = Ok cols ->
  map render
    (flat_map (changeOrAdd m None)
       (filter (fun name => is_Some (propOf (mproperties m) name))
          (map fst rest)))
  = map (fun line => "ADD COLUMN " +:+ line) cols.
Proof.
  induction rest as [|[k o] rest IH]; intros cols Hin H.
  - injection H as <-. reflexivity.
  - assert (Hk : propOf (mproperties m) k = o).
    { pose proof (Hin (k, o) (list_elem_of_here _ _)) as E.
      cbn [fst snd] in E. unfold propOf. rewrite E. reflexivity. }
    assert (Hrest : forall kv, kv ∈ rest ->
              assoc (fst kv) (mproperties m) = Some (snd kv)).
    { intros kv Hkv. apply Hin. now apply list_elem_of_further. }
    cbn [columnLines] in H. cbn [map fst].
    destruct (String.eqb_spec k "id") as [->|Hne].
    + destruct o as [p|].
      * rewrite filter_cons_True by (rewrite Hk; eauto).
        cbn [flat_map]. unfold changeOrAdd at 1.
        change (String.eqb "id" "id") with true. cbn [app].
        now apply IH.
      * rewrite filter_cons_False
          by (rewrite Hk; intros [x Hx]; discriminate).
        now apply IH.
    + destruct o as [p|]; [|discriminate].
      destruct (columnLines rest) as [ls| |] eqn:E;
        cbn [mbind result_bind] in H; try discriminate.
      injection H as <-.
      rewrite filter_cons_True by (rewrite Hk; eauto).
      cbn [flat_map]. unfold changeOrAdd at 1.
      destruct (String.eqb_spec k "id"); [contradiction|].
      change (findField None k) with (@None fieldRow). cbv iota.
      rewrite Hk. cbn [app map render]. rewrite (IH ls Hrest eq_refl).
      rewrite ?append_assoc. reflexivity.
Qed.

(** On a table that reports no column and no index, [alterTable] first
    adds one column for each column line of [propertiesSQL], in the same
    order and with the same definition, and then only indexes. *)
Theorem new_table_columns cols :
  NoDup (map fst (mproperties m)) ->
  columnLines (mproperties m) = Ok cols ->
  alterTableSQL m None None
  = Ok (map (fun line => "ADD COLUMN " +:+ line) cols
          ++ map render (flat_map (addSingleIndex m []) (propNames m)
                           ++ flat_map (addIndex m []) (indexNames m))).
Proof.
  intros Hnd Hcols. unfold alterTableSQL, alterFragments.
  cbn [groupIndexes mbind result_bind map fst removeIndexes app].
  rewrite map_app. do 2 f_equal.
  apply columnLines_adds; [|assumption].
  intros [k o] Hkv. now apply assoc_NoDup.
Qed.

(** [propertiesSQL] cannot read the type of a disabled property: on a
    model that has one under a name other than [id], it throws a
    [TypeError], whatever the falsy values of the disabled entries are. *)
Theorem propertiesSQL_disabled nullProperty nullIndex name :
  (name, None) ∈ mproperties m -> name <> "id" ->
  exists msg, propertiesSQL nullProperty nullIndex m = Throw (TypeError msg).
Proof.
  intros Hin Hne.
  assert (H : exists msg, columnLines (mproperties m)
                          = Throw (TypeError msg)).
  { induction (mproperties m) as [|[k o] props IH];
      [now apply elem_of_nil in Hin|].
    cbn [columnLines].
    apply elem_of_cons in Hin as [E|Hin].
    - injection E as <- <-.
      destruct (String.eqb_spec name "id"); [contradiction|]. eauto.
    - destruct (IH Hin) as (msg & Hmsg). rewrite Hmsg.
      destruct (String.eqb k "id"); [eauto|].
      destruct o; eauto. }
  destruct H as (msg & Hmsg). exists msg.
  unfold propertiesSQL, propertiesLines. rewrite Hmsg. reflexivity.
Qed.

End CreationFacts.

Lemma new_table_columns_witness :
  alterTableSQL indexedModel None None
  = Ok ["ADD COLUMN `email` VARCHAR(255) NOT NULL";
        "ADD COLUMN `first` VARCHAR(255) NULL";
        "ADD COLUMN `last` VARCHAR(255) NULL";
        "ADD  INDEX `email` USING BTREE (`email`) ";
        "ADD UNIQUE INDEX  `names` (first, last)"].
Proof.
  rewrite (new_table_columns indexedModel
             ["`email` VARCHAR(255) NOT NULL";
              "`first` VARCHAR(255) NULL";
              "`last` VARCHAR(255) NULL"]).
  - reflexivity.
  - cbn [map fst indexedModel mproperties].
    repeat constructor; rewrite ?elem_of_cons, ?elem_of_nil;
      intros N; repeat destruct N as [N|N]; discriminate || contradiction.
  - reflexivity.
Defined.

Lemma propertiesSQL_disabled_witness :
  exists msg,
    propertiesSQL (fun _ => false) (fun _ => false) retiredModel
    = Throw (TypeError msg).
Proof.
  apply (propertiesSQL_disabled retiredModel (fun _ => false) (fun _ => false)
           "old").
  - unfold retiredModel. cbn [mproperties]. apply list_elem_of_further.
    apply list_elem_of_here.
  - discriminate.
Defined.

(** ** The fate of a live index *)

Section IndexFate.

Variable m : modelDef.
Variable actualFields : option (list fieldRow).
Variable actualIndexes : option (list indexRow).

Lemma removeIndexes_source names : forall (ai : aiMap) f,
  f ∈ fst (removeIndexes m names ai) ->
  exists n ai', n ∈ names /\ f ∈ fst (removeIndex m n ai').
Proof.
  induction names as [|n names IH]; intros ai f H.
  - now apply elem_of_nil in H.
  - cbn [removeIndexes] in H.
    destruct (removeIndex m n ai) as [fs ai1] eqn:E1.
    destruct (removeIndexes m names ai1) as [fs' ai2] eqn:E2.
    cbn [fst] in H. apply elem_of_app in H as [H|H].
    + exists n, ai. split; [apply list_elem_of_here|]. now rewrite E1.
    + destruct (IH ai1 f) as (n' & ai' & Hin & Hf); [now rewrite E2|].
      exists n', ai'. split; [now apply list_elem_of_further|exact Hf].
Qed.

Lemma removeIndexes_always name fs names : forall ai : aiMap,
  (forall ai', fst (removeIndex m name ai') = fs) ->
  name ∈ names ->
  forall f, f ∈ fs -> f ∈ fst (removeIndexes m names ai).
Proof.
  induction names as [|n names IH]; intros ai Hfs Hin f Hf.
  - now apply elem_of_nil in Hin.
  - cbn [removeIndexes].
    destruct (removeIndex m n ai) as [fs0 ai1] eqn:E1.
    destruct (removeIndexes m names ai1) as [fs' ai2] eqn:E2.
    cbn [fst]. apply elem_of_app.
    apply elem_of_cons in Hin as [<-|Hin].
    + left. rewrite <- (Hfs ai), E1 in Hf. exact Hf.
    + right. specialize (IH ai1 Hfs Hin f Hf). now rewrite E2 in IH.
Qed.

Lemma removeIndexes_keeps name names : forall ai : aiMap,
  (forall ai', snd (removeIndex m name ai') = ai') ->
  assoc name (snd (removeIndexes m names ai)) = assoc name ai.
Proof.
  induction names as [|n names IH]; intros ai Hkeep; [reflexivity|].
  cbn [removeIndexes].
  destruct (removeIndex m n ai) as [fs0 ai1] eqn:E1.
  destruct (removeIndexes m names ai1) as [fs' ai2] eqn:E2.
  cbn [snd]. specialize (IH ai1 Hkeep). rewrite E2 in IH. cbn [snd] in IH.
  rewrite IH.
  destruct (String.eqb_spec n name) as [->|Hne].
  - specialize (Hkeep ai). rewrite E1 in Hkeep. cbn [snd] in Hkeep.
    now subst ai1.
  - pose proof (proj1 (removeIndex_other m name n ai Hne)) as H.
    rewrite E1 in H. exact H.
Qed.

Lemma not_declared name :
  compositeOf m name = None ->
  bool_decide (name ∈ indexNames m) = false.
Proof.
  intros Hc. apply bool_decide_eq_false_2. unfold indexNames.
  destruct (indexes m) as [ixs|] eqn:E; [|apply not_elem_of_nil].
  rewrite list_elem_of_filter, Hc. intros [[x Hx] _]. discriminate.
Qed.

(** What becomes of a live index that is not [id] or [PRIMARY] and whose
    name is that of no composite index of the model, when the rows of the
    live indexes can be grouped: [alterTable] builds its fragment list; the
    index is dropped when the model has no indexed property of that name;
    it is left alone, neither dropped nor added again, when the model has
    one. *)
Theorem live_index_fate ai name live :
  groupIndexes actualIndexes = Ok ai ->
  assoc name ai = Some live ->
  name <> "id" -> name <> "PRIMARY" ->
  compositeOf m name = None ->
  exists fs,
    alterFragments m actualFields actualIndexes = Ok fs
    /\ (propIndex m name = None -> DropIndex name ∈ fs)
    /\ (forall i, propIndex m name = Some i ->
          (DropIndex name ∉ fs)
          /\ (forall k t, AddSingleIndex name k t ∉ fs)).
Proof.
  intros Hg Hlive H1 H2 Hc.
  pose proof (not_declared name Hc) as Hd.
  destruct (groupIndexes_NoDup actualIndexes ai Hg) as [_ Hown].
  assert (Hin : name ∈ map fst ai) by (apply (assoc_Some_in _ _ _ Hlive)).
  assert (Hget : propGet (mproperties m) name
                 = match propOf (mproperties m) name with
                   | Some p => Descr p
                   | None => Falsy
                   end)
    by (apply propGet_own; left; now apply Hown).
  assert (Hid : String.eqb name "id" = false)
    by (now apply String.eqb_neq).
  assert (Hpr : String.eqb name "PRIMARY" = false)
    by (now apply String.eqb_neq).
  destruct (alterFragments m actualFields actualIndexes) as [fs| |] eqn:Efs;
    try (unfold alterFragments in Efs; rewrite Hg in Efs;
         cbn [mbind result_bind] in Efs;
         destruct (removeIndexes m _ _); discriminate).
  exists fs. split; [reflexivity|].
  destruct (alterFragments_elem m actualFields actualIndexes fs Efs)
    as (ai' & Hg' & Hel).
  rewrite Hg in Hg'. injection Hg' as <-.
  split.
  - intros Hp. apply Hel. right. right. left.
    apply (removeIndexes_always name [DropIndex name]);
      [|assumption|apply list_elem_of_here].
    intros ai'. unfold removeIndex. rewrite Hid, Hpr, Hd, Hget.
    cbn [orb negb andb].
    unfold propIndex in Hp.
    destruct (propOf (mproperties m) name) as [p|] eqn:Ep; cbn in Hp.
    + cbn [present hasIndex]. rewrite Hp.
      rewrite (bool_decide_eq_false_2 (is_Some None))
        by (intros [x Hx]; discriminate).
      reflexivity.
    + reflexivity.
  - intros i Hi.
    assert (Hkeep : forall ai', removeIndex m name ai' = ([], ai')).
    { intros ai'. unfold removeIndex. rewrite Hid, Hpr, Hd, Hget.
      unfold propIndex in Hi.
      destruct (propOf (mproperties m) name) as [p|]; cbn in Hi;
        [|discriminate].
      cbn [present hasIndex orb negb andb].
      rewrite bool_decide_eq_true_2 by (rewrite Hi; eauto).
      reflexivity. }
    split.
    + intros H. apply Hel in H.
      destruct H as [(n & _ & H) | [(r & _ & H) | [H | [(n & _ & H)
                    | (n & _ & H)]]]].
      * apply changeOrAdd_elem in H
          as (_ & q & _ & [[E _] | [E _]]); discriminate.
      * apply dropColumn_elem in H as (E & _). discriminate.
      * apply removeIndexes_source in H as (n & ai' & _ & H).
        pose proof (removeIndex_elem m n ai' _ H) as (E & _).
        injection E as <-. rewrite Hkeep in H. now apply elem_of_nil in H.
      * apply addSingleIndex_elem in H as (k & t & E). discriminate.
      * apply addIndex_elem in H as (c & k & t & E). discriminate.
    + intros k t H. apply Hel in H.
      destruct H as [(n & _ & H) | [(r & _ & H) | [H | [(n & _ & H)
                    | (n & _ & H)]]]].
      * apply changeOrAdd_elem in H
          as (_ & q & _ & [[E _] | [E _]]); discriminate.
      * apply dropColumn_elem in H as (E & _). discriminate.
      * apply removeIndexes_elem in H as (n & _ & E & _). discriminate.
      * pose proof (addSingleIndex_elem m _ n _ H) as (k' & t' & E).
        injection E as <- _ _.
        unfold addSingleIndex in H. rewrite Hi in H.
        unfold hasKey in H. rewrite removeIndexes_keeps in H
          by (intros ai'; now rewrite Hkeep).
        rewrite Hlive in H. now apply elem_of_nil in H.
      * apply addIndex_elem in H as (c & k' & t' & E). discriminate.
Qed.

End IndexFate.

Lemma live_index_fate_witness :
  (exists fs,
     alterFragments tagModel None (Some tagIndexes) = Ok fs
     /\ DropIndex "stale" ∈ fs)
  /\ (exists fs,
        alterFragments tagModel None (Some tagIndexes) = Ok fs
        /\ (DropIndex "tag" ∉ fs)
        /\ forall k t, AddSingleIndex "tag" k t ∉ fs).
Proof.
  split.
  2:{ destruct (live_index_fate tagModel None (Some tagIndexes)
                  [("PRIMARY", (primaryRow, [Some "id"]));
                   ("tag", ({| Key_name := "tag"; Seq_in_index := 1;
                               Column_name := "tag" |}, [Some "tag"]));
                   ("stale", ({| Key_name := "stale"; Seq_in_index := 1;
                                 Column_name := "tag" |}, [Some "tag"]))]
                  "tag"
                  ({| Key_name := "tag"; Seq_in_index := 1;
                      Column_name := "tag" |}, [Some "tag"]))
        as (fs & Hfs & _ & Hkeep).
      - vm_compute. reflexivity.
      - reflexivity.
      - discriminate.
      - discriminate.
      - reflexivity.
      - exists fs. split; [exact Hfs|].
        apply (Hkeep {| itype := EmptyString; ikind := EmptyString |}).
        reflexivity. }
  destruct (live_index_fate tagModel None (Some tagIndexes)
              [("PRIMARY", (primaryRow, [Some "id"]));
               ("tag", ({| Key_name := "tag"; Seq_in_index := 1;
                           Column_name := "tag" |}, [Some "tag"]));
               ("stale", ({| Key_name := "stale"; Seq_in_index := 1;
                             Column_name := "tag" |}, [Some "tag"]))]
              "stale"
              ({| Key_name := "stale"; Seq_in_index := 1;
                  Column_name := "tag" |}, [Some "tag"]))
    as (fs & Hfs & Hdrop & _).
  - vm_compute. reflexivity.
  - reflexivity.
  - discriminate.
  - discriminate.
  - reflexivity.
  - exists fs. split; [exact Hfs|]. apply Hdrop. reflexivity.
Defined.

(** ** The end of [alterTable] *)

(** [alterTable] sends a statement only when it has fragments and is not
    asked to check only.  Without fragments it calls [done] with no
    argument, in either mode.  With fragments and [checkOnly] it calls
    [done] with [null], [true] and a new object that holds the statement
    and a new array of its fragments, and the driver is not used.  When
    the fragments cannot be built, [done] is not called. *)
Theorem alterTable_without_query rt d model m actualFields actualIndexes
    done h :
  (alterTableSQL m actualFields actualIndexes = Ok [] ->
     forall checkOnly,
       alterTable rt d model m actualFields actualIndexes done checkOnly h
       = invoke done [] h)
  /\ (forall sql,
        alterTableSQL m actualFields actualIndexes = Ok sql -> sql <> [] ->
        exists ls lo,
          ls <> lo /\ h !! ls = None /\ h !! lo = None
          /\ alterTable rt d model m actualFields actualIndexes done true h
             = invoke done [VNull; VBool true; VRef lo]
                 (<[lo := OPlain
                            [("statements", VRef ls);
                             ("query",
                              VStr ("ALTER TABLE " +:+ tableEscaped rt model
                                      +:+ " "
                                      +:+ String.concat ("," +:+ newline)
                                            sql))]]>
                    (<[ls := OArray (map VStr sql)]> h)))
  /\ (forall e,
        alterTableSQL m actualFields actualIndexes = Throw e ->
        forall checkOnly,
          alterTable rt d model m actualFields actualIndexes done checkOnly h
          = [Raised e]).
Proof.
  split; [|split].
  - intros E checkOnly. unfold alterTable. rewrite E. reflexivity.
  - intros sql E Hne. unfold alterTable. rewrite E.
    destruct sql as [|s sql']; [congruence|].
    unfold alloc.
    set (ls := fresh (dom h)).
    set (h1 := <[ls := OArray (map VStr (s :: sql'))]> h).
    set (lo := fresh (dom h1)).
    assert (Hls : h !! ls = None)
      by (apply (not_elem_of_dom (D := gset nat)); apply is_fresh).
    assert (Hlo : h1 !! lo = None)
      by (apply (not_elem_of_dom (D := gset nat)); apply is_fresh).
    assert (Hd : ls <> lo).
    { intros Eq. rewrite <- Eq in Hlo. unfold h1 in Hlo.
      rewrite lookup_insert_eq in Hlo. discriminate. }
    exists ls, lo. split; [exact Hd|]. split; [exact Hls|]. split.
    + unfold h1 in Hlo. rewrite lookup_insert_ne in Hlo by exact Hd.
      exact Hlo.
    + reflexivity.
  - intros e E checkOnly. unfold alterTable. rewrite E. reflexivity.
Qed.

Lemma alterTable_without_query_witness :
  alterTable sampleRuntime quietDriver "Pair" pairModel
    (Some (liveFields pairLive)) (Some (liveIndexes pairLive)) record false ∅
  = [Called [] ∅].
Proof.
  apply (proj1 (alterTable_without_query sampleRuntime quietDriver "Pair"
                  pairModel (Some (liveFields pairLive))
                  (Some (liveIndexes pairLive)) record ∅)).
  vm_compute. reflexivity.
Defined.

(** ** The dispatch on the type of the property *)

Section TypeDispatch.

Variable rt : runtime.

(** How a plain scalar is encoded under a property.  Under a [Number]
    property the encoding is always a number, whatever was given (a
    string that is no numeral gives [NaN]).  Under a property that is
    neither [Number], [Date] nor [Boolean] it is always the text of the
    value passed through the escaper. *)
Theorem scalar_encoding_by_type fuel p v h :
  scalar v ->
  (typeName p = "Number" ->
     exists r, toDatabase rt (S fuel) (Descr p) v h = Ok (r, h)
               /\ typeof r = "number")
  /\ (typeName p <> "Number" -> typeName p <> "Date" ->
      typeName p <> "Boolean" ->
      exists s, toStr rt h v = Ok s
                /\ toDatabase rt (S fuel) (Descr p) v h
                   = Ok (VStr (escapePrim rt (VStr s)), h)).
Proof.
  intros Hv.
  destruct (scalar_encoded rt fuel (Descr p) v h) as (Hn & Hu & Ho & _);
    [discriminate|exact Hv|].
  rewrite toDatabase_literal by assumption. unfold toDatabaseTyped. split.
  - intros Ht. rewrite Ht. change (String.eqb "Number" "Number") with true.
    cbv iota.
    destruct v as [| |b|n| |s|l]; try contradiction; cbn [toNumber];
      try (eexists; split; reflexivity).
    destruct (strToNumber rt s); eexists; split; reflexivity.
  - intros H1 H2 H3.
    apply String.eqb_neq in H1, H2, H3. rewrite H1, H2, H3.
    destruct v as [| |[]|n| |s|l]; try contradiction;
      eexists; split; reflexivity.
Qed.

End TypeDispatch.

Lemma scalar_encoding_by_type_witness :
  (exists r, toDatabase sampleRuntime 1 (Descr (plainProp "Number"))
               (VStr "1 OR 1=1") ∅ = Ok (r, ∅)
             /\ typeof r = "number")
  /\ toDatabase sampleRuntime 1 (Descr (plainProp "String")) (VNum 5) ∅
     = Ok (VStr "'5'", ∅).
Proof.
  split.
  - apply (proj1 (scalar_encoding_by_type sampleRuntime 0
                    (plainProp "Number") (VStr "1 OR 1=1") ∅ I)).
    reflexivity.
  - destruct (proj2 (scalar_encoding_by_type sampleRuntime 0
                       (plainProp "String") (VNum 5) ∅ I))
      as (s & Hs & H); try discriminate.
    vm_compute in Hs. injection Hs as <-. exact H.
Defined.
